(** * Homelink backend: the LM Studio client, the vision router and the
      LANA chat route

    A shallow embedding of

    - [src/backend/lm_studio_client.py]  (class [LMStudioClient]),
    - [src/backend/vision_router_fixed.py],
    - [src/backend/lana_server_fixed.py] ([load_memory], [save_context] and
      the [/v1/chat/completions] route),

    followed by the properties of the specification that concern them.

    Conventions of the embedding.

    - Python values that come from JSON are values of [json]; [JNull] is
      Python's [None].
    - [time.time()] readings, delays and timeouts are exact rationals.
    - Every function of the source is a computation in the monad [M]: it
      threads the process state [sys] and either returns or raises a Python
      exception.  [try ... except] is [try_except].
    - The outside world is a set of oracles, fixed in [Section Program]: the
      clock, the HTTP backend and the camera.  Each oracle sees the trace of
      effects performed so far, so a backend may answer every call
      differently.
    - Effects that leave the process (HTTP requests, sleeps, camera
      operations, calls to collaborators) are appended to [trace].  Console
      output ([print]) is not modelled.
    - Arguments have the types the source annotates or documents: a request
      body ([RequestBody]) is a JSON object in the OpenAI chat format, its
      textual fields are strings when present, and [messages] is a list of
      objects.  The part of the route that reads the body is given on every
      JSON value as well ([chat_completions_intake]). *)

From Stdlib Require Import Bool ZArith QArith String List Lia.
Import ListNotations.
Open Scope string_scope.
Open Scope Z_scope.

Set Warnings "-register-all".

(** ** JSON values and the Python operations the source applies to them *)

Inductive json : Type :=
| JNull
| JBool (b : bool)
| JInt (n : Z)
| JFloat (q : Q)
| JStr (s : string)
| JArr (items : list json)
| JObj (fields : list (string * json)).

(** Exceptions the embedded code can meet. *)
Inductive exn : Type :=
| ConnectionError      (* requests.exceptions.ConnectionError *)
| Timeout              (* requests.exceptions.Timeout *)
| HTTPError (status : Z)
| RequestException     (* any other failure of the HTTP library *)
| JSONDecodeError
| KeyError
| IndexError
| TypeError
| AttributeError
| ValueError
| BadRequest           (* request.get_json cannot parse the body *)
| CameraError.         (* any failure inside cv2 / base64 *)

Definition Qlt_bool (x y : Q) : bool := negb (Qle_bool y x).

(** [bool(v)] *)
Definition truthy (v : json) : bool :=
  match v with
  | JNull => false
  | JBool b => b
  | JInt n => negb (n =? 0)
  | JFloat q => negb (Qeq_bool q 0)
  | JStr s => negb (String.eqb s "")
  | JArr items => match items with [] => false | _ => true end
  | JObj fields => match fields with [] => false | _ => true end
  end.

(** Truthiness of an [Optional[str]]. *)
Definition truthy_str (o : option string) : bool :=
  match o with
  | Some s => negb (String.eqb s "")
  | None => false
  end.

(** Truthiness of an [Optional[float]]: [None] and [0.0] are false. *)
Definition truthy_float (o : option Q) : bool :=
  match o with
  | Some t => negb (Qeq_bool t 0)
  | None => false
  end.

(** [dict.get(key)] on the fields of a JSON object. *)
Fixpoint dict_get (fields : list (string * json)) (key : string) : option json :=
  match fields with
  | [] => None
  | (k, v) :: rest => if String.eqb k key then Some v else dict_get rest key
  end.

(** ** Requests, effects and the process state *)

Inductive http_request : Type :=
| GET (url : string) (timeout : Q)
| POST (url : string) (payload : json) (timeout : Q).

(** What [requests.get] / [requests.post] does with a request. *)
Inductive http_result : Type :=
| Refused                                   (* raises ConnectionError *)
| TimedOut                                  (* raises Timeout *)
| Failed                                    (* raises another exception *)
| Responded (status_code : Z) (body : option json).
                                            (* [body = None]: the text is not JSON *)

Record Response : Type := {
  status_code : Z;
  body : option json
}.

(** What the camera does during one [_capture_frame]. *)
Inductive camera_result : Type :=
| OpenRaises                                (* cv2.VideoCapture(0) raises *)
| ReadRaises                                (* cap.read() raises *)
| Frame (ret : bool) (encoded : option string).
     (* [cap.read()] gave [ret]; [encoded] is the base64 text of the JPEG of
        the frame, [None] when encoding raises *)

Record VisionState : Type := {
  vs_intent : option string;
  vs_active : bool;
  vs_result : option json;
  vs_updated_at : Q
}.

Inductive event : Type :=
| EvHttp (req : http_request)
| EvSleep (seconds : Q)
| EvCameraOpen
| EvCameraRead
| EvCameraRelease
| EvSaveImage (image_b64 : string)
| EvVisionState (published : VisionState)
| EvMatchIntent (prompt : string)
| EvExecuteCommand (intent prompt : string).

(** The attributes of an [LMStudioClient] instance. *)
Record LMStudioClient : Type := {
  base_url : string;
  chat_endpoint : string;
  models_endpoint : string;
  primary_model : string;
  vision_model : string;
  timeout : Q;
  health_timeout : Q;
  vision_timeout : Q;          (* config["timeouts"]["vision_request"] *)
  max_retries : Z;
  retry_delay : Q;
  _last_health_check : option Q;
  _is_healthy : bool
}.

(** A conversation entry, as [chat_completions] builds it. *)
Record Entry : Type := {
  e_user : string;
  e_prompt : string;
  e_response : json;
  e_intent : option string
}.

(** One element of the [messages] array of a request body. *)
Record Message : Type := {
  m_role : option string;
  m_content : option string
}.

(** The JSON body of a request to [/v1/chat/completions]; [None] is an
    absent key. *)
Record RequestBody : Type := {
  rb_prompt : option string;
  rb_input : option string;
  rb_messages : option (list Message);
  rb_linked_user : option string
}.

(** The JSON object stored in [learned_triggers.json]; a key may be absent. *)
Record MemoryData : Type := {
  recent_memory : option (list Entry);
  known_intents : option json;
  other_keys : list (string * json)
}.

Inductive file : Type :=
| Missing                       (* os.path.exists is false *)
| Corrupt                       (* json.load raises JSONDecodeError *)
| Stored (data : MemoryData).

Record sys : Type := {
  client : LMStudioClient;      (* the singleton behind get_client() *)
  vision_state : VisionState;
  memory_file : file;           (* MEMORY_FILE *)
  trace : list event
}.

Definition set_client (c : LMStudioClient) (s : sys) : sys :=
  {| client := c; vision_state := vision_state s;
     memory_file := memory_file s; trace := trace s |}.

Definition set_vision_state (v : VisionState) (s : sys) : sys :=
  {| client := client s; vision_state := v;
     memory_file := memory_file s; trace := trace s |}.

Definition set_memory_file (f : file) (s : sys) : sys :=
  {| client := client s; vision_state := vision_state s;
     memory_file := f; trace := trace s |}.

Definition log (e : event) (s : sys) : sys :=
  {| client := client s; vision_state := vision_state s;
     memory_file := memory_file s; trace := trace s ++ [e] |}.

(** [self._is_healthy = ok; self._last_health_check = now] *)
Definition record_health (ok : bool) (now : Q) (c : LMStudioClient) : LMStudioClient :=
  {| base_url := base_url c; chat_endpoint := chat_endpoint c;
     models_endpoint := models_endpoint c; primary_model := primary_model c;
     vision_model := vision_model c; timeout := timeout c;
     health_timeout := health_timeout c; vision_timeout := vision_timeout c;
     max_retries := max_retries c; retry_delay := retry_delay c;
     _last_health_check := Some now; _is_healthy := ok |}.

(** ** The monad of computations *)

Inductive outcome (A : Type) : Type :=
| Returned (a : A)
| Raised (e : exn).
Arguments Returned {A} a.
Arguments Raised {A} e.

Definition M (A : Type) : Type := sys -> outcome A * sys.

Definition ret {A : Type} (a : A) : M A := fun s => (Returned a, s).

Definition raise {A : Type} (e : exn) : M A := fun s => (Raised e, s).

Definition bind {A B : Type} (m : M A) (k : A -> M B) : M B :=
  fun s =>
    match m s with
    | (Returned a, s') => k a s'
    | (Raised e, s') => (Raised e, s')
    end.

(** [try: m  except ... as e: handler e] *)
Definition try_except {A : Type} (m : M A) (handler : exn -> M A) : M A :=
  fun s =>
    match m s with
    | (Returned a, s') => (Returned a, s')
    | (Raised e, s') => handler e s'
    end.

Definition get_state : M sys := fun s => (Returned s, s).

Definition emit (e : event) : M unit := fun s => (Returned tt, log e s).

Declare Scope prog_scope.
Delimit Scope prog_scope with prog.
Notation "x <- m ;; k" := (bind m (fun x => k))
  (at level 100, m at next level, right associativity) : prog_scope.
Notation "m ;;; k" := (bind m (fun _ => k))
  (at level 100, right associativity) : prog_scope.
Open Scope prog_scope.

(** [time.sleep(seconds)]: a negative length raises [ValueError]. *)
Definition time_sleep (seconds : Q) : M unit :=
  if Qlt_bool seconds 0 then raise ValueError else emit (EvSleep seconds).

(** [response.raise_for_status()]: 4xx and 5xx raise [HTTPError]. *)
Definition raise_for_status (r : Response) : M unit :=
  if (400 <=? status_code r) && (status_code r <? 600)
  then raise (HTTPError (status_code r))
  else ret tt.

(** [response.json()] *)
Definition response_json (r : Response) : M json :=
  match body r with
  | Some data => ret data
  | None => raise JSONDecodeError
  end.

(** [v[key]] for a string key. *)
Definition getitem (v : json) (key : string) : M json :=
  match v with
  | JObj fields =>
      match dict_get fields key with
      | Some x => ret x
      | None => raise KeyError
      end
  | _ => raise TypeError
  end.

(** [v[0]] *)
Definition getitem0 (v : json) : M json :=
  match v with
  | JArr items =>
      match items with
      | x :: _ => ret x
      | [] => raise IndexError
      end
  | JStr s =>
      match s with
      | String ch _ => ret (JStr (String ch EmptyString))
      | EmptyString => raise IndexError
      end
  | JObj _ => raise KeyError
  | _ => raise TypeError
  end.

(** [range(n)] *)
Definition py_range (n : Z) : list Z := map Z.of_nat (seq 0 (Z.to_nat n)).

(** ** Sample states and environments *)

Module Scenario.

Definition config : LMStudioClient :=
  {| base_url := "http://localhost:1234";
     chat_endpoint := "http://localhost:1234/v1/chat/completions";
     models_endpoint := "http://localhost:1234/v1/models";
     primary_model := "primary";
     vision_model := "vision";
     timeout := 60;
     health_timeout := 5;
     vision_timeout := 120;
     max_retries := 3;
     retry_delay := 2;
     _last_health_check := Some 100%Q;
     _is_healthy := true |}.

Definition idle : VisionState :=
  {| vs_intent := None; vs_active := false; vs_result := None; vs_updated_at := 0 |}.

(** A client whose last check, at time 100, found the backend healthy. *)
Definition up : sys :=
  {| client := config; vision_state := idle; memory_file := Missing; trace := [] |}.

(** The same client, the last check having found the backend down. *)
Definition down : sys :=
  set_client (record_health false 100 config) up.

(** A client just constructed: no check has been made. *)
Definition fresh : sys :=
  {| client :=
       {| base_url := base_url config; chat_endpoint := chat_endpoint config;
          models_endpoint := models_endpoint config;
          primary_model := primary_model config; vision_model := vision_model config;
          timeout := timeout config; health_timeout := health_timeout config;
          vision_timeout := vision_timeout config;
          max_retries := max_retries config; retry_delay := retry_delay config;
          _last_health_check := None; _is_healthy := false |};
     vision_state := idle; memory_file := Missing; trace := [] |}.

(** The clock reads 110: ten seconds after the cached check of [up]. *)
Definition at_110 : list event -> Q := fun _ => 110%Q.

(** The clock reads 0 before any effect and 10 afterwards. *)
Definition from_zero : list event -> Q :=
  fun tr => match tr with [] => 0%Q | _ => 10%Q end.

(** A backend that answers the first request with status 200 and refuses
    every later one. *)
Definition going_down : list event -> http_request -> http_result :=
  fun tr _ => match tr with [] => Responded 200 None | _ => Refused end.

Definition refusing : list event -> http_request -> http_result :=
  fun _ _ => Refused.

Definition not_found : list event -> http_request -> http_result :=
  fun _ _ => Responded 404 None.

Definition completion (text : string) : json :=
  JObj [("choices",
         JArr [JObj [("message",
                      JObj [("role", JStr "assistant"); ("content", JStr text)])]])].

(** A backend that answers every request with status 300 and a complete
    body. *)
Definition multiple_choices : list event -> http_request -> http_result :=
  fun _ _ => Responded 300 (Some (completion "hi")).

Definition blind : list event -> camera_result := fun _ => Frame false None.

Definition no_intent : string -> option string := fun _ => None.
Definition no_command : string -> string -> string := fun _ _ => "".
Definition class_name : exn -> string := fun _ => "error".
Definition repr : json -> string := fun _ => "value".
Definition one_word : string -> Z := fun _ => 1.

Definition hello : RequestBody :=
  {| rb_prompt := Some "hello"; rb_input := None; rb_messages := None;
     rb_linked_user := None |}.

Definition empty_body : RequestBody :=
  {| rb_prompt := None; rb_input := Some "";
     rb_messages := Some [{| m_role := Some "user"; m_content := None |}];
     rb_linked_user := None |}.

Definition numbered (n : nat) : Entry :=
  {| e_user := "u"; e_prompt := "p"; e_response := JInt (Z.of_nat n);
     e_intent := None |}.

(** Further sample worlds. *)

Definition timing_out : list event -> http_request -> http_result :=
  fun _ _ => TimedOut.

Definition answering : list event -> http_request -> http_result :=
  fun _ _ => Responded 200 (Some (completion "hi")).

(** A backend that refuses the first request and answers every later one. *)
Definition second_try : list event -> http_request -> http_result :=
  fun tr _ => match tr with [] => Refused | _ => Responded 200 (Some (completion "hi")) end.

(** A backend whose completion holds a list, not a string. *)
Definition list_reply : list event -> http_request -> http_result :=
  fun _ _ =>
    Responded 200
      (Some (JObj [("choices",
                    JArr [JObj [("message",
                                 JObj [("content", JArr [JStr "a"])])]])])).

(** A backend that lists two models. *)
Definition two_models : list event -> http_request -> http_result :=
  fun _ _ =>
    Responded 200
      (Some (JObj [("data", JArr [JObj [("id", JStr "primary")];
                                  JObj [("id", JStr "vision")]])])).

(** The client of [up] with a negative retry delay. *)
Definition hasty : sys :=
  {| client :=
       {| base_url := base_url config; chat_endpoint := chat_endpoint config;
          models_endpoint := models_endpoint config;
          primary_model := primary_model config; vision_model := vision_model config;
          timeout := timeout config; health_timeout := health_timeout config;
          vision_timeout := vision_timeout config;
          max_retries := max_retries config; retry_delay := (-1)%Q;
          _last_health_check := Some 100%Q; _is_healthy := true |};
     vision_state := idle; memory_file := Missing; trace := [] |}.

Definition seeing : list event -> camera_result :=
  fun _ => Frame true (Some "AAAA").

Definition lights_intent : string -> option string := fun _ => Some "lights_on".
Definition see_intent : string -> option string := fun _ => Some "see".
Definition done : string -> string -> string := fun _ _ => "done".

(** A backend whose completion holds a number. *)
Definition number_reply : list event -> http_request -> http_result :=
  fun _ _ =>
    Responded 200
      (Some (JObj [("choices",
                    JArr [JObj [("message", JObj [("content", JInt 5)])]])])).

(** A body whose only message is not an object. *)
Definition stray_message : json := JObj [("messages", JArr [JInt 42])].

End Scenario.

Section Program.

(** The outside world. *)
Variable clock : list event -> Q.                          (* time.time() *)
Variable backend : list event -> http_request -> http_result.
Variable camera : list event -> camera_result.

(** Collaborators and library functions whose code is not part of the
    sources; each is a parameter of the development. *)
Variable match_intent : string -> option string.           (* intent_engine.match_intent *)
Variable execute_command : string -> string -> string.     (* actions.execute_command *)
Variable manifest_linked_user : option string.             (* lana_manifest.get("linked_user") *)
Variable exn_str : exn -> string.                          (* str(e) *)
Variable py_str : json -> string.                          (* str(v) of a value that is not a str *)
Variable word_count : string -> Z.                         (* len(s.split()) *)

Definition time_time : M Q := fun s => (Returned (clock (trace s)), s).

Definition send (req : http_request) : M Response :=
  fun s =>
    let s' := log (EvHttp req) s in
    match backend (trace s) req with
    | Refused => (Raised ConnectionError, s')
    | TimedOut => (Raised Timeout, s')
    | Failed => (Raised RequestException, s')
    | Responded st b => (Returned {| status_code := st; body := b |}, s')
    end.

Definition requests_get (url : string) (tmo : Q) : M Response :=
  send (GET url tmo).

Definition requests_post (url : string) (payload : json) (tmo : Q) : M Response :=
  send (POST url payload tmo).

(** *** lm_studio_client.py *)

Definition set_health (ok : bool) (now : Q) : M unit :=
  fun s => (Returned tt, set_client (record_health ok now (client s)) s).

(** [LMStudioClient.health_check] *)
Definition health_check (force : bool) : M bool :=
  now <- time_time ;;
  s <- get_state ;;
  let self := client s in
  if negb force && truthy_float (_last_health_check self) &&
     match _last_health_check self with
     | Some last => Qlt_bool (now - last) 30
     | None => false
     end
  then ret (_is_healthy self)
  else
    try_except
      (response <- requests_get (models_endpoint self) (health_timeout self) ;;
       let ok := status_code response =? 200 in
       set_health ok now ;;;
       ret ok)
      (fun e =>
         match e with
         | ConnectionError => set_health false now ;;; ret false
         | Timeout => set_health false now ;;; ret false
         | _ => set_health false now ;;; ret false
         end).

(** [data["choices"][0]["message"]["content"]] *)
Definition first_choice_content (data : json) : M json :=
  choices <- getitem data "choices" ;;
  first <- getitem0 choices ;;
  message <- getitem first "message" ;;
  getitem message "content".

Definition chat_messages (prompt : string) (system_prompt : option string) : list json :=
  (if truthy_str system_prompt
   then match system_prompt with
        | Some sp => [JObj [("role", JStr "system"); ("content", JStr sp)]]
        | None => []
        end
   else [])
  ++ [JObj [("role", JStr "user"); ("content", JStr prompt)]].

Definition chat_payload (model : string) (messages : list json)
  (temperature : Q) (max_tokens : Z) : json :=
  JObj [("model", JStr model);
        ("messages", JArr messages);
        ("temperature", JFloat temperature);
        ("max_tokens", JInt max_tokens);
        ("stream", JBool false)].

(** [model or default] *)
Definition resolve_model (model : option string) (default : string) : string :=
  if truthy_str model
  then match model with Some m => m | None => default end
  else default.

(** One iteration of the retry loop of [chat_completion]: [Some v] when the
    iteration executes [return v], [None] when the loop goes on. *)
Definition chat_attempt (self : LMStudioClient) (payload : json) (attempt : Z)
  : M (option json) :=
  try_except
    (response <- requests_post (chat_endpoint self) payload (timeout self) ;;
     raise_for_status response ;;;
     data <- response_json response ;;
     content <- first_choice_content data ;;
     ret (Some content))
    (fun e =>
       match e with
       | ConnectionError =>
           (if attempt <? max_retries self - 1
            then time_sleep (retry_delay self) else ret tt) ;;;
           ret None
       | Timeout =>
           (if attempt <? max_retries self - 1
            then time_sleep (retry_delay self) else ret tt) ;;;
           ret None
       | HTTPError _ => ret (Some JNull)
       | KeyError => ret (Some JNull)
       | _ => ret (Some JNull)
       end).

Fixpoint chat_retry_loop (self : LMStudioClient) (payload : json)
  (attempts : list Z) : M json :=
  match attempts with
  | [] => ret JNull
  | attempt :: rest =>
      r <- chat_attempt self payload attempt ;;
      match r with
      | Some v => ret v
      | None => chat_retry_loop self payload rest
      end
  end.

(** [LMStudioClient.chat_completion] *)
Definition chat_completion (prompt : string) (model : option string)
  (temperature : Q) (max_tokens : Z) (system_prompt : option string) : M json :=
  healthy <- health_check false ;;
  if negb healthy then ret JNull
  else
    s <- get_state ;;
    let self := client s in
    let model := resolve_model model (primary_model self) in
    let messages := chat_messages prompt system_prompt in
    let payload := chat_payload model messages temperature max_tokens in
    chat_retry_loop self payload (py_range (max_retries self)).

Definition vision_payload (model prompt image_base64 : string) (temperature : Q) : json :=
  JObj [("model", JStr model);
        ("messages",
         JArr [JObj [("role", JStr "user");
                     ("content",
                      JArr [JObj [("type", JStr "text"); ("text", JStr prompt)];
                            JObj [("type", JStr "image_url");
                                  ("image_url",
                                   JObj [("url",
                                          JStr ("data:image/jpeg;base64," ++ image_base64))])]])]]);
        ("temperature", JFloat temperature)].

(** [LMStudioClient.vision_completion] *)
Definition vision_completion (prompt image_base64 : string)
  (model : option string) (temperature : Q) : M json :=
  healthy <- health_check false ;;
  if negb healthy then ret JNull
  else
    s <- get_state ;;
    let self := client s in
    let model := resolve_model model (vision_model self) in
    let payload := vision_payload model prompt image_base64 temperature in
    try_except
      (response <- requests_post (chat_endpoint self) payload (vision_timeout self) ;;
       raise_for_status response ;;;
       data <- response_json response ;;
       first_choice_content data)
      (fun _ => ret JNull).

(** *** vision_router_fixed.py *)

Definition VISION_INTENTS : list string :=
  ["see"; "see_me"; "check_wellbeing"; "identify_objects"; "read_text"; "save_view"].

(** Modelled from the spec: [vision_state.update_vision_state] is imported by
    the vision router but is not among the sources.  Per the data model of the
    spec, VisionState is the record [{intent, active, result, updated_at}],
    replaced as a whole on every update: the keyword arguments that are given
    overwrite their fields, the others are kept, and [updated_at] becomes the
    current time.  Every publication is also appended to the trace. *)
Definition update_vision_state (intent : option string) (active : option bool)
  (result : option json) : M unit :=
  now <- time_time ;;
  fun s =>
    let old := vision_state s in
    let new := {| vs_intent := match intent with Some i => Some i | None => vs_intent old end;
                  vs_active := match active with Some a => a | None => vs_active old end;
                  vs_result := match result with Some r => Some r | None => vs_result old end;
                  vs_updated_at := now |} in
    (Returned tt, log (EvVisionState new) (set_vision_state new s)).

Definition camera_now : M camera_result :=
  fun s => (Returned (camera (trace s)), s).

(** [_capture_frame] *)
Definition _capture_frame : M (option string) :=
  cam <- camera_now ;;
  try_except
    (match cam with
     | OpenRaises => raise CameraError
     | _ => emit EvCameraOpen
     end ;;;
     time_sleep (2 # 10) ;;;
     emit EvCameraRead ;;;
     match cam with
     | ReadRaises => raise CameraError
     | _ => emit EvCameraRelease
     end ;;;
     match cam with
     | Frame ok encoded =>
         if negb ok then ret None
         else match encoded with
              | Some image_b64 => ret (Some image_b64)
              | None => raise CameraError
              end
     | _ => raise CameraError
     end)
    (fun _ => ret None).

(** [_get_vision_prompt] *)
Definition _get_vision_prompt (intent user_prompt : string) : string :=
  let prompts :=
    [("see", JStr "Describe what you see in this image in 2-3 sentences.");
     ("see_me",
      JStr ("Is there a person visible in this image? " ++
            "If yes, briefly describe what you can see about them (position, posture, etc). " ++
            "If no, describe what is visible instead."));
     ("check_wellbeing",
      JStr ("Analyze the person in this image. " ++
            "Do they appear tired, stressed, energetic, or calm? " ++
            "Provide a brief wellbeing assessment based on visible cues."));
     ("identify_objects",
      JStr ("List all objects you can identify in this image. " ++
            "Format: Object 1, Object 2, Object 3, etc."));
     ("read_text",
      JStr ("Extract and transcribe any visible text in this image. " ++
            "If no text is visible, state 'No text detected'."));
     ("save_view", JStr "Describe this scene in detail for archival purposes.")] in
  if negb (String.eqb user_prompt "") && Nat.ltb 10 (String.length user_prompt)
  then user_prompt
  else match dict_get prompts intent with
       | Some (JStr p) => p
       | _ => "Describe what you see."
       end.

Definition error_dict (code message : string) : json :=
  JObj [("error", JStr code); ("message", JStr message)].

(** The slices of the logging lines, [result_text[:100]] and
    [response_text[:100]] (with [len(response_text)]): they need a sequence. *)
Definition preview (response_text : json) : M unit :=
  match response_text with
  | JStr _ => ret tt
  | JArr _ => ret tt
  | _ => raise TypeError
  end.

(** [handle_vision_intent] *)
Definition handle_vision_intent (intent prompt : string) (save_image : bool) : M json :=
  update_vision_state (Some intent) (Some true) None ;;;
  image <- _capture_frame ;;
  if negb (truthy_str image) then
    update_vision_state None (Some false) (Some (JStr "Camera capture failed")) ;;;
    ret (error_dict "camera_failed" "Unable to access camera")
  else
    let image_b64 := match image with Some b => b | None => "" end in
    (if save_image then emit (EvSaveImage image_b64) else ret tt) ;;;
    let vision_prompt := _get_vision_prompt intent prompt in
    healthy <- health_check false ;;
    if negb healthy then
      let error_msg := "LM Studio not connected" in
      update_vision_state None (Some false) (Some (JStr error_msg)) ;;;
      ret (error_dict "lm_studio_disconnected" error_msg)
    else
      try_except
        (result_text <- vision_completion vision_prompt image_b64 None (2 # 10) ;;
         if truthy result_text then
           preview result_text ;;;
           update_vision_state None (Some false) (Some result_text) ;;;
           ret (JObj [("intent", JStr intent);
                      ("result", result_text);
                      ("success", JBool true)])
         else
           let error_msg := "Vision model returned no response" in
           update_vision_state None (Some false) (Some (JStr error_msg)) ;;;
           ret (error_dict "no_response" error_msg))
        (fun e =>
           let error_msg := exn_str e in
           update_vision_state None (Some false) (Some (JStr error_msg)) ;;;
           ret (error_dict "vision_failed" error_msg)).

(** *** lana_server_fixed.py *)

Definition fresh_memory : MemoryData :=
  {| recent_memory := Some []; known_intents := Some (JObj []); other_keys := [] |}.

(** [load_memory] *)
Definition load_memory : M MemoryData :=
  s <- get_state ;;
  match memory_file s with
  | Missing => ret fresh_memory
  | Corrupt => ret fresh_memory
  | Stored data =>
      ret {| recent_memory := match recent_memory data with
                              | Some l => Some l
                              | None => Some []
                              end;
             known_intents := match known_intents data with
                              | Some k => Some k
                              | None => Some (JObj [])
                              end;
             other_keys := other_keys data |}
  end.

(** [l[-n:]] for a positive [n]. *)
Definition last_n {A : Type} (n : nat) (l : list A) : list A :=
  skipn (length l - n) l.

Definition json_dump (data : MemoryData) : M unit :=
  fun s => (Returned tt, set_memory_file (Stored data) s).

(** [save_context] *)
Definition save_context (entry : Entry) : M unit :=
  data <- load_memory ;;
  let appended := match recent_memory data with
                  | Some l => (l ++ [entry])%list
                  | None => [entry]
                  end in
  let kept := if Nat.ltb 100 (length appended) then last_n 100 appended else appended in
  json_dump {| recent_memory := Some kept;
               known_intents := known_intents data;
               other_keys := other_keys data |}.

Definition apology : string :=
  "I can't connect to my language model right now. " ++
  "Please make sure LM Studio is running and the server is started.".

(** The prompt of a request body, as the route extracts it. *)
Definition extract_prompt (body : RequestBody) : option string :=
  let prompt := if truthy_str (rb_prompt body) then rb_prompt body else rb_input body in
  if negb (truthy_str prompt) then
    match rb_messages body with
    | Some (m :: rest) =>
        match m_content (last (m :: rest) m) with
        | Some content => Some content
        | None => Some ""
        end
    | _ => prompt
    end
  else prompt.

(** The text an f-string inserts for a value. *)
Definition format_value (v : json) : string :=
  match v with
  | JStr s => s
  | _ => py_str v
  end.

(** [len(response_text.split())] *)
Definition split_count (response_text : json) : M Z :=
  match response_text with
  | JStr s => ret (word_count s)
  | _ => raise AttributeError
  end.

Definition completion_body (model prompt : string) (response_text : json)
  (completion_tokens : Z) : json :=
  JObj [("id", JStr "lana-local");
        ("object", JStr "chat.completion");
        ("model", JStr model);
        ("choices",
         JArr [JObj [("index", JInt 0);
                     ("message",
                      JObj [("role", JStr "assistant"); ("content", response_text)]);
                     ("finish_reason", JStr "stop")]]);
        ("usage",
         JObj [("prompt_tokens", JInt (word_count prompt));
               ("completion_tokens", JInt completion_tokens);
               ("total_tokens", JInt (word_count prompt + completion_tokens))])].

(** The route [/v1/chat/completions]; the result is the JSON body and the
    HTTP status of the reply.  [request = None] is a body that
    [request.get_json] cannot parse. *)
Definition chat_completions (request : option RequestBody) : M (json * Z) :=
  try_except
    (body <- match request with
             | Some b => ret b
             | None => raise BadRequest
             end ;;
     let prompt := extract_prompt body in
     if negb (truthy_str prompt) then
       ret (JObj [("error", JStr "No input provided")], 400)
     else
       let prompt := match prompt with Some p => p | None => "" end in
       let linked_user :=
         match rb_linked_user body with
         | Some u => u
         | None => match manifest_linked_user with
                   | Some u => u
                   | None => "unknown"
                   end
         end in
       emit (EvMatchIntent prompt) ;;;
       let intent := match_intent prompt in
       response_text <-
         (if truthy_str intent then
            let intent := match intent with Some i => i | None => "" end in
            if existsb (String.eqb intent) VISION_INTENTS then
              vision_result <- handle_vision_intent intent prompt false ;;
              match vision_result with
              | JObj fields =>
                  match dict_get fields "error" with
                  | Some err => ret (JStr ("Vision error: " ++ format_value err))
                  | None =>
                      match dict_get fields "result" with
                      | Some r => ret r
                      | None => ret (JStr "No vision result")
                      end
                  end
              | _ => raise TypeError
              end
            else
              emit (EvExecuteCommand intent prompt) ;;;
              ret (JStr (execute_command intent prompt))
          else
            healthy <- health_check false ;;
            if negb healthy then ret (JStr apology)
            else
              let system_prompt :=
                "You are LANA, a helpful AI assistant linked to " ++ linked_user ++ ". " ++
                "Be warm, concise, and helpful." in
              llm_response <- chat_completion prompt None (7 # 10) 1000 (Some system_prompt) ;;
              if truthy llm_response then ret llm_response
              else ret (JStr "I'm having trouble generating a response right now.")) ;;
       preview response_text ;;;
       save_context {| e_user := linked_user; e_prompt := prompt;
                       e_response := response_text; e_intent := intent |} ;;;
       s <- get_state ;;
       completion_tokens <- split_count response_text ;;
       ret (completion_body (primary_model (client s)) prompt response_text
              completion_tokens, 200))
    (fun e =>
       ret (JObj [("error", JStr (exn_str e)); ("type", JStr "server_error")], 500)).

(** *** The remaining operations of the three files

    A [str] is a Rocq string with one [ascii] per character, so that
    [String.length] is [len]. *)

(** [v.get(key, default)]: only a dict has the method. *)
Definition method_get (v : json) (key : string) (default : json) : M json :=
  match v with
  | JObj fields =>
      ret (match dict_get fields key with Some x => x | None => default end)
  | _ => raise AttributeError
  end.

(** The elements a [for] draws from [v]: the items of a list, the keys of a
    dict, the characters of a str; nothing else is iterable. *)
Definition iterate (v : json) : M (list json) :=
  match v with
  | JArr items => ret items
  | JObj fields => ret (map (fun kv => JStr (fst kv)) fields)
  | JStr s =>
      ret (map (fun ch => JStr (String ch EmptyString)) (list_ascii_of_string s))
  | _ => raise TypeError
  end.

(** [[model["id"] for model in models]] *)
Fixpoint collect_ids (models : list json) : M (list json) :=
  match models with
  | [] => ret []
  | model :: rest =>
      id <- getitem model "id" ;;
      ids <- collect_ids rest ;;
      ret (id :: ids)
  end.

(** [LMStudioClient.get_loaded_models] *)
Definition get_loaded_models : M (option (list json)) :=
  s <- get_state ;;
  let self := client s in
  try_except
    (response <- requests_get (models_endpoint self) (health_timeout self) ;;
     raise_for_status response ;;;
     data <- response_json response ;;
     listed <- method_get data "data" (JArr []) ;;
     items <- iterate listed ;;
     models <- collect_ids items ;;
     ret (Some models))
    (fun _ => ret None).

(** [name == v] for a str [name]. *)
Definition equals_str (name : string) (v : json) : bool :=
  match v with
  | JStr s => String.eqb name s
  | _ => false
  end.

(** [LMStudioClient.verify_model] *)
Definition verify_model (model_name : string) : M bool :=
  models <- get_loaded_models ;;
  match models with
  | None => ret false
  | Some ids => ret (existsb (equals_str model_name) ids)
  end.


(** The route [/health]. *)
Definition health : M json :=
  lm_healthy <- health_check false ;;
  models <- (if lm_healthy
             then listed <- get_loaded_models ;;
                  ret (match listed with
                       | Some ids => JArr ids
                       | None => JNull
                       end)
             else ret (JArr [])) ;;
  s <- get_state ;;
  ret (JObj [("lana", JStr "healthy");
             ("lm_studio",
              JObj [("connected", JBool lm_healthy);
                    ("endpoint", JStr (base_url (client s)));
                    ("loaded_models", models)])]).

(** The route [/test]; [request = None] is a request without a JSON body. *)
Definition test (request : option RequestBody) : M (json * Z) :=
  try_except
    (data <- match request with
             | Some b => ret b
             | None => raise AttributeError
             end ;;
     let prompt := match rb_prompt data with
                   | Some p => p
                   | None => "Hello"
                   end in
     response <- chat_completion prompt None (7 # 10) 1000 None ;;
     connected <- health_check false ;;
     ret (JObj [("prompt", JStr prompt);
                ("response", response);
                ("connected", JBool connected)], 200))
    (fun e => ret (JObj [("error", JStr (exn_str e))], 500)).

(** *** The route on an arbitrary body

    [request.get_json] returns whatever JSON value the request holds, and the
    route reads it with [.get], truthiness, [len] and [messages[-1]], which
    are defined on every value.  [request_prompt] is lines 166-172 on such a
    value, and [chat_completions_intake] the route up to line 175 under its
    handler: there the route has answered, or it goes on with the prompt it
    found.  On the bodies that [RequestBody] describes they agree with
    [extract_prompt] and [chat_completions]. *)

(** [len(v)] *)
Definition py_len (v : json) : M Z :=
  match v with
  | JStr s => ret (Z.of_nat (String.length s))
  | JArr items => ret (Z.of_nat (length items))
  | JObj fields => ret (Z.of_nat (length fields))
  | _ => raise TypeError
  end.

Fixpoint last_char (s : string) : option Ascii.ascii :=
  match s with
  | EmptyString => None
  | String ch rest => match rest with
                      | EmptyString => Some ch
                      | _ => last_char rest
                      end
  end.

(** [v[-1]] *)
Definition getitem_last (v : json) : M json :=
  match v with
  | JArr items =>
      match items with
      | x :: _ => ret (last items x)
      | [] => raise IndexError
      end
  | JStr s =>
      match last_char s with
      | Some ch => ret (JStr (String ch EmptyString))
      | None => raise IndexError
      end
  | JObj _ => raise KeyError
  | _ => raise TypeError
  end.

(** The prompt the route finds in the body (lines 166-172). *)
Definition request_prompt (body : json) : M json :=
  p <- method_get body "prompt" JNull ;;
  prompt <- (if truthy p then ret p else method_get body "input" JNull) ;;
  if negb (truthy prompt) then
    messages <- method_get body "messages" (JArr []) ;;
    if truthy messages then
      n <- py_len messages ;;
      if 0 <? n then
        m <- getitem_last messages ;;
        method_get m "content" (JStr "")
      else ret prompt
    else ret prompt
  else ret prompt.

(** Where the route stands after line 175. *)
Inductive intake : Type :=
| Answered (reply : json) (status : Z)   (* the route has returned *)
| Proceeds (prompt : json).              (* the route goes on to line 178 *)

(** The route [/v1/chat/completions] up to line 175; [request = None] is a
    body that [request.get_json] cannot parse. *)
Definition chat_completions_intake (request : option json) : M intake :=
  try_except
    (body <- match request with
             | Some b => ret b
             | None => raise BadRequest
             end ;;
     prompt <- request_prompt body ;;
     if negb (truthy prompt) then
       ret (Answered (JObj [("error", JStr "No input provided")]) 400)
     else ret (Proceeds prompt))
    (fun e =>
       ret (Answered (JObj [("error", JStr (exn_str e)); ("type", JStr "server_error")])
              500)).

(** The JSON value of a body that [RequestBody] describes. *)
Definition optional_field (key : string) (v : option json) : list (string * json) :=
  match v with
  | Some x => [(key, x)]
  | None => []
  end.

Definition message_json (m : Message) : json :=
  JObj (optional_field "role" (option_map JStr (m_role m)) ++
        optional_field "content" (option_map JStr (m_content m))).

Definition body_json (body : RequestBody) : json :=
  JObj (optional_field "prompt" (option_map JStr (rb_prompt body)) ++
        optional_field "input" (option_map JStr (rb_input body)) ++
        optional_field "messages"
          (option_map (fun l => JArr (map message_json l)) (rb_messages body)) ++
        optional_field "linked_user" (option_map JStr (rb_linked_user body))).

(** ** Vocabulary of the properties *)

Open Scope list_scope.

Definition is_post (e : event) : bool :=
  match e with
  | EvHttp (POST _ _ _) => true
  | _ => false
  end.

(** The requests sent with POST, in order. *)
Definition posts (tr : list event) : list event := filter is_post tr.

Definition is_sleep (e : event) : bool :=
  match e with
  | EvSleep _ => true
  | _ => false
  end.

(** The state [s] after the effects [l]. *)
Definition extend (l : list event) (s : sys) : sys :=
  {| client := client s; vision_state := vision_state s;
     memory_file := memory_file s; trace := trace s ++ l |}.

(** [n] occurrences of [a] with one [w] between consecutive ones. *)
Fixpoint spaced (n : nat) (a w : event) : list event :=
  match n with
  | O => []
  | S n' => a :: match n' with
                 | O => []
                 | S _ => w :: spaced n' a w
                 end
  end.

(** The guard of the cache in [health_check]. *)
Definition cache_hit (force : bool) (now : Q) (self : LMStudioClient) : bool :=
  negb force && truthy_float (_last_health_check self) &&
  match _last_health_check self with
  | Some last => Qlt_bool (now - last) 30
  | None => false
  end.

(** The request of the health probe. *)
Definition probe (self : LMStudioClient) : http_request :=
  GET (models_endpoint self) (health_timeout self).

(** What the probe makes of the answer of the backend. *)
Definition probe_ok (r : http_result) : bool :=
  match r with
  | Responded st _ => st =? 200
  | _ => false
  end.

(** The configuration read from [lana_config.json] never changes. *)
Definition same_config (c c' : LMStudioClient) : Prop :=
  base_url c' = base_url c /\
  chat_endpoint c' = chat_endpoint c /\
  models_endpoint c' = models_endpoint c /\
  primary_model c' = primary_model c /\
  vision_model c' = vision_model c /\
  timeout c' = timeout c /\
  health_timeout c' = health_timeout c /\
  vision_timeout c' = vision_timeout c /\
  max_retries c' = max_retries c /\
  retry_delay c' = retry_delay c.

(** The request every attempt of [chat_completion] sends. *)
Definition chat_request (self : LMStudioClient) (prompt : string)
  (model : option string) (temperature : Q) (max_tokens : Z)
  (system_prompt : option string) : http_request :=
  POST (chat_endpoint self)
    (chat_payload (resolve_model model (primary_model self))
       (chat_messages prompt system_prompt) temperature max_tokens)
    (timeout self).

(** The request of [vision_completion]. *)
Definition vision_request (self : LMStudioClient) (prompt image_base64 : string)
  (model : option string) (temperature : Q) : http_request :=
  POST (chat_endpoint self)
    (vision_payload (resolve_model model (vision_model self)) prompt image_base64
       temperature)
    (vision_timeout self).

(** The value at [choices[0].message.content] of a response body, when the
    body has one. *)
Definition content_of (data : json) : option json :=
  match data with
  | JObj fields =>
      match dict_get fields "choices" with
      | Some (JArr (JObj first :: _)) =>
          match dict_get first "message" with
          | Some (JObj message) => dict_get message "content"
          | _ => None
          end
      | _ => None
      end
  | _ => None
  end.

(** A response body that lacks [choices[0].message.content]: text that is not
    JSON, or JSON without that path. *)
Definition missing_content (b : option json) : Prop :=
  match b with
  | Some data => content_of data = None
  | None => True
  end.

(** [raise_for_status] raises on this status. *)
Definition is_http_error (st : Z) : bool := (400 <=? st) && (st <? 600).

(** The exceptions a subscript can raise. *)
Definition lookup_error (e : exn) : Prop :=
  e = KeyError \/ e = IndexError \/ e = TypeError.

(** What an attempt makes of a response: the value it returns from
    [chat_completion]. *)
Definition answer_of (st : Z) (b : option json) : json :=
  if is_http_error st then JNull
  else match b with
       | Some data => match content_of data with
                      | Some v => v
                      | None => JNull
                      end
       | None => JNull
       end.

(** [payload[key]] of a request payload. *)
Definition field (payload : json) (key : string) : option json :=
  match payload with
  | JObj fields => dict_get fields key
  | _ => None
  end.

(** The multimodal user message of a vision request. *)
Definition multimodal_message (prompt image_base64 : string) : json :=
  JObj [("role", JStr "user");
        ("content",
         JArr [JObj [("type", JStr "text"); ("text", JStr prompt)];
               JObj [("type", JStr "image_url");
                     ("image_url",
                      JObj [("url",
                             JStr ("data:image/jpeg;base64," ++ image_base64)%string)])]])].

(** Every event is the request [req] or a sleep. *)
Definition only_request (req : http_request) (l : list event) : Prop :=
  Forall (fun e => e = EvHttp req \/ is_sleep e = true) l.

(** The events a call adds to the trace. *)
Definition adds (s s' : sys) (l : list event) : Prop := trace s' = trace s ++ l.

(** The record an update publishes. *)
Definition updated (intent : option string) (active : option bool)
  (result : option json) (now : Q) (old : VisionState) : VisionState :=
  {| vs_intent := match intent with Some i => Some i | None => vs_intent old end;
     vs_active := match active with Some a => a | None => vs_active old end;
     vs_result := match result with Some r => Some r | None => vs_result old end;
     vs_updated_at := now |}.

(** The state after publishing [v]. *)
Definition publish (v : VisionState) (s : sys) : sys :=
  log (EvVisionState v) (set_vision_state v s).

(** What [_capture_frame] returns for a behaviour of the camera. *)
Definition capture_of (cam : camera_result) : option string :=
  match cam with
  | Frame true (Some image_b64) => Some image_b64
  | _ => None
  end.


(** The first publication of [handle_vision_intent]. *)
Definition first_publication (intent : string) (s : sys) : VisionState :=
  updated (Some intent) (Some true) None (clock (trace s)) (vision_state s).

(** The behaviour of the camera that [handle_vision_intent] meets. *)
Definition camera_met (intent : string) (s : sys) : camera_result :=
  camera (trace s ++ [EvVisionState (first_publication intent s)]).

(** The values that can be sliced: strings and lists. *)
Definition sliceable (v : json) : bool :=
  match v with
  | JStr _ | JArr _ => true
  | _ => false
  end.

(** The dictionary [handle_vision_intent] returns on success. *)
Definition success_dict (intent : string) (result_text : json) : json :=
  JObj [("intent", JStr intent); ("result", result_text); ("success", JBool true)].

(** The ways [handle_vision_intent] returns [d], having published the result
    [r] last. *)
Definition vision_outcome (intent : string) (d r : json) : Prop :=
  (d = success_dict intent r /\ sliceable r = true) \/
  (d = error_dict "camera_failed" "Unable to access camera" /\
   r = JStr "Camera capture failed") \/
  (d = error_dict "lm_studio_disconnected" "LM Studio not connected" /\
   r = JStr "LM Studio not connected") \/
  (d = error_dict "no_response" "Vision model returned no response" /\
   r = JStr "Vision model returned no response") \/
  (exists error_msg,
     d = error_dict "vision_failed" error_msg /\ r = JStr error_msg).

(** The entries retained in the memory file. *)
Definition history (s : sys) : list Entry :=
  match memory_file s with
  | Stored data => match recent_memory data with
                   | Some l => l
                   | None => []
                   end
  | _ => []
  end.

(** The state after [save_context] has been called on each entry in turn. *)
Definition append_all (entries : list Entry) (s : sys) : sys :=
  fold_left (fun st entry => snd (save_context entry st)) entries s.

(** A request body that yields no prompt: no non-empty [prompt], no non-empty
    [input], and no last message with a non-empty [content]. *)
Definition yields_no_prompt (body : RequestBody) : bool :=
  negb (truthy_str (rb_prompt body)) &&
  negb (truthy_str (rb_input body)) &&
  match rb_messages body with
  | Some (m :: rest) => negb (truthy_str (m_content (last (m :: rest) m)))
  | _ => true
  end.

(** The entry the route saves. *)
Definition entry_of (body : RequestBody) (prompt : string) (response_text : json) : Entry :=
  {| e_user := match rb_linked_user body with
               | Some u => u
               | None => match manifest_linked_user with
                         | Some u => u
                         | None => "unknown"%string
                         end
               end;
     e_prompt := prompt;
     e_response := response_text;
     e_intent := match_intent prompt |}.

(** *** Vocabulary of the further properties *)

Definition is_http (e : event) : bool :=
  match e with
  | EvHttp _ => true
  | _ => false
  end.

(** A failure that makes [chat_completion] try again. *)
Definition transient (r : http_result) : Prop := r = Refused \/ r = TimedOut.

(** [j] failed attempts, each followed by its sleep. *)
Fixpoint rounds (j : nat) (a w : event) : list event :=
  match j with
  | O => []
  | S j' => a :: w :: rounds j' a w
  end.

(** The ids of a list of model descriptions, when every one is an object with
    an id. *)
Fixpoint ids_of (items : list json) : option (list json) :=
  match items with
  | [] => Some []
  | JObj fields :: rest =>
      match dict_get fields "id", ids_of rest with
      | Some id, Some ids => Some (id :: ids)
      | _, _ => None
      end
  | _ :: _ => None
  end.

(** The model ids a response body lists: those under ["data"], none when the
    key is absent or holds an empty dict or str. *)
Definition listed_ids (data : json) : option (list json) :=
  match data with
  | JObj fields =>
      match dict_get fields "data" with
      | None => Some []
      | Some (JArr items) => ids_of items
      | Some (JObj []) => Some []
      | Some (JStr EmptyString) => Some []
      | Some _ => None
      end
  | _ => None
  end.

(** What [get_loaded_models] makes of the answer of the backend. *)
Definition listing_of (r : http_result) : option (list json) :=
  match r with
  | Responded st (Some data) => if is_http_error st then None else listed_ids data
  | _ => None
  end.

(** What [vision_completion] makes of the answer of the backend. *)
Definition vision_answer (r : http_result) : json :=
  match r with
  | Responded st b => answer_of st b
  | _ => JNull
  end.

(** The camera operations of one [_capture_frame]. *)
Definition capture_events (cam : camera_result) : list event :=
  match cam with
  | OpenRaises => []
  | ReadRaises => [EvCameraOpen; EvSleep (2 # 10); EvCameraRead]
  | Frame _ _ => [EvCameraOpen; EvSleep (2 # 10); EvCameraRead; EvCameraRelease]
  end.

(** The cache of [s] holds a healthy check that is fresh whatever the clock
    reads. *)
Definition stays_healthy (s : sys) : Prop :=
  _is_healthy (client s) = true /\
  exists last,
    _last_health_check (client s) = Some last /\
    ~ (last == 0)%Q /\
    forall tr, (clock tr - last < 30)%Q.

(** The request [handle_vision_intent] posts for the image [image]. *)
Definition vision_intent_request (s : sys) (intent prompt image : string)
  : http_request :=
  vision_request (client s) (_get_vision_prompt intent prompt) image None (2 # 10).

(** What [handle_vision_intent] may send or save, given the camera [cam] it
    meets: a POST is the vision request for the captured image, and an image
    is saved only on request and is the captured one. *)
Definition vision_event_ok (s : sys) (intent prompt : string) (save_image : bool)
  (cam : camera_result) (e : event) : Prop :=
  match e with
  | EvHttp (POST _ _ _) =>
      exists image, capture_of cam = Some image /\
                    e = EvHttp (vision_intent_request s intent prompt image)
  | EvSaveImage image => save_image = true /\ capture_of cam = Some image
  | _ => True
  end.

(** The user a request is attributed to. *)
Definition linked_user_of (body : RequestBody) : string :=
  match rb_linked_user body with
  | Some u => u
  | None => match manifest_linked_user with
            | Some u => u
            | None => "unknown"%string
            end
  end.

(** The system prompt the route sends with a forwarded prompt. *)
Definition system_prompt_for (linked_user : string) : string :=
  ("You are LANA, a helpful AI assistant linked to " ++ linked_user ++ ". " ++
   "Be warm, concise, and helpful.")%string.

Definition fallback : string := "I'm having trouble generating a response right now.".

(** The part of the route that computes the response text of a prompt. *)
Definition response_text_of (body : RequestBody) (prompt : string) : M json :=
  let intent := match_intent prompt in
  if truthy_str intent then
    let intent := match intent with Some i => i | None => ""%string end in
    if existsb (String.eqb intent) VISION_INTENTS then
      vision_result <- handle_vision_intent intent prompt false ;;
      match vision_result with
      | JObj fields =>
          match dict_get fields "error" with
          | Some err => ret (JStr ("Vision error: " ++ format_value err)%string)
          | None =>
              match dict_get fields "result" with
              | Some r => ret r
              | None => ret (JStr "No vision result")
              end
          end
      | _ => raise TypeError
      end
    else
      emit (EvExecuteCommand intent prompt) ;;;
      ret (JStr (execute_command intent prompt))
  else
    healthy <- health_check false ;;
    if negb healthy then ret (JStr apology)
    else
      llm_response <- chat_completion prompt None (7 # 10) 1000
                        (Some (system_prompt_for (linked_user_of body))) ;;
      if truthy llm_response then ret llm_response
      else ret (JStr fallback).

(** The part of the route that follows: log, save, reply. *)
Definition finalize (body : RequestBody) (prompt : string) (response_text : json)
  : M (json * Z) :=
  preview response_text ;;;
  save_context (entry_of body prompt response_text) ;;;
  s <- get_state ;;
  completion_tokens <- split_count response_text ;;
  ret (completion_body (primary_model (client s)) prompt response_text
         completion_tokens, 200).

(** The reply of the route to an exception. *)
Definition server_error (e : exn) : M (json * Z) :=
  ret (JObj [("error", JStr (exn_str e)); ("type", JStr "server_error")], 500).

(** *** Bodies without a prompt *)

(** The value of a field, [None] where there is none. *)
Definition field_of (v : json) (key : string) : json :=
  match v with
  | JObj fields => match dict_get fields key with
                   | Some x => x
                   | None => JNull
                   end
  | _ => JNull
  end.

(** A body that yields no prompt: no non-empty "prompt" field, no non-empty
    "input" field, and no last message in a "messages" array providing
    content. *)
Definition no_prompt (body : json) : bool :=
  negb (truthy (field_of body "prompt")) &&
  negb (truthy (field_of body "input")) &&
  match field_of body "messages" with
  | JArr (m :: rest) => negb (truthy (field_of (last (m :: rest) m) "content"))
  | _ => true
  end.

(** The bodies in which the route can look for a last message: an object
    whose "messages" is absent, empty (any falsy value), or a list that ends
    with an object. *)
Definition well_formed (body : json) : bool :=
  match body with
  | JObj fields =>
      match dict_get fields "messages" with
      | None => true
      | Some (JArr (m :: rest)) =>
          match last (m :: rest) m with
          | JObj _ => true
          | _ => false
          end
      | Some v => negb (truthy v)
      end
  | _ => false
  end.

Definition no_input : json := JObj [("error", JStr "No input provided")].

Definition server_error_body (e : exn) : json :=
  JObj [("error", JStr (exn_str e)); ("type", JStr "server_error")].

(** *** Concurrent captures

    [_capture_frame] takes no lock, so when two callers run it at the same
    time their camera operations may be scheduled in any order that keeps
    the order of each caller. *)

(** The events a computation adds to the trace. *)
Definition added {A : Type} (m : M A) (s : sys) : list event :=
  skipn (length (trace s)) (trace (snd (m s))).

Inductive interleaving {A : Type} : list A -> list A -> list A -> Prop :=
| interleaving_nil : interleaving [] [] []
| interleaving_left a l1 l2 l :
    interleaving l1 l2 l -> interleaving (a :: l1) l2 (a :: l)
| interleaving_right a l1 l2 l :
    interleaving l1 l2 l -> interleaving l1 (a :: l2) (a :: l).

(** The schedules of two concurrent captures, one started in [s1] and one in
    [s2]. *)
Definition schedule (s1 s2 : sys) (l : list event) : Prop :=
  interleaving (added _capture_frame s1) (added _capture_frame s2) l.

Definition is_open (e : event) : bool :=
  match e with
  | EvCameraOpen => true
  | _ => false
  end.

Definition is_release (e : event) : bool :=
  match e with
  | EvCameraRelease => true
  | _ => false
  end.

(** The captures in flight after the operations [l]: opened, not released. *)
Definition in_flight (l : list event) : Z :=
  Z.of_nat (length (filter is_open l)) - Z.of_nat (length (filter is_release l)).

(** At most one capture is in flight at every point of [l]. *)
Definition exclusive (l : list event) : Prop :=
  forall before after, l = before ++ after -> in_flight before <= 1.

(** ** Properties *)

(** *** Traces *)

Lemma Qlt_bool_iff (x y : Q) : Qlt_bool x y = true <-> (x < y)%Q.
Proof.
  unfold Qlt_bool. rewrite negb_true_iff. split.
  - intros H. apply Qnot_le_lt. intros Hle.
    apply Qle_bool_iff in Hle. congruence.
  - intros H. destruct (Qle_bool y x) eqn:E; [|reflexivity].
    apply Qle_bool_iff in E. exfalso. exact (Qlt_not_le _ _ H E).
Qed.

Lemma log_extend (e : event) (s : sys) : log e s = extend [e] s.
Proof. reflexivity. Qed.

Lemma extend_nil (s : sys) : extend [] s = s.
Proof. destruct s; unfold extend; simpl. now rewrite app_nil_r. Qed.

Lemma extend_extend (l1 l2 : list event) (s : sys) :
  extend l2 (extend l1 s) = extend (l1 ++ l2) s.
Proof. unfold extend; simpl. now rewrite app_assoc. Qed.

Lemma health_check_cached (force : bool) (s : sys) :
  cache_hit force (clock (trace s)) (client s) = true ->
  health_check force s = (Returned (_is_healthy (client s)), s).
Proof.
  intros H. unfold health_check, bind, time_time, get_state. simpl.
  unfold cache_hit in H. rewrite H. reflexivity.
Qed.

Lemma health_check_probe (force : bool) (s : sys) :
  cache_hit force (clock (trace s)) (client s) = false ->
  health_check force s =
    let ok := probe_ok (backend (trace s) (probe (client s))) in
    (Returned ok,
     set_client (record_health ok (clock (trace s)) (client s))
       (log (EvHttp (probe (client s))) s)).
Proof.
  intros H. unfold health_check, bind, time_time, get_state. simpl.
  unfold cache_hit in H. rewrite H.
  unfold try_except, bind, requests_get, send, probe.
  destruct (backend (trace s) _); reflexivity.
Qed.

(** [health_check] always returns; it adds at most the probe to the trace and
    changes nothing but the two cache attributes of the client. *)
Lemma health_check_total (force : bool) (s : sys) :
  exists ok s',
    health_check force s = (Returned ok, s') /\
    (trace s' = trace s \/ trace s' = trace s ++ [EvHttp (probe (client s))]) /\
    vision_state s' = vision_state s /\
    memory_file s' = memory_file s /\
    (client s' = client s \/
     client s' = record_health ok (clock (trace s)) (client s)).
Proof.
  destruct (cache_hit force (clock (trace s)) (client s)) eqn:E.
  - rewrite (health_check_cached _ _ E). eexists _, _. split; [reflexivity|].
    repeat split; auto.
  - rewrite (health_check_probe _ _ E). eexists _, _. split; [reflexivity|].
    repeat split; auto.
Qed.

Lemma health_check_config (force : bool) (s s' : sys) (ok : bool) :
  health_check force s = (Returned ok, s') ->
  same_config (client s) (client s').
Proof.
  intros H. destruct (health_check_total force s) as (ok' & s'' & E & _ & _ & _ & Hc).
  rewrite E in H. inversion H; subst.
  destruct Hc as [-> | ->]; repeat split.
Qed.

Lemma health_check_no_post (force : bool) (s : sys) :
  posts (trace (snd (health_check force s))) = posts (trace s).
Proof.
  destruct (cache_hit force (clock (trace s)) (client s)) eqn:E.
  - now rewrite (health_check_cached _ _ E).
  - rewrite (health_check_probe _ _ E). simpl.
    unfold posts. rewrite filter_app. simpl. now rewrite app_nil_r.
Qed.

(** *** The retry loop of [chat_completion] *)

Lemma chat_completion_healthy prompt model temperature max_tokens system_prompt s s1 :
  health_check false s = (Returned true, s1) ->
  chat_completion prompt model temperature max_tokens system_prompt s =
  chat_retry_loop (client s1)
    (chat_payload (resolve_model model (primary_model (client s1)))
       (chat_messages prompt system_prompt) temperature max_tokens)
    (py_range (max_retries (client s1))) s1.
Proof.
  intros H. unfold chat_completion, bind. rewrite H. reflexivity.
Qed.

Lemma chat_completion_unhealthy prompt model temperature max_tokens system_prompt s s1 :
  health_check false s = (Returned false, s1) ->
  chat_completion prompt model temperature max_tokens system_prompt s =
  (Returned JNull, s1).
Proof.
  intros H. unfold chat_completion, bind. rewrite H. reflexivity.
Qed.

Lemma vision_completion_unhealthy prompt image_base64 model temperature s s1 :
  health_check false s = (Returned false, s1) ->
  vision_completion prompt image_base64 model temperature s = (Returned JNull, s1).
Proof.
  intros H. unfold vision_completion, bind. rewrite H. reflexivity.
Qed.

(** An attempt that meets a refused connection sleeps, unless it is the last
    one, and lets the loop go on. *)
Lemma chat_attempt_refused self payload attempt s :
  backend (trace s) (POST (chat_endpoint self) payload (timeout self)) = Refused ->
  (0 <= retry_delay self)%Q ->
  chat_attempt self payload attempt s =
  (Returned None,
   extend (EvHttp (POST (chat_endpoint self) payload (timeout self)) ::
           if attempt <? max_retries self - 1
           then [EvSleep (retry_delay self)] else []) s).
Proof.
  intros Hb Hd.
  unfold chat_attempt, try_except, bind, requests_post, send. rewrite Hb.
  destruct (attempt <? max_retries self - 1).
  - unfold time_sleep.
    assert (Qlt_bool (retry_delay self) 0 = false) as ->.
    { destruct (Qlt_bool (retry_delay self) 0) eqn:E; [|reflexivity].
      apply Qlt_bool_iff in E. exfalso. exact (Qlt_not_le _ _ E Hd). }
    unfold emit, ret. rewrite !log_extend, extend_extend. reflexivity.
  - unfold ret. rewrite log_extend. reflexivity.
Qed.

Lemma chat_retry_loop_refused self payload :
  (forall tr, backend tr (POST (chat_endpoint self) payload (timeout self)) = Refused) ->
  (0 <= retry_delay self)%Q ->
  forall k i s,
    (i + k = Z.to_nat (max_retries self))%nat ->
    chat_retry_loop self payload (map Z.of_nat (seq i k)) s =
    (Returned JNull,
     extend (spaced k (EvHttp (POST (chat_endpoint self) payload (timeout self)))
               (EvSleep (retry_delay self))) s).
Proof.
  intros Hb Hd. induction k as [|k IH]; intros i s Hik.
  - simpl. unfold ret. now rewrite extend_nil.
  - cbn [seq map chat_retry_loop]. unfold bind at 1.
    rewrite (chat_attempt_refused _ _ _ _ (Hb _) Hd).
    rewrite IH by lia. rewrite extend_extend. f_equal. f_equal.
    cbn [spaced]. cbn [app]. f_equal.
    destruct k as [|k].
    + assert ((Z.of_nat i <? max_retries self - 1) = false) as -> by lia.
      reflexivity.
    + assert ((Z.of_nat i <? max_retries self - 1) = true) as -> by lia.
      reflexivity.
Qed.

Lemma vision_completion_refused prompt image_base64 model temperature s s1 :
  health_check false s = (Returned true, s1) ->
  backend (trace s1) (vision_request (client s1) prompt image_base64 model temperature)
    = Refused ->
  vision_completion prompt image_base64 model temperature s =
  (Returned JNull,
   extend [EvHttp (vision_request (client s1) prompt image_base64 model temperature)] s1).
Proof.
  intros H Hb. unfold vision_completion, bind at 1. rewrite H. simpl.
  unfold bind at 1, get_state.
  unfold try_except, bind, requests_post, send.
  unfold vision_request in Hb. rewrite Hb. reflexivity.
Qed.

(** C1 (amended).  After a health check that reports healthy, against a
    backend that refuses every POST, and with a non-negative [retry_delay]
    (the invariant of BackendConfig): [chat_completion] performs exactly
    [max_retries] attempts (none when [max_retries] is not positive), all with
    the same request, sleeps [retry_delay] between consecutive attempts and
    nowhere else, and returns [None]; [vision_completion] performs exactly one
    attempt, never sleeps, and returns [None]. *)
Theorem retry_bound_on_refused_connections
  prompt model temperature max_tokens system_prompt
  vprompt image_base64 vmodel vtemperature s s1 :
  health_check false s = (Returned true, s1) ->
  (forall tr url payload tmo, backend tr (POST url payload tmo) = Refused) ->
  (0 <= retry_delay (client s))%Q ->
  chat_completion prompt model temperature max_tokens system_prompt s =
    (Returned JNull,
     extend (spaced (Z.to_nat (max_retries (client s)))
               (EvHttp (chat_request (client s) prompt model temperature max_tokens
                          system_prompt))
               (EvSleep (retry_delay (client s)))) s1) /\
  vision_completion vprompt image_base64 vmodel vtemperature s =
    (Returned JNull,
     extend [EvHttp (vision_request (client s) vprompt image_base64 vmodel
                       vtemperature)] s1).
Proof.
  intros H Hb Hd.
  destruct (health_check_config _ _ _ _ H)
    as (_ & Hce & _ & Hpm & Hvm & Hto & _ & Hvt & Hmr & Hrd).
  split.
  - rewrite (chat_completion_healthy _ _ _ _ _ _ _ H).
    unfold py_range.
    rewrite chat_retry_loop_refused; try lia.
    + unfold chat_request. now rewrite Hce, Hpm, Hto, Hmr, Hrd.
    + intros tr. apply Hb.
    + now rewrite Hrd.
  - rewrite (vision_completion_refused _ _ _ _ _ _ H).
    + unfold vision_request. now rewrite Hce, Hvm, Hvt.
    + apply Hb.
Qed.

(** C5.  [chat_completion] and [vision_completion] begin with
    [health_check(force=False)]; when it reports unhealthy they return [None]
    in the state the health check left, and no POST has been sent. *)
Theorem unhealthy_backend_fails_fast
  prompt model temperature max_tokens system_prompt
  vprompt image_base64 vmodel vtemperature s s1 :
  health_check false s = (Returned false, s1) ->
  chat_completion prompt model temperature max_tokens system_prompt s
    = (Returned JNull, s1) /\
  vision_completion vprompt image_base64 vmodel vtemperature s
    = (Returned JNull, s1) /\
  posts (trace s1) = posts (trace s).
Proof.
  intros H. split; [|split].
  - now apply chat_completion_unhealthy.
  - now apply vision_completion_unhealthy.
  - pose proof (health_check_no_post false s) as Hp. now rewrite H in Hp.
Qed.

(** *** Responses *)

Lemma first_choice_content_spec (data : json) (s : sys) :
  exists r,
    first_choice_content data s = (r, s) /\
    match content_of data with
    | Some v => r = Returned v
    | None => exists e, r = Raised e /\ lookup_error e
    end.
Proof.
  unfold first_choice_content, content_of, bind, getitem, getitem0, ret, raise,
    lookup_error.
  destruct data; simpl; try (eexists; split; [reflexivity | eauto 6]).
  destruct (dict_get fields "choices") as [choices|]; simpl;
    [| eexists; split; [reflexivity | eauto 6]].
  destruct choices as [| | | | str | items | obj]; simpl;
    try (eexists; split; [reflexivity | eauto 6]).
  - destruct str; simpl; eexists; (split; [reflexivity | eauto 6]).
  - destruct items as [|first rest]; simpl;
      [eexists; split; [reflexivity | eauto 6] |].
    destruct first; simpl; try (eexists; split; [reflexivity | eauto 6]).
    destruct (dict_get fields0 "message") as [message|]; simpl;
      [| eexists; split; [reflexivity | eauto 6]].
    destruct message; simpl; try (eexists; split; [reflexivity | eauto 6]).
    destruct (dict_get fields1 "content"); simpl;
      eexists; (split; [reflexivity | eauto 6]).
Qed.

Lemma chat_attempt_responded self payload attempt s st b :
  backend (trace s) (POST (chat_endpoint self) payload (timeout self))
    = Responded st b ->
  chat_attempt self payload attempt s =
  (Returned (Some (answer_of st b)),
   log (EvHttp (POST (chat_endpoint self) payload (timeout self))) s).
Proof.
  intros Hb.
  unfold chat_attempt, try_except, bind, requests_post, send,
    raise_for_status, response_json.
  rewrite Hb. cbn [status_code body].
  unfold answer_of, is_http_error.
  destruct ((400 <=? st) && (st <? 600)); [reflexivity|].
  unfold ret at 1.
  destruct b as [data|]; [|reflexivity].
  unfold ret at 1.
  destruct (first_choice_content_spec data
              (log (EvHttp (POST (chat_endpoint self) payload (timeout self))) s))
    as (r & Hrun & Hr).
  rewrite Hrun.
  destruct (content_of data); [subst; reflexivity|].
  destruct Hr as (e & -> & [-> | [-> | ->]]); reflexivity.
Qed.

Lemma chat_attempt_failed self payload attempt s :
  backend (trace s) (POST (chat_endpoint self) payload (timeout self)) = Failed ->
  chat_attempt self payload attempt s =
  (Returned (Some JNull),
   log (EvHttp (POST (chat_endpoint self) payload (timeout self))) s).
Proof.
  intros Hb.
  unfold chat_attempt, try_except, bind at 1, requests_post, send. rewrite Hb.
  reflexivity.
Qed.

Lemma py_range_pos (n : Z) :
  1 <= n -> exists rest, py_range n = 0 :: rest.
Proof.
  intros H. unfold py_range.
  destruct (Z.to_nat n) as [|k] eqn:E; [lia|].
  simpl. eauto.
Qed.

Lemma answer_of_error (st : Z) (b : option json) :
  is_http_error st = true \/ missing_content b -> answer_of st b = JNull.
Proof.
  unfold answer_of, missing_content. intros [-> | H]; [reflexivity|].
  destruct (is_http_error st); [reflexivity|].
  destruct b as [data|]; [|reflexivity]. now rewrite H.
Qed.

(** C3 (amended).  After a health check that reports healthy and with at
    least one attempt allowed, if the backend answers the first attempt with a
    4xx or 5xx status (the statuses [raise_for_status] rejects), or with a
    body that lacks [choices[0].message.content] under any status, then
    [chat_completion] sends exactly one POST, never sleeps, and returns [None]
    without raising. *)
Theorem no_retry_on_http_error
  prompt model temperature max_tokens system_prompt s s1 st b :
  health_check false s = (Returned true, s1) ->
  1 <= max_retries (client s) ->
  backend (trace s1)
    (chat_request (client s) prompt model temperature max_tokens system_prompt)
    = Responded st b ->
  is_http_error st = true \/ missing_content b ->
  chat_completion prompt model temperature max_tokens system_prompt s =
    (Returned JNull,
     extend [EvHttp (chat_request (client s) prompt model temperature max_tokens
                       system_prompt)] s1).
Proof.
  intros H Hn Hb Herr.
  destruct (health_check_config _ _ _ _ H)
    as (_ & Hce & _ & Hpm & _ & Hto & _ & _ & Hmr & _).
  rewrite (chat_completion_healthy _ _ _ _ _ _ _ H).
  destruct (py_range_pos (max_retries (client s1))) as [rest ->]; [lia|].
  cbn [chat_retry_loop]. unfold bind.
  unfold chat_request in Hb. rewrite <- Hce, <- Hpm, <- Hto in Hb.
  rewrite (chat_attempt_responded _ _ 0 _ _ _ Hb).
  rewrite (answer_of_error _ _ Herr).
  unfold chat_request. now rewrite Hce, Hpm, Hto.
Qed.

(** *** Payloads *)

Lemma chat_attempt_events self payload attempt s :
  exists l,
    snd (chat_attempt self payload attempt s) = extend l s /\
    only_request (POST (chat_endpoint self) payload (timeout self)) l.
Proof.
  set (req := POST (chat_endpoint self) payload (timeout self)).
  assert (Hsleep : forall s0,
    exists l, snd (bind (if attempt <? max_retries self - 1
                         then time_sleep (retry_delay self) else ret tt)
                        (fun _ => ret (None : option json)) (log (EvHttp req) s0))
              = extend (EvHttp req :: l) s0 /\
              Forall (fun e => is_sleep e = true) l).
  { intros s0. unfold bind, time_sleep, ret, raise, emit.
    destruct (attempt <? max_retries self - 1).
    - destruct (Qlt_bool (retry_delay self) 0); simpl.
      + exists []. split; [apply log_extend | constructor].
      + exists [EvSleep (retry_delay self)]. split.
        * now rewrite !log_extend, extend_extend.
        * repeat constructor.
    - exists []. split; [apply log_extend | constructor]. }
  assert (Hwrap : forall l, Forall (fun e => is_sleep e = true) l ->
                            only_request req (EvHttp req :: l)).
  { intros l Hl. constructor; [now left|].
    eapply Forall_impl; [|exact Hl]. intros e He. now right. }
  destruct (backend (trace s) req) as [| | |st b] eqn:Hb.
  - destruct (Hsleep s) as (l & Hl & Hf). exists (EvHttp req :: l).
    split; [|auto].
    rewrite <- Hl. unfold chat_attempt, try_except, bind at 1, requests_post, send.
    fold req. now rewrite Hb.
  - destruct (Hsleep s) as (l & Hl & Hf). exists (EvHttp req :: l).
    split; [|auto].
    rewrite <- Hl. unfold chat_attempt, try_except, bind at 1, requests_post, send.
    fold req. now rewrite Hb.
  - exists [EvHttp req]. split; [|apply Hwrap; constructor].
    unfold req. now rewrite (chat_attempt_failed _ _ attempt _ Hb).
  - exists [EvHttp req]. split; [|apply Hwrap; constructor].
    unfold req. now rewrite (chat_attempt_responded _ _ attempt _ _ _ Hb).
Qed.

Lemma chat_retry_loop_events self payload attempts :
  forall s,
  exists l,
    snd (chat_retry_loop self payload attempts s) = extend l s /\
    only_request (POST (chat_endpoint self) payload (timeout self)) l.
Proof.
  induction attempts as [|attempt rest IH]; intros s.
  - exists []. split; [simpl; now rewrite extend_nil | constructor].
  - cbn [chat_retry_loop]. unfold bind.
    destruct (chat_attempt_events self payload attempt s) as (l1 & H1 & F1).
    destruct (chat_attempt self payload attempt s) as [[[v|]|e] s1]; simpl in H1; subst s1.
    + exists l1. split; [reflexivity | assumption].
    + destruct (IH (extend l1 s)) as (l2 & H2 & F2).
      exists (l1 ++ l2). split.
      * now rewrite H2, extend_extend.
      * apply Forall_app. split; assumption.
    + exists l1. split; [reflexivity | assumption].
Qed.

(** [vision_completion] past a healthy check: one POST, whatever the backend
    does with it, and never an exception. *)
Lemma vision_completion_healthy prompt image_base64 model temperature s s1 :
  health_check false s = (Returned true, s1) ->
  exists r,
    vision_completion prompt image_base64 model temperature s =
    (Returned r,
     extend [EvHttp (vision_request (client s1) prompt image_base64 model temperature)]
       s1).
Proof.
  intros H. unfold vision_completion, bind at 1. rewrite H. simpl.
  unfold bind at 1, get_state.
  unfold try_except, bind, requests_post, send, raise_for_status, response_json,
    vision_request.
  destruct (backend (trace s1) _) as [| | |st b]; try (eexists; reflexivity).
  cbn [status_code body].
  destruct ((400 <=? st) && (st <? 600)); [eexists; reflexivity|].
  unfold ret at 1.
  destruct b as [data|]; [|eexists; reflexivity].
  unfold ret at 1.
  match goal with
  | |- context [first_choice_content data ?s0] =>
      destruct (first_choice_content_spec data s0) as (r & -> & Hr)
  end.
  destruct r; eexists; reflexivity.
Qed.

Lemma chat_completion_events prompt model temperature max_tokens system_prompt s :
  exists l,
    adds s (snd (chat_completion prompt model temperature max_tokens system_prompt s)) l /\
    Forall (fun e => e = EvHttp (probe (client s)) \/
                     e = EvHttp (chat_request (client s) prompt model temperature
                                   max_tokens system_prompt) \/
                     is_sleep e = true) l.
Proof.
  unfold adds.
  destruct (health_check_total false s) as (ok & s1 & H & Htr & _ & _ & _).
  assert (Hprobe : exists l0, trace s1 = trace s ++ l0 /\
            Forall (fun e => e = EvHttp (probe (client s)) \/
                     e = EvHttp (chat_request (client s) prompt model temperature
                                   max_tokens system_prompt) \/
                     is_sleep e = true) l0).
  { destruct Htr as [-> | ->].
    - exists []. split; [now rewrite app_nil_r | constructor].
    - eexists. split; [reflexivity|]. constructor; [now left | constructor]. }
  destruct Hprobe as (l0 & Hl0 & F0).
  destruct ok.
  - destruct (health_check_config _ _ _ _ H)
      as (_ & Hce & _ & Hpm & _ & Hto & _ & _ & _ & _).
    rewrite (chat_completion_healthy _ _ _ _ _ _ _ H).
    match goal with
    | |- context [chat_retry_loop ?c ?p ?a ?s0] =>
        destruct (chat_retry_loop_events c p a s0) as (l1 & -> & F1)
    end.
    exists (l0 ++ l1). split.
    + simpl. now rewrite Hl0, app_assoc.
    + apply Forall_app. split; [assumption|].
      eapply Forall_impl; [|exact F1]. intros e [-> | He]; [|auto].
      right; left. unfold chat_request. now rewrite Hce, Hpm, Hto.
  - rewrite (chat_completion_unhealthy _ _ _ _ _ _ _ H). exists l0. auto.
Qed.

Lemma vision_completion_events prompt image_base64 model temperature s :
  exists l,
    adds s (snd (vision_completion prompt image_base64 model temperature s)) l /\
    Forall (fun e => e = EvHttp (probe (client s)) \/
                     e = EvHttp (vision_request (client s) prompt image_base64 model
                                   temperature)) l.
Proof.
  unfold adds.
  destruct (health_check_total false s) as (ok & s1 & H & Htr & _ & _ & _).
  destruct ok.
  - destruct (health_check_config _ _ _ _ H)
      as (_ & Hce & _ & _ & Hvm & _ & _ & Hvt & _ & _).
    destruct (vision_completion_healthy prompt image_base64 model temperature _ _ H)
      as (r & ->).
    assert (vision_request (client s1) prompt image_base64 model temperature =
            vision_request (client s) prompt image_base64 model temperature) as ->.
    { unfold vision_request. now rewrite Hce, Hvm, Hvt. }
    simpl. destruct Htr as [-> | ->].
    + eexists. split; [reflexivity|]. constructor; [now right | constructor].
    + eexists. split; [now rewrite <- app_assoc|].
      constructor; [now left|]. constructor; [now right | constructor].
  - rewrite (vision_completion_unhealthy _ _ _ _ _ _ H). simpl.
    destruct Htr as [-> | ->].
    + exists []. split; [now rewrite app_nil_r | constructor].
    + eexists. split; [reflexivity|]. constructor; [now left | constructor].
Qed.

(** C2 (amended).  Every POST of [chat_completion] goes to the chat endpoint
    with a payload that holds model, messages, temperature, max_tokens and
    stream = false.  Every POST of [vision_completion] goes to the chat
    endpoint with a payload that holds model, temperature and messages, the
    latter being one user message whose content is the text part and the image
    part with the URL [data:image/jpeg;base64,<image>]; that payload has no
    max_tokens and no stream field. *)
Theorem completion_payloads
  prompt model temperature max_tokens system_prompt
  vprompt image_base64 vmodel vtemperature s :
  (exists l,
     adds s (snd (chat_completion prompt model temperature max_tokens system_prompt s)) l /\
     forall url payload tmo,
       In (EvHttp (POST url payload tmo)) l ->
       url = chat_endpoint (client s) /\
       field payload "model"
         = Some (JStr (resolve_model model (primary_model (client s)))) /\
       field payload "messages" = Some (JArr (chat_messages prompt system_prompt)) /\
       field payload "temperature" = Some (JFloat temperature) /\
       field payload "max_tokens" = Some (JInt max_tokens) /\
       field payload "stream" = Some (JBool false)) /\
  (exists l,
     adds s (snd (vision_completion vprompt image_base64 vmodel vtemperature s)) l /\
     forall url payload tmo,
       In (EvHttp (POST url payload tmo)) l ->
       url = chat_endpoint (client s) /\
       field payload "model"
         = Some (JStr (resolve_model vmodel (vision_model (client s)))) /\
       field payload "messages"
         = Some (JArr [multimodal_message vprompt image_base64]) /\
       field payload "temperature" = Some (JFloat vtemperature) /\
       field payload "max_tokens" = None /\
       field payload "stream" = None).
Proof.
  split.
  - destruct (chat_completion_events prompt model temperature max_tokens
                system_prompt s) as (l & Hl & F).
    exists l. split; [assumption|]. intros url payload tmo Hin.
    rewrite Forall_forall in F. destruct (F _ Hin) as [E | [E | E]].
    + discriminate E.
    + inversion E; subst. repeat split.
    + discriminate E.
  - destruct (vision_completion_events vprompt image_base64 vmodel vtemperature s)
      as (l & Hl & F).
    exists l. split; [assumption|]. intros url payload tmo Hin.
    rewrite Forall_forall in F. destruct (F _ Hin) as [E | E].
    + discriminate E.
    + inversion E; subst. repeat split.
Qed.

(** *** The vision pipeline *)

Lemma update_vision_state_run intent active result s :
  update_vision_state intent active result s =
  (Returned tt,
   publish (updated intent active result (clock (trace s)) (vision_state s)) s).
Proof. reflexivity. Qed.




Lemma preview_sliceable (v : json) (s : sys) :
  sliceable v = true -> preview v s = (Returned tt, s).
Proof. destruct v; simpl; intros H; try discriminate H; reflexivity. Qed.

Lemma preview_other (v : json) (s : sys) :
  sliceable v = false -> preview v s = (Raised TypeError, s).
Proof. destruct v; simpl; intros H; try discriminate H; reflexivity. Qed.


(** *** The history sink *)

Lemma last_n_short {A : Type} (n : nat) (l : list A) :
  (length l <= n)%nat -> last_n n l = l.
Proof.
  intros H. unfold last_n. replace (length l - n)%nat with 0%nat by lia.
  reflexivity.
Qed.

Lemma last_n_length {A : Type} (n : nat) (l : list A) :
  length (last_n n l) = Nat.min (length l) n.
Proof. unfold last_n. rewrite length_skipn. lia. Qed.

Lemma last_n_snoc {A : Type} (n : nat) (l : list A) (x : A) :
  (1 <= n)%nat -> last_n n (last_n n l ++ [x]) = last_n n (l ++ [x]).
Proof.
  intros Hn. destruct (Nat.le_gt_cases (length l) n) as [Hle | Hgt].
  - now rewrite (last_n_short n l Hle).
  - unfold last_n at 1 3.
    rewrite !length_app, last_n_length. simpl length.
    replace (Nat.min (length l) n + 1 - n)%nat with 1%nat by lia.
    replace (length l + 1 - n)%nat with (1 + (length l - n))%nat by lia.
    rewrite <- skipn_skipn. f_equal.
    rewrite skipn_app.
    replace (length l - n - length l)%nat with 0%nat by lia.
    reflexivity.
Qed.

(** [save_context] returns, touches the memory file only, and retains the
    last 100 entries of the history extended with the new entry. *)
Lemma save_context_run (entry : Entry) (s : sys) :
  exists data,
    save_context entry s = (Returned tt, set_memory_file (Stored data) s) /\
    recent_memory data = Some (last_n 100 (history s ++ [entry])).
Proof.
  unfold save_context, load_memory, bind, get_state, json_dump, ret, history.
  assert (Hkeep : forall l : list Entry,
            (if Nat.ltb 100 (length l) then last_n 100 l else l) = last_n 100 l).
  { intros l. destruct (Nat.ltb 100 (length l)) eqn:E; [reflexivity|].
    apply Nat.ltb_ge in E. now rewrite last_n_short. }
  destruct (memory_file s) as [| |data]; simpl.
  - eexists. split; [reflexivity|]. reflexivity.
  - eexists. split; [reflexivity|]. reflexivity.
  - destruct (recent_memory data) as [l|]; simpl.
    + eexists. split; [reflexivity|]. simpl. now rewrite Hkeep.
    + eexists. split; [reflexivity|]. reflexivity.
Qed.

Lemma history_save_context (entry : Entry) (s : sys) :
  history (snd (save_context entry s)) = last_n 100 (history s ++ [entry]).
Proof.
  destruct (save_context_run entry s) as (data & -> & H).
  unfold history. simpl. now rewrite H.
Qed.

(** C8.  Starting from an empty history, after [save_context] has been called
    on each of [entries] in turn the memory file retains the last
    [min (length entries) 100] of them, in the order they were appended; so it
    never holds more than 100, and after 150 appends it holds the last 100. *)
Theorem history_keeps_last_100 (entries : list Entry) (s : sys) :
  history s = [] ->
  history (append_all entries s) = last_n 100 entries /\
  (length (history (append_all entries s)) <= 100)%nat /\
  length (history (append_all entries s)) = Nat.min (length entries) 100 /\
  (length entries = 150%nat ->
   history (append_all entries s) = skipn 50 entries).
Proof.
  intros Hempty.
  assert (H : history (append_all entries s) = last_n 100 entries).
  { induction entries as [|entry entries IH] using rev_ind.
    - simpl. now rewrite Hempty.
    - unfold append_all in *. rewrite fold_left_app. simpl.
      rewrite history_save_context, IH. apply last_n_snoc. lia. }
  rewrite H, last_n_length. repeat split; try lia.
  intros H150. unfold last_n. now rewrite H150.
Qed.

(** *** The chat route *)

Lemma extract_prompt_empty (body : RequestBody) :
  yields_no_prompt body = true <-> truthy_str (extract_prompt body) = false.
Proof.
  unfold yields_no_prompt, extract_prompt.
  destruct (truthy_str (rb_prompt body)) eqn:Hp; cbn [negb andb].
  - rewrite Hp. cbn [negb]. rewrite Hp. split; discriminate.
  - destruct (truthy_str (rb_input body)) eqn:Hi; cbn [negb andb].
    + rewrite Hi. split; discriminate.
    + destruct (rb_messages body) as [[|m rest]|]; try (rewrite Hi; tauto).
      generalize (m_content (last (m :: rest) m)). intros [content|].
      * apply negb_true_iff.
      * simpl. tauto.
Qed.

(** C7.  For a request with a prompt that matches no intent, when the health
    check of the route reports unhealthy the route answers with status 200 and
    the fixed apology as the content of the message; it performs nothing after
    the health check but saving the entry, so no POST is sent. *)
Theorem apology_when_unhealthy (body : RequestBody) (prompt : string) (s s1 : sys) :
  extract_prompt body = Some prompt ->
  prompt <> ""%string ->
  truthy_str (match_intent prompt) = false ->
  health_check false (log (EvMatchIntent prompt) s) = (Returned false, s1) ->
  exists s2,
    chat_completions (Some body) s =
      (Returned (completion_body (primary_model (client s)) prompt (JStr apology)
                   (word_count apology), 200), s2) /\
    trace s2 = trace s1 /\
    posts (trace s2) = posts (trace s) /\
    history s2 = last_n 100 (history s ++ [entry_of body prompt (JStr apology)]).
Proof.
  intros Hp Hne Hint Hh.
  assert (Htruthy : truthy_str (Some prompt) = true).
  { simpl. apply negb_true_iff. now apply String.eqb_neq. }
  destruct (health_check_config _ _ _ _ Hh) as (_ & _ & _ & Hpm & _).
  destruct (health_check_total false (log (EvMatchIntent prompt) s))
    as (ok & s1' & Hh' & _ & _ & Hmf & _).
  rewrite Hh in Hh'. inversion Hh'; subst ok s1'. clear Hh'.
  destruct (save_context_run (entry_of body prompt (JStr apology)) s1)
    as (data & Hsave & Hdata).
  exists (set_memory_file (Stored data) s1).
  split; [|split; [|split]].
  - unfold chat_completions, try_except, bind at 1. unfold ret at 1.
    rewrite Hp, Htruthy. cbn [negb].
    unfold bind at 1, emit. unfold bind at 1. rewrite Hint.
    unfold bind at 1. rewrite Hh. cbn [negb]. unfold ret at 1.
    unfold bind at 1, preview. unfold ret at 1.
    unfold bind at 1. unfold entry_of in Hsave. rewrite Hsave.
    unfold bind, get_state, split_count, ret. simpl.
    now rewrite Hpm.
  - reflexivity.
  - simpl. pose proof (health_check_no_post false (log (EvMatchIntent prompt) s)) as Hn.
    rewrite Hh in Hn. simpl in Hn. rewrite Hn.
    unfold posts. rewrite filter_app. simpl. now rewrite app_nil_r.
  - unfold history at 1. simpl. rewrite Hdata. f_equal. f_equal.
    unfold history. now rewrite Hmf.
Qed.

(** *** The health cache *)

(** A cached check made at a non-zero time less than 30 seconds ago is
    answered from the cache: no request, no change of state. *)
Lemma health_check_fresh_cache (s : sys) (last : Q) :
  _last_health_check (client s) = Some last ->
  ~ (last == 0)%Q ->
  (clock (trace s) - last < 30)%Q ->
  health_check false s = (Returned (_is_healthy (client s)), s).
Proof.
  intros Hl Hz Hage. apply health_check_cached.
  unfold cache_hit. rewrite Hl. simpl.
  destruct (Qeq_bool last 0) eqn:E.
  - apply Qeq_bool_iff in E. contradiction.
  - simpl. now apply Qlt_bool_iff.
Qed.

(** A forced check always sends the probe, and records its outcome and the
    time. *)
Lemma health_check_forced (s : sys) :
  health_check true s =
    let ok := probe_ok (backend (trace s) (probe (client s))) in
    (Returned ok,
     set_client (record_health ok (clock (trace s)) (client s))
       (log (EvHttp (probe (client s))) s)).
Proof. now apply health_check_probe. Qed.

(** Without a cached time, or with the cached time [0.0], or with a cached
    time 30 seconds old or more, an unforced check sends the probe too. *)
Lemma health_check_stale (s : sys) :
  truthy_float (_last_health_check (client s)) = false \/
  (exists last, _last_health_check (client s) = Some last /\
                (30 <= clock (trace s) - last)%Q) ->
  trace (snd (health_check false s)) = trace s ++ [EvHttp (probe (client s))].
Proof.
  intros H. rewrite health_check_probe; [reflexivity|].
  unfold cache_hit. destruct H as [-> | (last & -> & Hage)]; [reflexivity|].
  simpl. rewrite andb_false_iff. right.
  unfold Qlt_bool. apply negb_false_iff. now apply Qle_bool_iff.
Qed.

(** C4.  The cached time of a client is [None] or a reading of [time.time()],
    which is never 0; any call keeps it so.  On such a client, an unforced
    [health_check] made while the cached time is set and less than 30 seconds
    old returns the cached [_is_healthy], sends nothing and leaves the whole
    state as it was; a forced one always sends the GET to the models
    endpoint. *)
Theorem health_cache_policy (s : sys) :
  (forall last, _last_health_check (client s) = Some last -> ~ (last == 0)%Q) ->
  (forall last,
     _last_health_check (client s) = Some last ->
     (clock (trace s) - last < 30)%Q ->
     health_check false s = (Returned (_is_healthy (client s)), s)) /\
  (exists ok s',
     health_check true s = (Returned ok, s') /\
     trace s' = trace s ++
       [EvHttp (GET (models_endpoint (client s)) (health_timeout (client s)))]) /\
  ((forall tr, ~ (clock tr == 0)%Q) ->
   forall force last,
     _last_health_check (client (snd (health_check force s))) = Some last ->
     ~ (last == 0)%Q).
Proof.
  intros Hinv. split; [|split].
  - intros last Hl Hage.
    exact (health_check_fresh_cache s last Hl (Hinv last Hl) Hage).
  - eexists _, _. split; [apply health_check_forced | reflexivity].
  - intros Hclock force last Hl.
    destruct (health_check_total force s) as (ok & s' & H & _ & _ & _ & [Hc | Hc]);
      rewrite H in Hl; cbn [snd] in Hl; rewrite Hc in Hl.
    + exact (Hinv last Hl).
    + cbn in Hl. injection Hl as <-. apply Hclock.
Qed.

(** ** Further properties *)

(** *** [health_check] *)

Lemma health_check_flag (force : bool) (s s1 : sys) (ok : bool) :
  health_check force s = (Returned ok, s1) ->
  _is_healthy (client s1) = ok \/ (s1 = s /\ ok = _is_healthy (client s)).
Proof.
  intros H.
  destruct (cache_hit force (clock (trace s)) (client s)) eqn:E.
  - rewrite (health_check_cached _ _ E) in H. inversion H; subst. now right.
  - rewrite (health_check_probe _ _ E) in H. inversion H; subst. now left.
Qed.

(** X1.  A forced check never raises and always sends exactly one GET to the
    models endpoint with the health timeout; it records the time of the call
    and reports (and caches) healthy exactly when the backend answered with
    status 200, so every other status, a refused connection, a timeout or any
    other failure counts as unhealthy. *)
Theorem forced_check_probes (s : sys) :
  exists ok s',
    health_check true s = (Returned ok, s') /\
    trace s' = trace s ++
      [EvHttp (GET (models_endpoint (client s)) (health_timeout (client s)))] /\
    _is_healthy (client s') = ok /\
    _last_health_check (client s') = Some (clock (trace s)) /\
    (ok = true <->
     exists b, backend (trace s) (probe (client s)) = Responded 200 b).
Proof.
  rewrite health_check_probe by reflexivity. cbv zeta.
  eexists _, _. split; [reflexivity|]. repeat split.
  - unfold probe_ok. destruct (backend (trace s) (probe (client s))) as [| | |st b];
      try discriminate.
    intros H. apply Z.eqb_eq in H. subst. eauto.
  - intros [b ->]. reflexivity.
Qed.

(** X2.  After any health check, an unforced check made while the recorded
    check time is non-zero and less than 30 seconds old returns the same
    answer, sends nothing and changes nothing. *)
Theorem repeated_check_is_free (force : bool) (s s1 : sys) (ok : bool) (last : Q) :
  health_check force s = (Returned ok, s1) ->
  _last_health_check (client s1) = Some last ->
  ~ (last == 0)%Q ->
  (clock (trace s1) - last < 30)%Q ->
  health_check false s1 = (Returned ok, s1).
Proof.
  intros H Hl Hz Hage.
  rewrite (health_check_fresh_cache s1 last Hl Hz Hage).
  destruct (health_check_flag _ _ _ _ H) as [-> | [-> ->]]; reflexivity.
Qed.

(** X3.  The cache expires at 30 seconds sharp: an unforced check made when
    no check has been recorded, or when the recorded one is 30 seconds old or
    more, sends the probe and records the new time and outcome. *)
Theorem stale_cache_is_refreshed (s : sys) :
  _last_health_check (client s) = None \/
  (exists last, _last_health_check (client s) = Some last /\
                (30 <= clock (trace s) - last)%Q) ->
  exists ok s',
    health_check false s = (Returned ok, s') /\
    trace s' = trace s ++ [EvHttp (probe (client s))] /\
    _last_health_check (client s') = Some (clock (trace s)) /\
    _is_healthy (client s') = ok /\
    ok = probe_ok (backend (trace s) (probe (client s))).
Proof.
  intros H.
  assert (E : cache_hit false (clock (trace s)) (client s) = false).
  { unfold cache_hit. destruct H as [-> | (last & -> & Hage)]; [reflexivity|].
    simpl. rewrite andb_false_iff. right.
    unfold Qlt_bool. apply negb_false_iff. now apply Qle_bool_iff. }
  rewrite (health_check_probe _ _ E). cbv zeta.
  eexists _, _. split; [reflexivity|]. repeat split.
Qed.

(** *** [chat_completion] and [vision_completion] *)

Lemma chat_attempt_transient self payload attempt s :
  transient (backend (trace s) (POST (chat_endpoint self) payload (timeout self))) ->
  (0 <= retry_delay self)%Q ->
  chat_attempt self payload attempt s =
  (Returned None,
   extend (EvHttp (POST (chat_endpoint self) payload (timeout self)) ::
           if attempt <? max_retries self - 1
           then [EvSleep (retry_delay self)] else []) s).
Proof.
  intros [Hb | Hb] Hd.
  - now apply chat_attempt_refused.
  - unfold chat_attempt, try_except, bind, requests_post, send. rewrite Hb.
    destruct (attempt <? max_retries self - 1).
    + unfold time_sleep.
      assert (Qlt_bool (retry_delay self) 0 = false) as ->.
      { destruct (Qlt_bool (retry_delay self) 0) eqn:E; [|reflexivity].
        apply Qlt_bool_iff in E. exfalso. exact (Qlt_not_le _ _ E Hd). }
      unfold emit, ret. rewrite !log_extend, extend_extend. reflexivity.
    + unfold ret. rewrite log_extend. reflexivity.
Qed.

(** A negative delay makes the sleep of the handler raise. *)
Lemma chat_attempt_sleep_raises self payload attempt s :
  transient (backend (trace s) (POST (chat_endpoint self) payload (timeout self))) ->
  attempt < max_retries self - 1 ->
  (retry_delay self < 0)%Q ->
  chat_attempt self payload attempt s =
  (Raised ValueError,
   extend [EvHttp (POST (chat_endpoint self) payload (timeout self))] s).
Proof.
  intros Ht Ha Hd.
  apply Z.ltb_lt in Ha. apply Qlt_bool_iff in Hd.
  unfold chat_attempt, try_except, bind, requests_post, send.
  destruct Ht as [-> | ->]; rewrite Ha; unfold time_sleep; rewrite Hd;
    unfold raise; now rewrite log_extend.
Qed.

(** The three ways one attempt ends. *)
Lemma chat_attempt_cases self payload attempt s :
  let a := EvHttp (POST (chat_endpoint self) payload (timeout self)) in
  (exists v, chat_attempt self payload attempt s = (Returned (Some v), extend [a] s)) \/
  (chat_attempt self payload attempt s = (Raised ValueError, extend [a] s) /\
   attempt < max_retries self - 1) \/
  (chat_attempt self payload attempt s =
     (Returned None,
      extend (a :: if attempt <? max_retries self - 1
                   then [EvSleep (retry_delay self)] else []) s)).
Proof.
  intros a.
  assert (Htr : transient (backend (trace s)
                  (POST (chat_endpoint self) payload (timeout self))) ->
    (chat_attempt self payload attempt s = (Raised ValueError, extend [a] s) /\
     attempt < max_retries self - 1) \/
    (chat_attempt self payload attempt s =
       (Returned None,
        extend (a :: if attempt <? max_retries self - 1
                     then [EvSleep (retry_delay self)] else []) s))).
  { intros Ht.
    destruct (Qlt_le_dec (retry_delay self) 0) as [Hneg | Hpos].
    - destruct (attempt <? max_retries self - 1) eqn:Ha.
      + left. apply Z.ltb_lt in Ha. split; [|assumption].
        now apply chat_attempt_sleep_raises.
      + right.
        unfold chat_attempt, try_except, bind, requests_post, send.
        destruct Ht as [-> | ->]; rewrite Ha; unfold ret;
          now rewrite log_extend.
    - right. now apply chat_attempt_transient. }
  destruct (backend (trace s) (POST (chat_endpoint self) payload (timeout self)))
    as [| | |st b] eqn:Hb.
  - right. apply Htr. now left.
  - right. apply Htr. now right.
  - left. exists JNull. unfold a. rewrite <- log_extend.
    exact (chat_attempt_failed _ _ _ _ Hb).
  - left. eexists. unfold a. rewrite <- log_extend.
    exact (chat_attempt_responded _ _ _ _ _ _ Hb).
Qed.

Lemma rounds_posts (j : nat) (req : http_request) (w : event) :
  is_post w = false ->
  length (posts (rounds j (EvHttp req) w)) =
  match req with POST _ _ _ => j | GET _ _ => 0%nat end.
Proof.
  intros Hw. induction j as [|j IH]; [now destruct req|].
  cbn [rounds]. unfold posts in *. cbn [filter]. rewrite Hw.
  destruct req; simpl; [exact IH | now rewrite IH].
Qed.

(** The loop over the attempts [i], [i+1], ... of which [k] remain: at most
    [k] POSTs, and fewer sleeps than POSTs. *)
Lemma chat_retry_loop_bound self payload :
  forall k i s,
    (i + k = Z.to_nat (max_retries self))%nat ->
    exists l,
      snd (chat_retry_loop self payload (map Z.of_nat (seq i k)) s) = extend l s /\
      (length (filter is_post l) <= k)%nat /\
      (length (filter is_sleep l) <= length (filter is_post l))%nat /\
      ((1 <= k)%nat ->
       (length (filter is_sleep l) < length (filter is_post l))%nat).
Proof.
  induction k as [|k IH]; intros i s Hik.
  - exists []. simpl. rewrite extend_nil. repeat split; lia.
  - cbn [seq map chat_retry_loop]. unfold bind at 1.
    destruct (chat_attempt_cases self payload (Z.of_nat i) s)
      as [[v ->] | [[-> _] | ->]].
    + eexists. split; [reflexivity|]. simpl. repeat split; lia.
    + eexists. split; [reflexivity|]. simpl. repeat split; lia.
    + destruct (IH (S i) (extend
                  (EvHttp (POST (chat_endpoint self) payload (timeout self))
                   :: (if Z.of_nat i <? max_retries self - 1
                       then [EvSleep (retry_delay self)] else [])) s))
        as (l & Hl & Hp & Hs & Hlt); [lia|].
      rewrite Hl, extend_extend. eexists. split; [reflexivity|].
      destruct k as [|k].
      * assert ((Z.of_nat i <? max_retries self - 1) = false) as -> by lia.
        simpl. simpl in Hl.
        assert (l = []) as ->.
        { apply (f_equal trace) in Hl. simpl in Hl.
          rewrite <- (app_nil_r (trace s ++ _)) in Hl at 1.
          now apply app_inv_head in Hl. }
        simpl. repeat split; lia.
      * assert ((Z.of_nat i <? max_retries self - 1) = true) as -> by lia.
        simpl. specialize (Hlt ltac:(lia)). repeat split; lia.
Qed.

(** X4.  Whatever the backend does, one call of [chat_completion] sends at
    most [max_retries] POSTs (none when [max_retries] is not positive), and
    it sleeps fewer times than it posts: every sleep is followed by another
    attempt. *)
Theorem chat_completion_is_bounded
  prompt model temperature max_tokens system_prompt s :
  exists s1 l,
    snd (health_check false s) = s1 /\
    snd (chat_completion prompt model temperature max_tokens system_prompt s)
      = extend l s1 /\
    (length (filter is_post l) <= Z.to_nat (max_retries (client s)))%nat /\
    (length (filter is_sleep l) <= length (filter is_post l))%nat /\
    (l <> [] -> (length (filter is_sleep l) < length (filter is_post l))%nat).
Proof.
  destruct (health_check_total false s) as (ok & s1 & H & _).
  exists s1. rewrite H. simpl.
  destruct ok.
  - destruct (health_check_config _ _ _ _ H)
      as (_ & _ & _ & _ & _ & _ & _ & _ & Hmr & _).
    rewrite (chat_completion_healthy _ _ _ _ _ _ _ H). unfold py_range.
    match goal with
    | |- context [chat_retry_loop ?c ?p _ ?s0] =>
        destruct (chat_retry_loop_bound c p (Z.to_nat (max_retries c)) 0%nat s0)
          as (l & Hl & Hp & Hs & Hlt); [lia|]
    end.
    exists l. rewrite <- Hmr. split; [reflexivity|].
    split; [exact Hl|]. split; [exact Hp|].
    split; [exact Hs|]. intros Hne. apply Hlt.
    destruct (Z.to_nat (max_retries (client s1))) as [|n] eqn:E; [|lia].
    exfalso. apply Hne. simpl in Hl. apply (f_equal trace) in Hl. simpl in Hl.
    rewrite <- (app_nil_r (trace s1)) in Hl at 1.
    now apply app_inv_head in Hl.
  - rewrite (chat_completion_unhealthy _ _ _ _ _ _ _ H).
    exists []. rewrite extend_nil. simpl. repeat split; try lia. congruence.
Qed.

Lemma chat_retry_loop_answer self payload st b :
  (0 <= retry_delay self)%Q ->
  let req := POST (chat_endpoint self) payload (timeout self) in
  let a := EvHttp req in
  let w := EvSleep (retry_delay self) in
  forall k i n s,
    Z.of_nat (i + k) < max_retries self ->
    (forall j, (j < k)%nat -> transient (backend (trace s ++ rounds j a w) req)) ->
    backend (trace s ++ rounds k a w) req = Responded st b ->
    chat_retry_loop self payload (map Z.of_nat (seq i (k + S n))) s =
    (Returned (answer_of st b), extend (rounds k a w ++ [a]) s).
Proof.
  intros Hd req a w. induction k as [|k IH]; intros i n s Hik Hfail Hresp.
  - cbn [Nat.add seq map chat_retry_loop rounds app]. unfold bind.
    simpl in Hresp. rewrite app_nil_r in Hresp.
    rewrite (chat_attempt_responded _ _ _ _ _ _ Hresp). reflexivity.
  - cbn [Nat.add seq map chat_retry_loop]. unfold bind at 1.
    assert (H0 : transient (backend (trace s) req)).
    { specialize (Hfail 0%nat ltac:(lia)). simpl in Hfail.
      now rewrite app_nil_r in Hfail. }
    rewrite (chat_attempt_transient _ _ _ _ H0 Hd).
    assert ((Z.of_nat i <? max_retries self - 1) = true) as -> by lia.
    fold req a w.
    rewrite (IH (S i) n (extend [a; w] s)).
    + rewrite extend_extend. reflexivity.
    + lia.
    + intros j Hj. specialize (Hfail (S j) ltac:(lia)).
      simpl. rewrite <- app_assoc. exact Hfail.
    + simpl. rewrite <- app_assoc. exact Hresp.
Qed.

(** X5.  If, past a healthy check and with a non-negative delay, the first
    [k] attempts meet a refused connection or a timeout and attempt [k+1]
    (still within [max_retries]) gets a response, then [chat_completion]
    returns what that response yields: it has sent [k+1] identical POSTs and
    slept [retry_delay] after each of the [k] failures. *)
Theorem retry_until_answer
  prompt model temperature max_tokens system_prompt s s1 (k : nat) st b :
  let req := chat_request (client s) prompt model temperature max_tokens
               system_prompt in
  let a := EvHttp req in
  let w := EvSleep (retry_delay (client s)) in
  health_check false s = (Returned true, s1) ->
  (0 <= retry_delay (client s))%Q ->
  Z.of_nat k < max_retries (client s) ->
  (forall j, (j < k)%nat -> transient (backend (trace s1 ++ rounds j a w) req)) ->
  backend (trace s1 ++ rounds k a w) req = Responded st b ->
  chat_completion prompt model temperature max_tokens system_prompt s =
    (Returned (answer_of st b), extend (rounds k a w ++ [a]) s1).
Proof.
  intros req a w H Hd Hk Hfail Hresp.
  destruct (health_check_config _ _ _ _ H)
    as (_ & Hce & _ & Hpm & _ & Hto & _ & _ & Hmr & Hrd).
  rewrite (chat_completion_healthy _ _ _ _ _ _ _ H). unfold py_range.
  assert (Hreq : POST (chat_endpoint (client s1))
                   (chat_payload (resolve_model model (primary_model (client s1)))
                      (chat_messages prompt system_prompt) temperature max_tokens)
                   (timeout (client s1)) = req).
  { unfold req, chat_request. now rewrite Hce, Hpm, Hto. }
  replace (Z.to_nat (max_retries (client s1)))
    with (k + S (Z.to_nat (max_retries (client s1)) - k - 1))%nat by lia.
  rewrite (chat_retry_loop_answer (client s1) _ st b).
  - rewrite Hreq, Hrd. reflexivity.
  - now rewrite Hrd.
  - simpl. lia.
  - intros j Hj. rewrite Hreq, Hrd. now apply Hfail.
  - rewrite Hreq, Hrd. exact Hresp.
Qed.

Lemma chat_retry_loop_transient self payload :
  (forall tr,
     transient (backend tr (POST (chat_endpoint self) payload (timeout self)))) ->
  (0 <= retry_delay self)%Q ->
  forall k i s,
    (i + k = Z.to_nat (max_retries self))%nat ->
    chat_retry_loop self payload (map Z.of_nat (seq i k)) s =
    (Returned JNull,
     extend (spaced k (EvHttp (POST (chat_endpoint self) payload (timeout self)))
               (EvSleep (retry_delay self))) s).
Proof.
  intros Hb Hd. induction k as [|k IH]; intros i s Hik.
  - simpl. unfold ret. now rewrite extend_nil.
  - cbn [seq map chat_retry_loop]. unfold bind at 1.
    rewrite (chat_attempt_transient _ _ _ _ (Hb _) Hd).
    rewrite IH by lia. rewrite extend_extend. f_equal. f_equal.
    cbn [spaced]. cbn [app]. f_equal.
    destruct k as [|k].
    + assert ((Z.of_nat i <? max_retries self - 1) = false) as -> by lia.
      reflexivity.
    + assert ((Z.of_nat i <? max_retries self - 1) = true) as -> by lia.
      reflexivity.
Qed.

(** X6.  A timeout is retried exactly like a refused connection: past a
    healthy check and with a non-negative delay, if every attempt times out
    or is refused, [chat_completion] makes [max_retries] attempts with a sleep
    between consecutive ones and returns [None]. *)
Theorem timeouts_exhaust_the_retries
  prompt model temperature max_tokens system_prompt s s1 :
  health_check false s = (Returned true, s1) ->
  (forall tr req, transient (backend tr req)) ->
  (0 <= retry_delay (client s))%Q ->
  chat_completion prompt model temperature max_tokens system_prompt s =
    (Returned JNull,
     extend (spaced (Z.to_nat (max_retries (client s)))
               (EvHttp (chat_request (client s) prompt model temperature max_tokens
                          system_prompt))
               (EvSleep (retry_delay (client s)))) s1).
Proof.
  intros H Hb Hd.
  destruct (health_check_config _ _ _ _ H)
    as (_ & Hce & _ & Hpm & _ & Hto & _ & _ & Hmr & Hrd).
  rewrite (chat_completion_healthy _ _ _ _ _ _ _ H). unfold py_range.
  rewrite chat_retry_loop_transient; try lia.
  - unfold chat_request. now rewrite Hce, Hpm, Hto, Hmr, Hrd.
  - intros tr. apply Hb.
  - now rewrite Hrd.
Qed.

(** X7.  [chat_completion] can raise: with a negative [retry_delay] and at
    least two attempts allowed, a first attempt that is refused or times out
    makes the sleep of the handler raise [ValueError], which leaves the
    function after that single POST. *)
Theorem negative_delay_raises
  prompt model temperature max_tokens system_prompt s s1 :
  let req := chat_request (client s) prompt model temperature max_tokens
               system_prompt in
  health_check false s = (Returned true, s1) ->
  (retry_delay (client s) < 0)%Q ->
  2 <= max_retries (client s) ->
  transient (backend (trace s1) req) ->
  chat_completion prompt model temperature max_tokens system_prompt s =
    (Raised ValueError, extend [EvHttp req] s1).
Proof.
  intros req H Hd Hn Hb.
  destruct (health_check_config _ _ _ _ H)
    as (_ & Hce & _ & Hpm & _ & Hto & _ & _ & Hmr & Hrd).
  rewrite (chat_completion_healthy _ _ _ _ _ _ _ H).
  destruct (py_range_pos (max_retries (client s1))) as [rest ->]; [lia|].
  cbn [chat_retry_loop]. unfold bind.
  unfold req, chat_request in Hb. rewrite <- Hce, <- Hpm, <- Hto in Hb.
  rewrite (chat_attempt_sleep_raises _ _ _ _ Hb).
  - unfold req, chat_request. now rewrite Hce, Hpm, Hto.
  - lia.
  - now rewrite Hrd.
Qed.

Lemma vision_completion_run prompt image_base64 model temperature s s1 :
  let req := vision_request (client s) prompt image_base64 model temperature in
  health_check false s = (Returned true, s1) ->
  vision_completion prompt image_base64 model temperature s =
    (Returned (vision_answer (backend (trace s1) req)), extend [EvHttp req] s1).
Proof.
  intros req H.
  destruct (health_check_config _ _ _ _ H)
    as (_ & Hce & _ & _ & Hvm & _ & _ & Hvt & _ & _).
  assert (Hreq : vision_request (client s1) prompt image_base64 model temperature
                 = req).
  { unfold req, vision_request. now rewrite Hce, Hvm, Hvt. }
  unfold vision_completion, bind at 1. rewrite H. simpl.
  unfold bind at 1, get_state.
  unfold try_except, bind, requests_post, send, raise_for_status, response_json.
  fold (vision_request (client s1) prompt image_base64 model temperature).
  rewrite Hreq.
  destruct (backend (trace s1) req) as [| | |st b]; try reflexivity.
  cbn [status_code body vision_answer]. unfold answer_of, is_http_error.
  destruct ((400 <=? st) && (st <? 600)); [reflexivity|].
  unfold ret at 1.
  destruct b as [data|]; [|reflexivity].
  unfold ret at 1.
  match goal with
  | |- context [first_choice_content data ?s0] =>
      destruct (first_choice_content_spec data s0) as (r & -> & Hr)
  end.
  destruct (content_of data); [subst; reflexivity|].
  destruct Hr as (e & -> & _). reflexivity.
Qed.

(** X8.  [vision_completion] never raises.  Past a healthy check it sends
    exactly one POST and returns what the response yields: the content when
    the status is not 4xx/5xx and the body has [choices[0].message.content],
    [None] in every other case (refused, timed out, failed, error status,
    malformed body). *)
Theorem vision_completion_answer prompt image_base64 model temperature s s1 :
  let req := vision_request (client s) prompt image_base64 model temperature in
  health_check false s = (Returned true, s1) ->
  exists r,
    vision_completion prompt image_base64 model temperature s =
      (Returned r, extend [EvHttp req] s1) /\
    (forall st data v,
       backend (trace s1) req = Responded st (Some data) ->
       is_http_error st = false ->
       content_of data = Some v ->
       r = v) /\
    (forall st b,
       backend (trace s1) req = Responded st b ->
       is_http_error st = true \/ missing_content b ->
       r = JNull) /\
    (~ (exists st b, backend (trace s1) req = Responded st b) -> r = JNull).
Proof.
  intros req H. rewrite (vision_completion_run _ _ _ _ _ _ H). fold req.
  eexists. split; [reflexivity|]. repeat split.
  - intros st data v -> Hst Hc. simpl. unfold answer_of. now rewrite Hst, Hc.
  - intros st b -> Herr. simpl. now apply answer_of_error.
  - intros Hno. destruct (backend (trace s1) req) as [| | |st b]; try reflexivity.
    exfalso. apply Hno. eauto.
Qed.

(** X9.  Extracting [data["choices"][0]["message"]["content"]] succeeds
    exactly when the body is an object whose "choices" is a list that starts
    with an object whose "message" is an object with a "content" key; in every
    other shape it raises KeyError, IndexError or TypeError, and it has no
    effect. *)
Theorem content_extraction (data : json) (s : sys) :
  (forall v, first_choice_content data s = (Returned v, s) <-> content_of data = Some v) /\
  (content_of data = None <->
   exists e, first_choice_content data s = (Raised e, s) /\ lookup_error e).
Proof.
  destruct (first_choice_content_spec data s) as (r & Hr & Hc).
  rewrite Hr. destruct (content_of data) as [v0|].
  - subst r. split.
    + intros v. split; intros E; inversion E; reflexivity.
    + split; [discriminate|]. intros (e & E & _). discriminate E.
  - destruct Hc as (e & -> & He). split.
    + intros v. split; discriminate.
    + split; [|reflexivity]. intros _. exists e. auto.
Qed.

(** *** [get_loaded_models] and [verify_model] *)

Lemma collect_ids_spec (items : list json) (s : sys) :
  exists r,
    collect_ids items s = (r, s) /\
    match ids_of items with
    | Some ids => r = Returned ids
    | None => exists e, r = Raised e
    end.
Proof.
  induction items as [|item items IH].
  - eexists. split; reflexivity.
  - destruct IH as (r & Hr & Hids).
    cbn [collect_ids ids_of]. unfold bind at 1, getitem.
    destruct item; try (eexists; split; [reflexivity | eauto]).
    destruct (dict_get fields "id") as [id|];
      [| eexists; split; [reflexivity | eauto]].
    unfold ret at 1. unfold bind. rewrite Hr.
    destruct (ids_of items) as [ids|].
    + subst r. eexists. split; reflexivity.
    + destruct Hids as [e ->]. eexists. split; [reflexivity | eauto].
Qed.

(** What the comprehension over [data.get("data", [])] gives. *)
Lemma listing_spec (data : json) (s : sys) :
  exists r,
    bind (method_get data "data" (JArr []))
      (fun listed => bind (iterate listed) collect_ids) s = (r, s) /\
    match listed_ids data with
    | Some ids => r = Returned ids
    | None => exists e, r = Raised e
    end.
Proof.
  unfold listed_ids, method_get.
  destruct data; try (eexists; split; [reflexivity | eauto]).
  unfold bind at 1, ret at 1.
  destruct (dict_get fields "data") as [listed|].
  - destruct listed as [| | | | str | items | obj];
      try (eexists; split; [reflexivity | eauto]).
    + destruct str as [|ch str]; eexists; (split; [reflexivity | eauto]).
    + unfold bind, iterate, ret at 1. apply collect_ids_spec.
    + destruct obj as [|[key value] obj]; eexists; (split; [reflexivity | eauto]).
  - eexists. split; reflexivity.
Qed.

Lemma get_loaded_models_run (s : sys) :
  get_loaded_models s =
  (Returned (listing_of (backend (trace s) (probe (client s)))),
   extend [EvHttp (probe (client s))] s).
Proof.
  unfold get_loaded_models, bind at 1, get_state.
  unfold try_except, bind at 1, requests_get, send. fold (probe (client s)).
  rewrite log_extend.
  destruct (backend (trace s) (probe (client s))) as [| | |st b]; try reflexivity.
  unfold bind at 1, raise_for_status. cbn [status_code listing_of].
  unfold is_http_error.
  destruct ((400 <=? st) && (st <? 600)).
  - destruct b; reflexivity.
  - unfold ret at 1. unfold bind at 1, response_json. cbn [body].
    destruct b as [data|]; [|reflexivity].
    unfold ret at 1.
    destruct (listing_spec data (extend [EvHttp (probe (client s))] s))
      as (r & Hr & Hl).
    unfold bind in Hr. unfold bind. 
    destruct (method_get data "data" (JArr []) _) as [[listed|e] s1] eqn:E1.
    + destruct (iterate listed s1) as [[items|e] s2] eqn:E2.
      * rewrite Hr. destruct (listed_ids data).
        -- subst r. reflexivity.
        -- destruct Hl as [e ->]. reflexivity.
      * inversion Hr; subst. destruct (listed_ids data); [discriminate|reflexivity].
    + inversion Hr; subst. destruct (listed_ids data); [discriminate|reflexivity].
Qed.

(** X10.  [get_loaded_models] never raises and never consults or updates the
    health cache: every call sends exactly one GET to the models endpoint and
    changes nothing else.  It returns the ids listed under "data" when the
    status is not 4xx/5xx and every listed model is an object with an "id";
    an object without a "data" key gives the empty list, and every failure
    gives [None]. *)
Theorem loaded_models_listing (s : sys) :
  exists r,
    get_loaded_models s =
      (Returned r,
       extend [EvHttp (GET (models_endpoint (client s))
                         (health_timeout (client s)))] s) /\
    r = listing_of (backend (trace s) (probe (client s))) /\
    (forall st fields,
       backend (trace s) (probe (client s)) = Responded st (Some (JObj fields)) ->
       is_http_error st = false ->
       dict_get fields "data" = None ->
       r = Some []) /\
    (forall st fields items,
       backend (trace s) (probe (client s)) = Responded st (Some (JObj fields)) ->
       is_http_error st = false ->
       dict_get fields "data" = Some (JArr items) ->
       r = ids_of items) /\
    (forall st b,
       backend (trace s) (probe (client s)) = Responded st b ->
       is_http_error st = true ->
       r = None) /\
    (backend (trace s) (probe (client s)) = Refused -> r = None) /\
    (backend (trace s) (probe (client s)) = TimedOut -> r = None).
Proof.
  rewrite get_loaded_models_run. eexists. split; [reflexivity|].
  split; [reflexivity|]. repeat split.
  - intros st fields -> Hst Hd. simpl. now rewrite Hst, Hd.
  - intros st fields items -> Hst Hd. simpl. now rewrite Hst, Hd.
  - intros st b -> Hst. simpl. rewrite Hst. now destruct b.
  - now intros ->.
  - now intros ->.
Qed.

(** X11.  [verify_model] sends exactly one GET and never raises; it answers
    true exactly when the models could be listed and one of the listed ids is
    the given name, so it answers false whenever the listing fails. *)
Theorem verify_model_membership (model_name : string) (s : sys) :
  exists ok,
    verify_model model_name s =
      (Returned ok, extend [EvHttp (probe (client s))] s) /\
    (ok = true <->
     exists ids,
       listing_of (backend (trace s) (probe (client s))) = Some ids /\
       In (JStr model_name) ids).
Proof.
  unfold verify_model, bind. rewrite get_loaded_models_run.
  destruct (listing_of (backend (trace s) (probe (client s)))) as [ids|].
  - eexists. split; [reflexivity|]. rewrite existsb_exists. split.
    + intros (v & Hin & Hv). exists ids. split; [reflexivity|].
      destruct v; try discriminate. simpl in Hv. apply String.eqb_eq in Hv.
      now subst.
    + intros (ids' & E & Hin). inversion E; subst.
      exists (JStr model_name). split; [assumption|]. simpl.
      apply String.eqb_refl.
  - eexists. split; [reflexivity|]. split; [discriminate|].
    intros (ids & E & _). discriminate.
Qed.

(** *** The vision router *)

(** X12.  [_get_vision_prompt] uses the text of the user verbatim exactly
    when it is longer than 10 characters; a shorter text is ignored in favour
    of the instruction of the intent.  The prompt is never empty, and each of
    the six vision intents has an instruction of its own, different from the
    fallback "Describe what you see.". *)
Theorem vision_prompt_selection (intent user_prompt : string) :
  ((10 < String.length user_prompt)%nat ->
   _get_vision_prompt intent user_prompt = user_prompt) /\
  ((String.length user_prompt <= 10)%nat ->
   _get_vision_prompt intent user_prompt = _get_vision_prompt intent "") /\
  _get_vision_prompt intent user_prompt <> ""%string /\
  (In intent VISION_INTENTS ->
   _get_vision_prompt intent "" <> "Describe what you see."%string) /\
  (~ In intent VISION_INTENTS ->
   _get_vision_prompt intent "" = "Describe what you see."%string).
Proof using.
  assert (Htable : _get_vision_prompt intent "" <> ""%string).
  { unfold _get_vision_prompt.
    change (String.eqb "" "") with true. cbn [negb andb dict_get].
    repeat match goal with
           | |- context [String.eqb ?a intent] => destruct (String.eqb a intent)
           end; simpl; discriminate. }
  assert (Hshort : (String.length user_prompt <= 10)%nat ->
                   _get_vision_prompt intent user_prompt
                   = _get_vision_prompt intent "").
  { intros Hlen. unfold _get_vision_prompt.
    assert (Nat.ltb 10 (String.length user_prompt) = false) as ->
      by now apply Nat.ltb_ge.
    rewrite andb_false_r. reflexivity. }
  split; [|split; [exact Hshort|split; [|split]]].
  - intros Hlen. unfold _get_vision_prompt.
    assert (Nat.ltb 10 (String.length user_prompt) = true) as ->
      by now apply Nat.ltb_lt.
    destruct user_prompt; [exfalso; exact (Nat.nlt_0_r _ Hlen) | reflexivity].
  - destruct (Nat.le_gt_cases (String.length user_prompt) 10) as [Hle | Hgt].
    + now rewrite Hshort.
    + unfold _get_vision_prompt.
      assert (Nat.ltb 10 (String.length user_prompt) = true) as ->
        by now apply Nat.ltb_lt.
      destruct user_prompt; [exfalso; exact (Nat.nlt_0_r _ Hgt) | discriminate].
  - unfold VISION_INTENTS. intros Hin. simpl in Hin.
    repeat (destruct Hin as [<- | Hin]; [discriminate|]). contradiction.
  - intros Hnot. unfold _get_vision_prompt.
    change (String.eqb "" "") with true. cbn [negb andb dict_get].
    repeat match goal with
           | |- context [String.eqb ?a intent] =>
               destruct (String.eqb_spec a intent) as [E | _];
               [exfalso; apply Hnot; rewrite <- E; simpl; auto 10 |]
           end.
    reflexivity.
Qed.

Lemma capture_frame_events (s : sys) :
  _capture_frame s =
  (Returned (capture_of (camera (trace s))),
   extend (capture_events (camera (trace s))) s).
Proof.
  unfold _capture_frame, bind at 1, camera_now.
  unfold try_except, bind, time_sleep, emit, raise, ret. simpl.
  destruct (camera (trace s)) as [| |[|] [image|]]; simpl;
    rewrite ?log_extend, ?extend_extend; try reflexivity.
  now rewrite extend_nil.
Qed.

(** X13.  [_capture_frame] never raises and touches nothing but the camera.
    It returns an image only when the read succeeded and the frame could be
    encoded.  Whenever the read returns, with a frame or not, the camera is
    released as the last operation; when opening raises nothing else happens;
    when the read itself raises, the camera that was opened is not
    released. *)
Theorem capture_releases_after_read (s : sys) :
  let cam := camera (trace s) in
  exists image l,
    _capture_frame s = (Returned image, extend l s) /\
    (forall b, image = Some b <-> cam = Frame true (Some b)) /\
    (forall ok encoded, cam = Frame ok encoded ->
       l = [EvCameraOpen; EvSleep (2 # 10); EvCameraRead; EvCameraRelease]) /\
    (cam = ReadRaises ->
       l = [EvCameraOpen; EvSleep (2 # 10); EvCameraRead]) /\
    (cam = OpenRaises -> l = []).
Proof.
  intros cam. rewrite capture_frame_events. fold cam.
  eexists _, _. split; [reflexivity|]. repeat split.
  - destruct cam as [| |[|] [image|]]; simpl; intros E; inversion E; reflexivity.
  - intros ->. reflexivity.
  - intros ok encoded ->. reflexivity.
  - intros ->. reflexivity.
  - intros ->. reflexivity.
Qed.

Lemma stays_healthy_check (s s' : sys) :
  stays_healthy s ->
  client s' = client s ->
  health_check false s' = (Returned true, s').
Proof.
  intros (Hh & last & Hl & Hz & Hage) Hc.
  rewrite (health_check_fresh_cache s' last); [now rewrite Hc, Hh | now rewrite Hc | assumption | apply Hage].
Qed.

Lemma handle_vision_intent_no_frame intent prompt save_image s :
  let cam := camera_met intent s in
  truthy_str (capture_of cam) = false ->
  exists s',
    handle_vision_intent intent prompt save_image s =
      (Returned (error_dict "camera_failed" "Unable to access camera"), s') /\
    trace s' = trace s ++ EvVisionState (first_publication intent s)
                 :: capture_events cam ++ [EvVisionState (vision_state s')] /\
    vs_result (vision_state s') = Some (JStr "Camera capture failed") /\
    vs_active (vision_state s') = false /\
    client s' = client s /\
    memory_file s' = memory_file s.
Proof.
  intros cam Himg.
  unfold handle_vision_intent. unfold bind at 1.
  rewrite update_vision_state_run. fold (first_publication intent s).
  unfold bind at 1. rewrite capture_frame_events.
  change (camera (trace (publish (first_publication intent s) s))) with cam.
  rewrite Himg. cbn [negb].
  unfold bind. rewrite update_vision_state_run. unfold ret.
  eexists. split; [reflexivity|]. repeat split.
  simpl. now rewrite <- !app_assoc.
Qed.

(** X14.  When no frame is captured (the camera cannot be opened or read, the
    read fails, or no image text comes out), [handle_vision_intent] contacts
    nothing: between its two publications there are only the camera
    operations, the health cache is neither consulted nor changed, and the
    call returns the camera error whatever [save_image] is. *)
Theorem no_request_without_a_frame intent prompt save_image s :
  let cam := camera_met intent s in
  truthy_str (capture_of cam) = false ->
  exists s' l,
    handle_vision_intent intent prompt save_image s =
      (Returned (error_dict "camera_failed" "Unable to access camera"), s') /\
    trace s' = trace s ++ l /\
    Forall (fun e => is_http e = false /\
                     forall image, e <> EvSaveImage image) l /\
    vs_result (vision_state s') = Some (JStr "Camera capture failed") /\
    vs_active (vision_state s') = false /\
    client s' = client s /\
    memory_file s' = memory_file s.
Proof.
  intros cam Himg.
  destruct (handle_vision_intent_no_frame intent prompt save_image s Himg)
    as (s' & Hrun & Htr & Hres & Hact & Hcl & Hmf).
  eexists s', _. split; [exact Hrun|]. split; [exact Htr|].
  split; [|auto].
  constructor; [split; [reflexivity | discriminate]|].
  apply Forall_app. split.
  - fold cam. destruct cam; repeat constructor; discriminate.
  - constructor; [split; [reflexivity | discriminate] | constructor].
Qed.

(** The run of [handle_vision_intent] that reaches the answer of the model. *)
Lemma handle_vision_intent_answered intent prompt save_image s image st b :
  let req := vision_intent_request s intent prompt image in
  let answer := answer_of st b in
  stays_healthy s ->
  camera_met intent s = Frame true (Some image) ->
  image <> ""%string ->
  (forall tr, backend tr req = Responded st b) ->
  truthy answer = true ->
  exists d r s',
    handle_vision_intent intent prompt save_image s = (Returned d, s') /\
    trace s' = trace s ++ EvVisionState (first_publication intent s)
                 :: [EvCameraOpen; EvSleep (2 # 10); EvCameraRead; EvCameraRelease]
                 ++ (if save_image then [EvSaveImage image] else [])
                 ++ [EvHttp req; EvVisionState (vision_state s')] /\
    vs_intent (vision_state s') = Some intent /\
    vs_active (vision_state s') = false /\
    vs_result (vision_state s') = Some r /\
    client s' = client s /\
    (sliceable answer = true -> d = success_dict intent answer /\ r = answer) /\
    (sliceable answer = false ->
     exists error_msg, d = error_dict "vision_failed" error_msg /\ r = JStr error_msg) /\
    (match answer with JBool _ | JInt _ | JFloat _ => True | _ => False end ->
     d = error_dict "vision_failed" (exn_str TypeError) /\
     r = JStr (exn_str TypeError)).
Proof.
  intros req answer Hfresh Hcam Hne Hb Hans.
  unfold handle_vision_intent. unfold bind at 1.
  rewrite update_vision_state_run. fold (first_publication intent s).
  unfold bind at 1. rewrite capture_frame_events.
  change (camera (trace (publish (first_publication intent s) s)))
    with (camera_met intent s).
  rewrite Hcam. cbn [capture_of capture_events].
  assert (truthy_str (Some image) = true) as ->.
  { simpl. apply negb_true_iff. now apply String.eqb_neq. }
  cbn [negb]. unfold bind at 1.
  set (sc := extend _ (publish (first_publication intent s) s)).
  assert (Hsave : exists sv,
            (if save_image then emit (EvSaveImage image) else ret tt) sc
              = (Returned tt, extend sv sc) /\
            sv = if save_image then [EvSaveImage image] else []).
  { destruct save_image.
    - eexists. split; [unfold emit; now rewrite log_extend | reflexivity].
    - exists []. split; [now rewrite extend_nil | reflexivity]. }
  destruct Hsave as (sv & -> & Hsv).
  unfold bind at 1.
  rewrite (stays_healthy_check s (extend sv sc) Hfresh eq_refl). cbn [negb].
  unfold try_except, bind at 1.
  rewrite (vision_completion_run _ _ _ _ _ _
             (stays_healthy_check s (extend sv sc) Hfresh eq_refl)).
  change (vision_request (client (extend sv sc)) (_get_vision_prompt intent prompt)
            image None (2 # 10)) with req.
  rewrite Hb. cbn [vision_answer]. fold answer. rewrite Hans.
  unfold bind at 1.
  destruct (sliceable answer) eqn:Hsl.
  - rewrite (preview_sliceable _ _ Hsl).
    unfold bind. rewrite update_vision_state_run. unfold ret.
    eexists _, answer, _. split; [reflexivity|].
    split; [simpl; rewrite Hsv, <- !app_assoc; reflexivity|].
    split; [reflexivity|]. split; [reflexivity|]. split; [reflexivity|].
    split; [reflexivity|].
    split; [intros _; split; reflexivity|].
    split; [discriminate|].
    destruct answer; try contradiction; discriminate Hsl.
  - rewrite (preview_other _ _ Hsl).
    unfold bind. rewrite update_vision_state_run. unfold ret.
    eexists _, (JStr (exn_str TypeError)), _. split; [reflexivity|].
    split; [simpl; rewrite Hsv, <- !app_assoc; reflexivity|].
    split; [reflexivity|]. split; [reflexivity|]. split; [reflexivity|].
    split; [reflexivity|].
    split; [discriminate|].
    split; [intros _; eexists; split; reflexivity|].
    intros _; split; reflexivity.
Qed.

(** X15.  With a frame captured, a healthy cache that stays fresh, and a
    backend whose answer to the vision request yields a non-empty value,
    [handle_vision_intent] has published the active state, operated the
    camera, saved the image only if asked to, sent one POST carrying that
    image and the prompt selected for the intent, and published last an
    inactive state.  When the value is a string or a list, it returns the
    success dictionary with that value, which is also the result published.
    Any other value (a number, [True], an object) makes the slice
    [result_text[:100]] raise: it then returns the error "vision_failed" and
    publishes the text of the exception, which for a number or [True] is that
    of a TypeError. *)
Theorem vision_intent_success intent prompt save_image s image st b :
  let req := vision_intent_request s intent prompt image in
  let answer := answer_of st b in
  stays_healthy s ->
  camera_met intent s = Frame true (Some image) ->
  image <> ""%string ->
  (forall tr, backend tr req = Responded st b) ->
  truthy answer = true ->
  exists d r s',
    handle_vision_intent intent prompt save_image s = (Returned d, s') /\
    trace s' = trace s ++ EvVisionState (first_publication intent s)
                 :: [EvCameraOpen; EvSleep (2 # 10); EvCameraRead; EvCameraRelease]
                 ++ (if save_image then [EvSaveImage image] else [])
                 ++ [EvHttp req; EvVisionState (vision_state s')] /\
    vs_intent (vision_state s') = Some intent /\
    vs_active (vision_state s') = false /\
    vs_result (vision_state s') = Some r /\
    client s' = client s /\
    (sliceable answer = true -> d = success_dict intent answer /\ r = answer) /\
    (sliceable answer = false ->
     exists error_msg, d = error_dict "vision_failed" error_msg /\ r = JStr error_msg) /\
    (match answer with JBool _ | JInt _ | JFloat _ => True | _ => False end ->
     d = error_dict "vision_failed" (exn_str TypeError) /\
     r = JStr (exn_str TypeError)).
Proof.
  intros req answer. exact (handle_vision_intent_answered intent prompt save_image s image st b).
Qed.

Lemma vision_request_config c c' prompt image model temperature :
  same_config c c' ->
  vision_request c' prompt image model temperature
  = vision_request c prompt image model temperature.
Proof.
  intros (_ & Hce & _ & _ & Hvm & _ & _ & Hvt & _ & _).
  unfold vision_request. now rewrite Hce, Hvm, Hvt.
Qed.

Lemma same_config_refl c : same_config c c.
Proof. repeat split. Qed.

Lemma same_config_trans c1 c2 c3 :
  same_config c1 c2 -> same_config c2 c3 -> same_config c1 c3.
Proof.
  unfold same_config. intros H1 H2.
  repeat match goal with H : _ /\ _ |- _ => destruct H end.
  repeat split; congruence.
Qed.

(** The shape of one [vision_completion]. *)
Lemma vision_completion_trace prompt image model temperature s :
  exists r s' l,
    vision_completion prompt image model temperature s = (Returned r, s') /\
    trace s' = trace s ++ l /\
    vision_state s' = vision_state s /\
    memory_file s' = memory_file s /\
    same_config (client s) (client s') /\
    (length (posts l) <= 1)%nat /\
    Forall (fun e => e = EvHttp (probe (client s)) \/
                     e = EvHttp (vision_request (client s) prompt image model
                                   temperature)) l.
Proof.
  destruct (health_check_total false s) as (ok & s1 & H & Htr & Hvs & Hmf & _).
  pose proof (health_check_config _ _ _ _ H) as Hcfg.
  destruct ok.
  - destruct (vision_completion_healthy prompt image model temperature _ _ H)
      as (r & ->).
    rewrite (vision_request_config _ _ _ _ _ _ Hcfg).
    destruct Htr as [E | E].
    + eexists _, _, [_]. split; [reflexivity|]. simpl. rewrite E.
      repeat split; try assumption; try apply Hcfg.
      * simpl. lia.
      * constructor; [now right | constructor].
    + eexists _, _, [_; _]. split; [reflexivity|]. simpl. rewrite E, <- app_assoc.
      repeat split; try assumption; try apply Hcfg.
      * simpl. lia.
      * constructor; [now left|]. constructor; [now right | constructor].
  - rewrite (vision_completion_unhealthy _ _ _ _ _ _ H).
    destruct Htr as [E | E].
    + exists JNull, s1, []. split; [reflexivity|]. rewrite E, app_nil_r.
      repeat split; try assumption; try apply Hcfg.
      * simpl. lia.
      * constructor.
    + eexists _, _, [_]. split; [reflexivity|]. rewrite E.
      repeat split; try assumption; try apply Hcfg.
      * simpl. lia.
      * constructor; [now left | constructor].
Qed.

(** The shape of one [health_check]. *)
Lemma health_check_trace (force : bool) (s : sys) :
  exists ok s' l,
    health_check force s = (Returned ok, s') /\
    trace s' = trace s ++ l /\
    (l = [] \/ l = [EvHttp (probe (client s))]) /\
    vision_state s' = vision_state s /\
    memory_file s' = memory_file s /\
    same_config (client s) (client s').
Proof.
  destruct (health_check_total force s) as (ok & s1 & H & Htr & Hvs & Hmf & _).
  pose proof (health_check_config _ _ _ _ H) as Hcfg.
  exists ok, s1.
  destruct Htr as [E | E].
  - exists []. rewrite E, app_nil_r. repeat split; auto; apply Hcfg.
  - eexists. split; [exact H|]. split; [exact E|]. repeat split; auto; apply Hcfg.
Qed.

(** The shape of one [handle_vision_intent]. *)
Lemma handle_vision_intent_outcome intent prompt save_image s :
  let cam := camera_met intent s in
  exists d s' l r,
    handle_vision_intent intent prompt save_image s = (Returned d, s') /\
    trace s' = trace s ++ l /\
    memory_file s' = memory_file s /\
    same_config (client s) (client s') /\
    vs_intent (vision_state s') = Some intent /\
    vs_active (vision_state s') = false /\
    vs_result (vision_state s') = Some r /\
    (truthy r = true \/
     exists error_msg, d = error_dict "vision_failed" error_msg /\ r = JStr error_msg) /\
    vision_outcome intent d r /\
    (length (filter is_post l) <= 1)%nat /\
    Forall (vision_event_ok s intent prompt save_image cam) l /\
    (truthy_str (capture_of cam) = false ->
     d = error_dict "camera_failed" "Unable to access camera").
Proof.
  intros cam.
  set (ok_event := vision_event_ok s intent prompt save_image cam).
  unfold handle_vision_intent. unfold bind at 1.
  rewrite update_vision_state_run. fold (first_publication intent s).
  set (v0 := first_publication intent s).
  set (sa := publish v0 s).
  unfold bind at 1. rewrite capture_frame_events.
  change (camera (trace sa)) with cam.
  set (pre := EvVisionState v0 :: capture_events cam).
  set (sc := extend (capture_events cam) sa).
  assert (Htc : trace sc = trace s ++ pre).
  { unfold sc, sa, pre. simpl. now rewrite <- app_assoc. }
  assert (Fpre : Forall ok_event pre).
  { unfold pre. constructor; [exact I|].
    destruct cam; repeat constructor. }
  assert (Ppre : length (filter is_post pre) = 0%nat).
  { unfold pre. destruct cam; reflexivity. }
  assert (Ffin : forall vf, Forall ok_event [EvVisionState vf]).
  { intros vf. constructor; [exact I | constructor]. }
  destruct (truthy_str (capture_of cam)) eqn:Himg; cbn [negb].
  - destruct (capture_of cam) as [image|] eqn:Hc; [|discriminate].
    unfold bind at 1.
    set (sv := if save_image then [EvSaveImage image] else []).
    assert (Hsave : (if save_image then emit (EvSaveImage image) else ret tt) sc
                    = (Returned tt, extend sv sc)).
    { unfold sv. destruct save_image.
      - unfold emit. now rewrite log_extend.
      - unfold ret. now rewrite extend_nil. }
    rewrite Hsave. clear Hsave.
    assert (Fsv : Forall ok_event sv).
    { unfold sv. destruct save_image; [|constructor].
      constructor; [|constructor]. split; [reflexivity | exact Hc]. }
    assert (Psv : length (filter is_post sv) = 0%nat).
    { unfold sv. destruct save_image; reflexivity. }
    unfold bind at 1.
    destruct (health_check_trace false (extend sv sc))
      as (ok & sb & hc & Hh & Htb & Hhc & Hvb & Hmb & Hcb).
    rewrite Hh.
    assert (Fhc : Forall ok_event hc).
    { destruct Hhc as [-> | ->]; [constructor|].
      constructor; [exact I | constructor]. }
    assert (Phc : length (filter is_post hc) = 0%nat).
    { destruct Hhc as [-> | ->]; reflexivity. }
    assert (Htb' : trace sb = trace s ++ pre ++ sv ++ hc).
    { rewrite Htb. change (trace (extend sv sc)) with (trace sc ++ sv).
      rewrite Htc. now rewrite <- !app_assoc. }
    destruct ok; cbn [negb].
    + unfold try_except, bind at 1.
      destruct (vision_completion_trace (_get_vision_prompt intent prompt) image
                  None (2 # 10) sb)
        as (r & sd & vc & -> & Htd & Hvd & Hmd & Hcd & Pvc & Hvc).
      assert (Fvc : Forall ok_event vc).
      { eapply Forall_impl; [|exact Hvc]. intros e [-> | ->]; [exact I|].
        exists image. split; [exact Hc|].
        unfold vision_intent_request.
        now rewrite (vision_request_config _ _ _ _ _ _ Hcb). }
      assert (Hshape : forall vf,
                trace sd ++ [EvVisionState vf]
                  = trace s ++ (pre ++ sv ++ hc ++ vc ++ [EvVisionState vf]) /\
                (length (filter is_post
                   (pre ++ sv ++ hc ++ vc ++ [EvVisionState vf])) <= 1)%nat /\
                Forall ok_event (pre ++ sv ++ hc ++ vc ++ [EvVisionState vf])).
      { intros vf. split; [|split].
        - rewrite Htd, Htb'. now rewrite <- !app_assoc.
        - rewrite !filter_app, !length_app, Ppre, Psv, Phc.
          unfold posts in Pvc. simpl. lia.
        - repeat (apply Forall_app; split); auto. }
      destruct (truthy r) eqn:Hr.
      * unfold bind at 1. destruct (sliceable r) eqn:Hsl.
        -- rewrite (preview_sliceable r sd Hsl).
           unfold bind. rewrite update_vision_state_run. unfold ret.
           match goal with
           | |- context [publish ?vf sd] => destruct (Hshape vf) as (E & P & F)
           end.
           eexists _, _, _, r. split; [reflexivity|].
           split; [exact E|].
           split; [simpl; now rewrite Hmd, Hmb|].
           split; [eapply same_config_trans; [exact Hcb | exact Hcd]|].
           split; [simpl; now rewrite Hvd, Hvb|].
           split; [reflexivity|]. split; [reflexivity|].
           split; [left; exact Hr|]. split; [left; now split|].
           split; [exact P|]. split; [exact F|]. discriminate.
        -- rewrite (preview_other r sd Hsl).
           unfold bind. rewrite update_vision_state_run. unfold ret.
           match goal with
           | |- context [publish ?vf sd] => destruct (Hshape vf) as (E & P & F)
           end.
           eexists _, _, _, _. split; [reflexivity|].
           split; [exact E|].
           split; [simpl; now rewrite Hmd, Hmb|].
           split; [eapply same_config_trans; [exact Hcb | exact Hcd]|].
           split; [simpl; now rewrite Hvd, Hvb|].
           split; [reflexivity|]. split; [reflexivity|].
           split; [right; eexists; split; reflexivity|].
           split; [right; right; right; right; eexists; split; reflexivity|].
           split; [exact P|]. split; [exact F|]. discriminate.
      * unfold bind. rewrite update_vision_state_run. unfold ret.
        match goal with
        | |- context [publish ?vf sd] => destruct (Hshape vf) as (E & P & F)
        end.
        eexists _, _, _, _. split; [reflexivity|].
        split; [exact E|].
        split; [simpl; now rewrite Hmd, Hmb|].
        split; [eapply same_config_trans; [exact Hcb | exact Hcd]|].
        split; [simpl; now rewrite Hvd, Hvb|].
        split; [reflexivity|]. split; [reflexivity|].
        split; [now left|].
        split; [right; right; right; left; split; reflexivity|].
        split; [exact P|]. split; [exact F|]. discriminate.
    + unfold bind. rewrite update_vision_state_run. unfold ret.
      eexists _, _, (pre ++ sv ++ hc ++ [EvVisionState _]), _.
      split; [reflexivity|]. split.
      { simpl. rewrite Htb'. now rewrite <- !app_assoc. }
      split; [simpl; now rewrite Hmb|].
      split; [exact Hcb|].
      split; [simpl; now rewrite Hvb|].
      split; [reflexivity|]. split; [reflexivity|].
      split; [now left|].
      split; [right; right; left; split; reflexivity|].
      split; [rewrite !filter_app, !length_app, Ppre, Psv, Phc; simpl; lia|].
      split; [repeat (apply Forall_app; split); auto|]. discriminate.
  - unfold bind. rewrite update_vision_state_run. unfold ret.
    eexists _, _, (pre ++ [EvVisionState _]), _.
    split; [reflexivity|]. split.
    { unfold publish, log, set_vision_state. cbn [trace].
      rewrite Htc. now rewrite <- !app_assoc. }
    split; [reflexivity|].
    split; [apply same_config_refl|].
    split; [reflexivity|].
    split; [reflexivity|]. split; [reflexivity|].
    split; [now left|].
    split; [right; left; split; reflexivity|].
    split; [rewrite !filter_app, !length_app, Ppre; simpl; lia|].
    split; [apply Forall_app; split; auto|]. reflexivity.
Qed.

(** X16.  Whatever the camera and the backend do, one [handle_vision_intent]
    returns, leaves the memory file alone, sends at most one POST, which is
    the vision request for the captured image with the prompt selected for
    the intent, and saves an image only when [save_image] is set, and then
    the captured one. *)
Theorem vision_intent_effects intent prompt save_image s :
  let cam := camera_met intent s in
  exists d s' l,
    handle_vision_intent intent prompt save_image s = (Returned d, s') /\
    trace s' = trace s ++ l /\
    memory_file s' = memory_file s /\
    (length (filter is_post l) <= 1)%nat /\
    (forall url payload tmo,
       In (EvHttp (POST url payload tmo)) l ->
       exists image,
         capture_of cam = Some image /\
         POST url payload tmo = vision_intent_request s intent prompt image) /\
    (forall image,
       In (EvSaveImage image) l ->
       save_image = true /\ capture_of cam = Some image).
Proof.
  intros cam.
  destruct (handle_vision_intent_outcome intent prompt save_image s)
    as (d & s' & l & r & Hrun & Htr & Hmf & _ & _ & _ & _ & _ & _ & Hp & F & _).
  exists d, s', l. repeat (split; [assumption|]).
  rewrite Forall_forall in F. split.
  - intros url payload tmo Hin. destruct (F _ Hin) as (image & Hc & E).
    exists image. split; [assumption|]. now inversion E.
  - intros image Hin. exact (F _ Hin).
Qed.


(** *** The server *)

(** The route, for a body with a prompt, in two parts. *)
Lemma chat_completions_split (body : RequestBody) (prompt : string) (s : sys) :
  extract_prompt body = Some prompt ->
  prompt <> ""%string ->
  chat_completions (Some body) s =
  try_except
    (emit (EvMatchIntent prompt) ;;;
     response_text <- response_text_of body prompt ;;
     finalize body prompt response_text)
    server_error s.
Proof.
  intros Hp Hne.
  assert (Htruthy : truthy_str (Some prompt) = true).
  { simpl. apply negb_true_iff. now apply String.eqb_neq. }
  unfold chat_completions, try_except, bind at 1. unfold ret at 1.
  unfold bind at 5. unfold ret at 1.
  rewrite Hp, Htruthy. cbn [negb]. reflexivity.
Qed.

Lemma last_n_snoc_shape {A : Type} (n : nat) (l : list A) (x : A) :
  last_n (S n) (l ++ [x]) = last_n n l ++ [x].
Proof.
  unfold last_n. rewrite length_app. simpl length.
  replace (length l + 1 - S n)%nat with (length l - n)%nat by lia.
  rewrite skipn_app.
  replace (length l - n - length l)%nat with 0%nat by lia.
  reflexivity.
Qed.

(** What [save_context] writes. *)
Lemma save_context_writes (entry : Entry) (s : sys) :
  save_context entry s =
  (Returned tt,
   set_memory_file
     (Stored
        {| recent_memory := Some (last_n 100 (history s ++ [entry]));
           known_intents :=
             match memory_file s with
             | Stored old => match known_intents old with
                             | Some k => Some k
                             | None => Some (JObj [])
                             end
             | _ => Some (JObj [])
             end;
           other_keys :=
             match memory_file s with
             | Stored old => other_keys old
             | _ => []
             end |}) s).
Proof.
  unfold save_context, load_memory, bind, get_state, json_dump, ret, history.
  assert (Hkeep : forall l : list Entry,
            (if Nat.ltb 100 (length l) then last_n 100 l else l) = last_n 100 l).
  { intros l. destruct (Nat.ltb 100 (length l)) eqn:E; [reflexivity|].
    apply Nat.ltb_ge in E. now rewrite last_n_short. }
  destruct (memory_file s) as [| |data]; simpl; try reflexivity.
  destruct (recent_memory data) as [l|]; simpl; [|reflexivity].
  now rewrite Hkeep.
Qed.

(** X18.  Whatever the memory file holds, even a history longer than 100,
    [save_context] leaves at most 100 entries: the new entry, last, preceded
    by the 99 most recent older ones in their order.  Nothing is dropped
    while the history has fewer than 100 entries. *)
Theorem save_context_keeps_newest (entry : Entry) (s : sys) :
  let s' := snd (save_context entry s) in
  history s' = last_n 99 (history s) ++ [entry] /\
  (length (history s') <= 100)%nat /\
  ((length (history s) <= 99)%nat -> history s' = history s ++ [entry]) /\
  exists dropped, history s ++ [entry] = dropped ++ history s'.
Proof.
  intros s'. unfold s'. rewrite history_save_context.
  rewrite (last_n_snoc_shape 99). split; [reflexivity|]. split; [|split].
  - rewrite length_app, last_n_length. simpl. lia.
  - intros Hlen. now rewrite last_n_short.
  - exists (firstn (length (history s) - 99) (history s)).
    unfold last_n. now rewrite app_assoc, firstn_skipn.
Qed.

(** X19.  [save_context] returns normally and rewrites only the memory file,
    whether that file is missing, is not valid JSON, or holds an object.  Of
    a stored object it keeps every other key and the known intents (an absent
    "known_intents" becomes the empty object); a missing file and a file that
    is not valid JSON are both replaced by a fresh object that holds the new
    entry alone, so whatever a corrupt file held is lost. *)
Theorem save_context_preserves_keys (entry : Entry) (s : sys) :
  exists data,
    save_context entry s = (Returned tt, set_memory_file (Stored data) s) /\
    (forall old,
       memory_file s = Stored old ->
       other_keys data = other_keys old /\
       known_intents data = match known_intents old with
                            | Some k => Some k
                            | None => Some (JObj [])
                            end) /\
    (memory_file s = Missing \/ memory_file s = Corrupt ->
     data = {| recent_memory := Some [entry];
               known_intents := Some (JObj []);
               other_keys := [] |}).
Proof.
  rewrite save_context_writes. eexists. split; [reflexivity|]. split.
  - intros old ->. split; reflexivity.
  - unfold history. intros [-> | ->]; reflexivity.
Qed.

(** X20.  What [save_context] writes is what [load_memory] reads back:
    loading after a save returns the saved object unchanged, with both keys
    present, and loading never writes. *)
Theorem load_after_save (entry : Entry) (s : sys) :
  exists data,
    snd (save_context entry s) = set_memory_file (Stored data) s /\
    load_memory (set_memory_file (Stored data) s)
      = (Returned data, set_memory_file (Stored data) s) /\
    recent_memory data = Some (last_n 100 (history s ++ [entry])) /\
    known_intents data <> None /\
    (forall s0, snd (load_memory s0) = s0).
Proof.
  rewrite save_context_writes. eexists. split; [reflexivity|].
  split; [|split; [reflexivity|split]].
  - unfold load_memory, bind, get_state, ret. simpl.
    destruct (memory_file s) as [| |old]; try reflexivity.
    destruct (known_intents old); reflexivity.
  - simpl. destruct (memory_file s) as [| |old]; try discriminate.
    destruct (known_intents old); discriminate.
  - intros s0. unfold load_memory, bind, get_state, ret.
    destruct (memory_file s0); reflexivity.
Qed.

Lemma chat_completions_with (body : RequestBody) (prompt : string) (s : sys) :
  extract_prompt body = Some prompt ->
  prompt <> ""%string ->
  chat_completions (Some body) s =
  try_except
    (response_text <- response_text_of body prompt ;;
     finalize body prompt response_text)
    server_error (log (EvMatchIntent prompt) s).
Proof.
  intros Hp Hne. now rewrite (chat_completions_split body prompt s Hp Hne).
Qed.

Lemma finalize_str body prompt text s :
  finalize body prompt (JStr text) s =
  (Returned (completion_body (primary_model (client s)) prompt (JStr text)
               (word_count text), 200),
   snd (save_context (entry_of body prompt (JStr text)) s)).
Proof.
  unfold finalize, bind, preview, ret. rewrite save_context_writes. reflexivity.
Qed.

Lemma finalize_list body prompt items s :
  finalize body prompt (JArr items) s =
  (Raised AttributeError, snd (save_context (entry_of body prompt (JArr items)) s)).
Proof.
  unfold finalize, bind, preview, ret. rewrite save_context_writes. reflexivity.
Qed.

Lemma finalize_other body prompt v s :
  match v with JStr _ | JArr _ => False | _ => True end ->
  finalize body prompt v s = (Raised TypeError, s).
Proof.
  intros Hv. destruct v; try contradiction; reflexivity.
Qed.

(** X21.  A prompt matched to an intent that is not a vision intent is
    answered by the local command alone: the reply is [execute_command(intent,
    prompt)] with status 200, the trace gains the intent lookup and the
    command and nothing else, so the backend is not contacted and the health
    cache is neither consulted nor changed, and the entry is recorded with
    that intent. *)
Theorem local_command_reply (body : RequestBody) (prompt intent : string) (s : sys) :
  extract_prompt body = Some prompt ->
  prompt <> ""%string ->
  match_intent prompt = Some intent ->
  intent <> ""%string ->
  ~ In intent VISION_INTENTS ->
  exists s',
    chat_completions (Some body) s =
      (Returned (completion_body (primary_model (client s)) prompt
                   (JStr (execute_command intent prompt))
                   (word_count (execute_command intent prompt)), 200), s') /\
    trace s' = trace s ++ [EvMatchIntent prompt; EvExecuteCommand intent prompt] /\
    client s' = client s /\
    vision_state s' = vision_state s /\
    history s' = last_n 99 (history s)
                   ++ [{| e_user := linked_user_of body; e_prompt := prompt;
                          e_response := JStr (execute_command intent prompt);
                          e_intent := Some intent |}].
Proof.
  intros Hp Hne Hi Hine Hnv.
  rewrite (chat_completions_with body prompt s Hp Hne).
  assert (Hvis : existsb (String.eqb intent) VISION_INTENTS = false).
  { destruct (existsb (String.eqb intent) VISION_INTENTS) eqn:E; [|reflexivity].
    apply existsb_exists in E. destruct E as (x & Hin & Hx).
    apply String.eqb_eq in Hx. subst x. contradiction. }
  unfold try_except, bind at 1, response_text_of.
  rewrite Hi. cbn [truthy_str].
  assert (negb (String.eqb intent "") = true) as ->
    by (apply negb_true_iff; now apply String.eqb_neq).
  rewrite Hvis. unfold bind at 1, emit. unfold ret at 1.
  rewrite finalize_str.
  eexists. split; [reflexivity|].
  rewrite save_context_writes. cbn [snd].
  split; [simpl; now rewrite <- app_assoc|].
  split; [reflexivity|]. split; [reflexivity|].
  unfold history at 1. cbn [memory_file set_memory_file recent_memory].
  change (history (log (EvExecuteCommand intent prompt) (log (EvMatchIntent prompt) s)))
    with (history s).
  rewrite (last_n_snoc_shape 99). unfold entry_of, linked_user_of. now rewrite Hi.
Qed.

Lemma history_of_file (s s' : sys) :
  memory_file s' = memory_file s -> history s' = history s.
Proof. unfold history. now intros ->. Qed.

Lemma history_after_save (entry : Entry) (s : sys) :
  history (snd (save_context entry s)) = last_n 99 (history s) ++ [entry].
Proof. rewrite history_save_context. apply (last_n_snoc_shape 99). Qed.

(** X22.  A vision intent whose capture gives no frame is answered with
    status 200 and the text "Vision error: camera_failed"; the backend is not
    contacted, the health cache is left alone, and the entry is recorded with
    the intent and that text. *)
Theorem vision_error_reply (body : RequestBody) (prompt intent : string) (s : sys) :
  let s0 := log (EvMatchIntent prompt) s in
  let cam := camera_met intent s0 in
  extract_prompt body = Some prompt ->
  prompt <> ""%string ->
  match_intent prompt = Some intent ->
  In intent VISION_INTENTS ->
  truthy_str (capture_of cam) = false ->
  exists s',
    chat_completions (Some body) s =
      (Returned (completion_body (primary_model (client s)) prompt
                   (JStr "Vision error: camera_failed")
                   (word_count "Vision error: camera_failed"), 200), s') /\
    trace s' = trace s ++ EvMatchIntent prompt
                 :: EvVisionState (first_publication intent s0)
                 :: capture_events cam ++ [EvVisionState (vision_state s')] /\
    client s' = client s /\
    history s' = last_n 99 (history s)
                   ++ [{| e_user := linked_user_of body; e_prompt := prompt;
                          e_response := JStr "Vision error: camera_failed";
                          e_intent := Some intent |}].
Proof.
  intros s0 cam Hp Hne Hi Hin Hcam.
  rewrite (chat_completions_with body prompt s Hp Hne). fold s0.
  assert (Hvis : existsb (String.eqb intent) VISION_INTENTS = true).
  { apply existsb_exists. exists intent. split; [assumption | apply String.eqb_refl]. }
  assert (Hine : negb (String.eqb intent "") = true).
  { unfold VISION_INTENTS in Hin. simpl in Hin.
    repeat (destruct Hin as [<- | Hin]; [reflexivity|]). contradiction. }
  destruct (handle_vision_intent_no_frame intent prompt false s0 Hcam)
    as (s1 & Hrun & Htr & _ & _ & Hcl & Hmf).
  unfold try_except, bind at 1, response_text_of.
  rewrite Hi. cbn [truthy_str]. rewrite Hine, Hvis.
  unfold bind at 1. rewrite Hrun. cbn [error_dict dict_get String.eqb Ascii.eqb Bool.eqb format_value].
  unfold ret at 1. rewrite finalize_str.
  eexists. split; [|split; [|split]].
  - rewrite Hcl. reflexivity.
  - rewrite save_context_writes. cbn [snd set_memory_file trace vision_state].
    rewrite Htr. unfold s0. simpl. now rewrite <- app_assoc.
  - rewrite save_context_writes. cbn [snd set_memory_file client]. exact Hcl.
  - rewrite history_after_save. rewrite (history_of_file s s1) by exact Hmf.
    unfold entry_of, linked_user_of. now rewrite Hi.
Qed.

(** X23.  A prompt that matches no intent, with the route's health check
    healthy, is forwarded with the system prompt that names the linked user.
    When the completion returns a non-empty string, that string is the reply;
    when it returns [None] or any empty value, the reply is the fixed text
    "I'm having trouble generating a response right now.".  Either way the
    status is 200 and the entry recorded holds the text that was replied. *)
Theorem forwarded_prompt_reply
  (body : RequestBody) (prompt : string) (s s1 s2 : sys) (v : json) :
  extract_prompt body = Some prompt ->
  prompt <> ""%string ->
  truthy_str (match_intent prompt) = false ->
  health_check false (log (EvMatchIntent prompt) s) = (Returned true, s1) ->
  chat_completion prompt None (7 # 10) 1000
    (Some (system_prompt_for (linked_user_of body))) s1 = (Returned v, s2) ->
  forall text,
    (if truthy v then v else JStr fallback) = JStr text ->
    chat_completions (Some body) s =
      (Returned (completion_body (primary_model (client s2)) prompt (JStr text)
                   (word_count text), 200),
       snd (save_context (entry_of body prompt (JStr text)) s2)) /\
    (forall t, v = JStr t -> t <> ""%string -> text = t) /\
    (truthy v = false -> text = fallback).
Proof.
  intros Hp Hne Hi Hh Hc text Htext.
  rewrite (chat_completions_with body prompt s Hp Hne).
  unfold try_except, bind at 1, response_text_of.
  rewrite Hi. unfold bind at 1. rewrite Hh. cbn [negb].
  unfold bind at 1. rewrite Hc.
  assert (Hrt : (if truthy v then ret v else ret (JStr fallback)) s2
                = (Returned (JStr text), s2)).
  { destruct (truthy v); unfold ret; now rewrite Htext. }
  rewrite Hrt. cbv beta iota. rewrite finalize_str.
  split; [reflexivity|]. split.
  - intros t -> Ht. simpl in Htext.
    assert (negb (String.eqb t "") = true) as E
      by (apply negb_true_iff; now apply String.eqb_neq).
    rewrite E in Htext. now inversion Htext.
  - intros Hf. rewrite Hf in Htext. now inversion Htext.
Qed.

(** X24.  When the completion returns a value that is not a string, the route
    answers 500: for a non-empty list the entry has already been saved when
    the reply fails; for a number or [True] the failure comes before saving
    and the history is untouched. *)
Theorem non_string_completion_fails
  (body : RequestBody) (prompt : string) (s s1 s2 : sys) (v : json) :
  extract_prompt body = Some prompt ->
  prompt <> ""%string ->
  truthy_str (match_intent prompt) = false ->
  health_check false (log (EvMatchIntent prompt) s) = (Returned true, s1) ->
  chat_completion prompt None (7 # 10) 1000
    (Some (system_prompt_for (linked_user_of body))) s1 = (Returned v, s2) ->
  truthy v = true ->
  (forall items, v = JArr items ->
     chat_completions (Some body) s =
       (Returned (JObj [("error", JStr (exn_str AttributeError));
                        ("type", JStr "server_error")], 500),
        snd (save_context (entry_of body prompt v) s2))) /\
  (match v with JBool _ | JInt _ | JFloat _ => True | _ => False end ->
     chat_completions (Some body) s =
       (Returned (JObj [("error", JStr (exn_str TypeError));
                        ("type", JStr "server_error")], 500), s2)).
Proof.
  intros Hp Hne Hi Hh Hc Hv.
  assert (Hroute : chat_completions (Some body) s =
                   try_except (finalize body prompt v) server_error s2).
  { rewrite (chat_completions_with body prompt s Hp Hne).
    unfold try_except, bind at 1, response_text_of.
    rewrite Hi. unfold bind at 1. rewrite Hh. cbn [negb].
    unfold bind at 1. rewrite Hc, Hv. reflexivity. }
  rewrite Hroute. unfold try_except. split.
  - intros items ->. now rewrite finalize_list.
  - intros Hshape. rewrite finalize_other; [reflexivity|].
    destruct v; try contradiction; exact I.
Qed.



Lemma no_input_is_rejected_route (body : RequestBody) (s : sys) :
  yields_no_prompt body = true ->
  chat_completions (Some body) s =
  (Returned (JObj [("error", JStr "No input provided")], 400), s).
Proof.
  intros H. apply extract_prompt_empty in H.
  unfold chat_completions, try_except, bind at 1. unfold ret at 1.
  rewrite H. reflexivity.
Qed.


(** X26.  The prompt of a request is its non-empty "prompt"; failing that its
    non-empty "input"; failing both, the content of the last element of
    "messages", whatever its role and whatever the earlier messages hold (an
    absent content counts as empty). *)
Theorem prompt_precedence (body : RequestBody) :
  (forall p, rb_prompt body = Some p -> p <> ""%string ->
     extract_prompt body = Some p) /\
  (truthy_str (rb_prompt body) = false ->
   forall i, rb_input body = Some i -> i <> ""%string ->
     extract_prompt body = Some i) /\
  (truthy_str (rb_prompt body) = false ->
   truthy_str (rb_input body) = false ->
   forall earlier m,
     rb_messages body = Some (earlier ++ [m]) ->
     extract_prompt body = Some (match m_content m with
                                 | Some content => content
                                 | None => ""%string
                                 end)).
Proof.
  assert (Hnonempty : forall x, x <> ""%string -> truthy_str (Some x) = true).
  { intros x Hx. simpl. apply negb_true_iff. now apply String.eqb_neq. }
  unfold extract_prompt. repeat split.
  - intros p Hp Hne. rewrite Hp, (Hnonempty p Hne). cbn [negb].
    now rewrite (Hnonempty p Hne).
  - intros Hp i Hi Hne. rewrite Hp, Hi. now rewrite (Hnonempty i Hne).
  - intros Hp Hi earlier m Hm. rewrite Hp, Hi, Hm. cbn [negb].
    destruct (earlier ++ [m]) as [|m0 rest] eqn:E.
    + now destruct earlier.
    + rewrite <- E. rewrite last_last. now destruct (m_content m).
Qed.

(** X27.  The route [/health] reports what the health check says.  When it
    says unhealthy, "loaded_models" is the empty list and no listing is
    requested; when it says healthy, one GET lists the models, and a listing
    that fails shows as null beside "connected": true. *)
Theorem health_route (s : sys) :
  exists ok s1 s2 models,
    health_check false s = (Returned ok, s1) /\
    health s =
      (Returned
         (JObj [("lana", JStr "healthy");
                ("lm_studio",
                 JObj [("connected", JBool ok);
                       ("endpoint", JStr (base_url (client s)));
                       ("loaded_models", models)])]), s2) /\
    (ok = false -> models = JArr [] /\ s2 = s1) /\
    (ok = true ->
     s2 = extend [EvHttp (probe (client s))] s1 /\
     models = match listing_of (backend (trace s1) (probe (client s))) with
              | Some ids => JArr ids
              | None => JNull
              end).
Proof.
  destruct (health_check_trace false s) as (ok & s1 & l & H & _ & _ & _ & _ & Hcfg).
  assert (Hprobe : probe (client s1) = probe (client s)).
  { destruct Hcfg as (_ & _ & Hme & _ & _ & _ & Hht & _).
    unfold probe. now rewrite Hme, Hht. }
  assert (Hbase : base_url (client s1) = base_url (client s)) by apply Hcfg.
  unfold health, bind at 1. rewrite H.
  destruct ok.
  - unfold bind at 1, bind at 1. rewrite get_loaded_models_run, Hprobe.
    unfold ret at 1. unfold bind, get_state, ret. cbn [client extend].
    rewrite Hbase.
    eexists true, s1, _, _. split; [reflexivity|]. split; [reflexivity|].
    split; [discriminate|]. intros _. split; reflexivity.
  - unfold bind, get_state, ret. rewrite Hbase.
    eexists false, s1, _, _. split; [reflexivity|]. split; [reflexivity|].
    split; [|discriminate]. intros _. split; reflexivity.
Qed.

(** X28.  The route [/test] never raises.  Without a JSON body it answers
    500 and does nothing.  With a body, every POST it sends carries a single
    user message, the given prompt, even an empty one, or "Hello" when the key
    is absent, and no system message. *)
Theorem test_route (request : option RequestBody) (s : sys) :
  exists reply status s' l,
    test request s = (Returned (reply, status), s') /\
    trace s' = trace s ++ l /\
    (status = 200 \/ status = 500) /\
    (request = None -> status = 500 /\ s' = s) /\
    (forall body url payload tmo,
       request = Some body ->
       In (EvHttp (POST url payload tmo)) l ->
       field payload "messages" =
         Some (JArr [JObj [("role", JStr "user");
                           ("content",
                            JStr (match rb_prompt body with
                                  | Some p => p
                                  | None => "Hello"%string
                                  end))]])).
Proof.
  destruct request as [body|].
  2:{ exists (JObj [("error", JStr (exn_str AttributeError))]), 500, s, [].
      split; [reflexivity|]. rewrite app_nil_r.
      repeat split; auto. discriminate. }
  set (prompt := match rb_prompt body with Some p => p | None => "Hello"%string end).
  destruct (chat_completion_events prompt None (7 # 10) 1000 None s)
    as (l1 & Hl1 & F1).
  unfold adds in Hl1.
  assert (Hposts : forall l2 url payload tmo,
            Forall (fun e => is_post e = false) l2 ->
            In (EvHttp (POST url payload tmo)) (l1 ++ l2) ->
            field payload "messages" =
              Some (JArr [JObj [("role", JStr "user"); ("content", JStr prompt)]])).
  { intros l2 url payload tmo F2 Hin. apply in_app_or in Hin.
    destruct Hin as [Hin | Hin].
    - rewrite Forall_forall in F1. destruct (F1 _ Hin) as [E | [E | E]].
      + discriminate E.
      + inversion E; subst. reflexivity.
      + discriminate E.
    - rewrite Forall_forall in F2. specialize (F2 _ Hin). discriminate F2. }
  unfold test, try_except, bind at 1. unfold ret at 1.
  unfold bind at 1. fold prompt.
  destruct (chat_completion prompt None (7 # 10) 1000 None s) as [[response|e] s1].
  - simpl in Hl1. unfold bind at 1.
    destruct (health_check_trace false s1) as (ok & s2 & l2 & -> & Ht2 & Hl2 & _).
    unfold ret. eexists _, _, _, (l1 ++ l2).
    split; [reflexivity|]. split; [now rewrite Ht2, Hl1, app_assoc|].
    split; [auto|]. split; [discriminate|].
    intros body0 url payload tmo E Hin. inversion E; subst body0.
    apply (Hposts l2 url payload tmo); [|assumption].
    destruct Hl2 as [-> | ->]; repeat constructor.
  - simpl in Hl1. unfold ret. eexists _, _, _, (l1 ++ []).
    split; [reflexivity|]. split; [now rewrite app_nil_r|].
    split; [auto|]. split; [discriminate|].
    intros body0 url payload tmo E Hin. inversion E; subst body0.
    apply (Hposts [] url payload tmo); [constructor | assumption].
Qed.

(** *** Concurrent captures *)

Lemma added_capture_frame (s : sys) :
  added _capture_frame s = capture_events (camera (trace s)).
Proof.
  unfold added. rewrite capture_frame_events. cbn [snd]. unfold extend. cbn [trace].
  generalize (capture_events (camera (trace s))). intros l.
  induction (trace s) as [|e tr IH]; [reflexivity | exact IH].
Qed.

Lemma interleaving_app {A : Type} (l1 l2 : list A) : interleaving l1 l2 (l1 ++ l2).
Proof.
  induction l1 as [|a l1 IH]; simpl.
  - induction l2 as [|b l2 IH2]; constructor; assumption.
  - now constructor.
Qed.

(** A point of a schedule is a point of each caller. *)
Lemma interleaving_split {A : Type} (l1 l2 l : list A) :
  interleaving l1 l2 l ->
  forall before after,
    l = before ++ after ->
    exists b1 a1 b2 a2,
      l1 = b1 ++ a1 /\ l2 = b2 ++ a2 /\ interleaving b1 b2 before.
Proof.
  induction 1 as [|a l1 l2 l H IH|a l1 l2 l H IH]; intros before after E.
  - destruct before; [|discriminate]. exists [], [], [], []. repeat split. constructor.
  - destruct before as [|b before].
    + exists [], (a :: l1), [], l2. repeat split. constructor.
    + injection E as <- E. destruct (IH _ _ E) as (b1 & a1 & b2 & a2 & -> & -> & Hi).
      exists (a :: b1), a1, b2, a2. repeat split. now constructor.
  - destruct before as [|b before].
    + exists [], l1, [], (a :: l2). repeat split. constructor.
    + injection E as <- E. destruct (IH _ _ E) as (b1 & a1 & b2 & a2 & -> & -> & Hi).
      exists b1, a1, (a :: b2), a2. repeat split. now constructor.
Qed.

Lemma in_flight_cons (e : event) (l : list event) :
  in_flight (e :: l) = in_flight [e] + in_flight l.
Proof. unfold in_flight. simpl. destruct (is_open e), (is_release e); simpl length; lia. Qed.

Lemma in_flight_interleaving (l1 l2 l : list event) :
  interleaving l1 l2 l -> in_flight l = in_flight l1 + in_flight l2.
Proof.
  induction 1 as [|a l1 l2 l H IH|a l1 l2 l H IH].
  - reflexivity.
  - rewrite (in_flight_cons a l), (in_flight_cons a l1), IH. lia.
  - rewrite (in_flight_cons a l), (in_flight_cons a l2), IH. lia.
Qed.

(** One caller alone holds the camera at most once. *)
Lemma capture_in_flight (cam : camera_result) (before after : list event) :
  capture_events cam = before ++ after -> 0 <= in_flight before <= 1.
Proof.
  intros E.
  assert (H : exists n, before = firstn n (capture_events cam)).
  { exists (length before). rewrite E. now rewrite firstn_app, Nat.sub_diag, firstn_all, app_nil_r. }
  destruct H as (n & ->). clear E.
  destruct cam; simpl capture_events;
    do 5 (destruct n as [|n]; [vm_compute; split; discriminate|]);
    rewrite ?firstn_nil; vm_compute; split; discriminate.
Qed.

(** C9.  [_capture_frame] takes no lock and knows no busy error: each caller
    gets what its own camera gives, an image or [None], and never an
    exception.  Two concurrent callers are therefore not kept apart: when
    both can open the camera there is a schedule in which both hold it at
    once.  What does hold is that at no point of any schedule more than two
    captures are in flight, one for each caller, and that none is left in
    flight at the end unless a read raised. *)
Theorem captures_are_not_exclusive (s1 s2 : sys) :
  _capture_frame s1 =
    (Returned (capture_of (camera (trace s1))),
     extend (capture_events (camera (trace s1))) s1) /\
  _capture_frame s2 =
    (Returned (capture_of (camera (trace s2))),
     extend (capture_events (camera (trace s2))) s2) /\
  (forall l,
     schedule s1 s2 l ->
     (forall before after, l = before ++ after -> 0 <= in_flight before <= 2) /\
     (camera (trace s1) <> ReadRaises ->
      camera (trace s2) <> ReadRaises ->
      in_flight l = 0)) /\
  (camera (trace s1) <> OpenRaises ->
   camera (trace s2) <> OpenRaises ->
   exists l, schedule s1 s2 l /\ ~ exclusive l).
Proof.
  split; [apply capture_frame_events|]. split; [apply capture_frame_events|].
  unfold schedule. rewrite !added_capture_frame.
  set (cam1 := camera (trace s1)). set (cam2 := camera (trace s2)).
  split.
  - intros l Hl. split.
    + intros before after E.
      destruct (interleaving_split _ _ _ Hl _ _ E)
        as (b1 & a1 & b2 & a2 & E1 & E2 & Hb).
      rewrite (in_flight_interleaving _ _ _ Hb).
      pose proof (capture_in_flight cam1 b1 a1 E1).
      pose proof (capture_in_flight cam2 b2 a2 E2). lia.
    + intros H1 H2. rewrite (in_flight_interleaving _ _ _ Hl).
      destruct cam1; try contradiction; destruct cam2; try contradiction;
        reflexivity.
  - intros H1 H2.
    assert (E : forall cam, cam <> OpenRaises ->
              exists rest, capture_events cam = EvCameraOpen :: rest).
    { intros [| |ok encoded] H; [contradiction| |]; eexists; reflexivity. }
    destruct (E cam1 H1) as (r1 & ->). destruct (E cam2 H2) as (r2 & ->).
    exists (EvCameraOpen :: EvCameraOpen :: r1 ++ r2). split.
    + apply interleaving_left, interleaving_right, interleaving_app.
    + intros Hex.
      specialize (Hex [EvCameraOpen; EvCameraOpen] (r1 ++ r2) eq_refl).
      vm_compute in Hex. now apply Hex.
Qed.

(** *** The route on an arbitrary body *)

Lemma last_char_some (ch : Ascii.ascii) (s : string) :
  exists ch', last_char (String ch s) = Some ch'.
Proof.
  revert ch. induction s as [|c s IH]; intros ch.
  - exists ch. reflexivity.
  - destruct (IH c) as (ch' & E). exists ch'. simpl in *. exact E.
Qed.

Lemma intake_not_an_object (body : json) (s : sys) :
  match body with JObj _ => False | _ => True end ->
  chat_completions_intake (Some body) s =
    (Returned (Answered (server_error_body AttributeError) 500), s).
Proof. destruct body; intros H; try contradiction; reflexivity. Qed.

Lemma intake_no_prompt (fields : list (string * json)) (s : sys) :
  no_prompt (JObj fields) = true ->
  (well_formed (JObj fields) = true ->
   chat_completions_intake (Some (JObj fields)) s = (Returned (Answered no_input 400), s)) /\
  (well_formed (JObj fields) = false ->
   exists e,
     (e = AttributeError \/ e = TypeError \/ e = KeyError) /\
     chat_completions_intake (Some (JObj fields)) s =
       (Returned (Answered (server_error_body e) 500), s)).
Proof.
  unfold no_prompt, well_formed, field_of.
  unfold chat_completions_intake, request_prompt, try_except, bind, method_get, ret.
  set (p := match dict_get fields "prompt" with Some x => x | None => JNull end).
  set (i := match dict_get fields "input" with Some x => x | None => JNull end).
  intros Hnp. apply andb_true_iff in Hnp as [Hnp Hmsg].
  apply andb_true_iff in Hnp as [Hp Hi].
  apply negb_true_iff in Hp, Hi.
  rewrite Hp. cbv beta iota. rewrite Hi. cbv beta iota. cbn [negb].
  destruct (dict_get fields "messages") as [m|];
    [|cbn [truthy]; cbv beta iota; rewrite Hi; split; [reflexivity | discriminate]].
  destruct m as [|b|n|q|str|items|fs].
  - cbn [truthy]. cbv beta iota. rewrite Hi. split; [reflexivity | discriminate].
  - destruct b; cbn [truthy negb]; cbv beta iota.
    + split; [discriminate|]. intros _. exists TypeError. split; [auto | reflexivity].
    + rewrite Hi. split; [reflexivity | discriminate].
  - cbn [truthy]. destruct (n =? 0); cbn [negb]; cbv beta iota.
    + rewrite Hi. split; [reflexivity | discriminate].
    + split; [discriminate|]. intros _. exists TypeError. split; [auto | reflexivity].
  - cbn [truthy]. destruct (Qeq_bool q 0); cbn [negb]; cbv beta iota.
    + rewrite Hi. split; [reflexivity | discriminate].
    + split; [discriminate|]. intros _. exists TypeError. split; [auto | reflexivity].
  - destruct str as [|ch str].
    + cbn [truthy String.eqb negb]. cbv beta iota. rewrite Hi.
      split; [reflexivity | discriminate].
    + split; [discriminate|]. intros _. exists AttributeError. split; [auto|].
      destruct (last_char_some ch str) as (ch' & E).
      cbn [truthy String.eqb negb py_len]. unfold ret. cbv beta iota.
      cbn [getitem_last]. rewrite E. reflexivity.
  - destruct items as [|m rest].
    + cbn [truthy]. cbv beta iota. rewrite Hi. split; [reflexivity | discriminate].
    + cbn [truthy py_len getitem_last]. unfold ret. cbv beta iota.
      assert (Hlen : (0 <? Z.of_nat (length (m :: rest))) = true) by reflexivity.
      rewrite Hlen.
      cbv beta iota.
      destruct (last (m :: rest) m) as [| | | | |?|fs];
        try (split; [discriminate|]; intros _; exists AttributeError;
             split; [auto | reflexivity]).
      split; [|discriminate]. intros _.
      apply negb_true_iff in Hmsg.
      destruct (dict_get fs "content") as [c|].
      * rewrite Hmsg. reflexivity.
      * reflexivity.
  - destruct fs as [|kv fs].
    + cbn [truthy]. cbv beta iota. rewrite Hi. split; [reflexivity | discriminate].
    + split; [discriminate|]. intros _. exists KeyError. split; [auto | reflexivity].
Qed.

Lemma request_prompt_pure (body : json) (s : sys) :
  exists o, request_prompt body s = (o, s).
Proof.
  destruct body as [| | | | | |fields]; try (eexists; reflexivity).
  unfold request_prompt, bind, method_get, ret.
  set (p := match dict_get fields "prompt" with Some x => x | None => JNull end).
  set (i := match dict_get fields "input" with Some x => x | None => JNull end).
  set (m := match dict_get fields "messages" with Some x => x | None => JArr [] end).
  destruct (truthy p) eqn:Hp; cbv beta iota.
  - rewrite Hp. cbn [negb]. eexists; reflexivity.
  - destruct (truthy i) eqn:Hi; cbn [negb]; cbv beta iota; [eexists; reflexivity|].
    destruct (truthy m) eqn:Hm; cbv beta iota; [|eexists; reflexivity].
    destruct m as [| | | |str|items|fs]; try (eexists; reflexivity).
    + cbn [py_len]. unfold ret. cbv beta iota.
      destruct (0 <? _); cbv beta iota; [|eexists; reflexivity].
      cbn [getitem_last]. destruct (last_char str); [|eexists; reflexivity].
      eexists; reflexivity.
    + cbn [py_len]. unfold ret. cbv beta iota.
      destruct (0 <? _); cbv beta iota; [|eexists; reflexivity].
      cbn [getitem_last]. destruct items as [|x rest]; [eexists; reflexivity|].
      unfold ret. destruct (last (x :: rest) x); eexists; reflexivity.
    + cbn [py_len]. unfold ret. cbv beta iota.
      destruct (0 <? _); cbv beta iota; eexists; reflexivity.
Qed.

(** The intake always returns, changes nothing, and goes on only with a
    non-empty prompt. *)
Lemma intake_total (request : option json) (s : sys) :
  exists r,
    chat_completions_intake request s = (Returned r, s) /\
    forall prompt, r = Proceeds prompt -> truthy prompt = true.
Proof.
  unfold chat_completions_intake, try_except, bind at 1.
  destruct request as [body|].
  - unfold ret at 1. unfold bind.
    destruct (request_prompt_pure body s) as ([prompt|e] & ->).
    + destruct (truthy prompt) eqn:Ht; cbn [negb]; unfold ret.
      * eexists. split; [reflexivity|]. intros p E. inversion E. now subst.
      * eexists. split; [reflexivity|]. discriminate.
    + eexists. split; [reflexivity|]. discriminate.
  - eexists. split; [reflexivity|]. discriminate.
Qed.

Lemma last_map {A B : Type} (f : A -> B) (l : list A) (d : A) :
  last (map f l) (f d) = f (last l d).
Proof.
  induction l as [|a [|b l] IH]; try reflexivity.
  exact IH.
Qed.

(** On a body that [RequestBody] describes, the two readings agree. *)
Lemma no_prompt_body_json (b : RequestBody) :
  no_prompt (body_json b) = yields_no_prompt b /\
  well_formed (body_json b) = true.
Proof.
  assert (Hlast : forall m rest,
            last (map message_json (m :: rest)) (message_json m)
            = message_json (last (m :: rest) m)) by (intros; apply last_map).
  destruct b as [[p|] [i|] [[|m rest]|] [u|]]; split; try reflexivity;
    unfold no_prompt, well_formed, yields_no_prompt, body_json, field_of;
    cbn [rb_prompt rb_input rb_messages rb_linked_user option_map optional_field
         app dict_get String.eqb Ascii.eqb Bool.eqb andb];
    cbn [map]; change (message_json m :: map message_json rest)
                 with (map message_json (m :: rest));
    rewrite Hlast;
    destruct (last (m :: rest) m) as [[r|] [c|]]; reflexivity.
Qed.

(** On a body that [RequestBody] describes, the route finds the prompt that
    [extract_prompt] gives. *)
Lemma request_prompt_body_json (b : RequestBody) (s : sys) :
  request_prompt (body_json b) s =
    (Returned (match extract_prompt b with
               | Some prompt => JStr prompt
               | None => JNull
               end), s).
Proof.
  assert (Hlast : forall m rest,
            last (message_json m :: map message_json rest) (message_json m)
            = message_json (last (m :: rest) m))
    by (intros m rest; apply (last_map message_json (m :: rest) m)).
  assert (Hlen : forall n : nat, (0 <? Z.of_nat (S n)) = true) by reflexivity.
  unfold request_prompt, bind, method_get, ret, extract_prompt, body_json.
  destruct b as [[p|] [i|] [[|m rest]|] [u|]];
    cbn [rb_prompt rb_input rb_messages rb_linked_user option_map optional_field app
         dict_get String.eqb Ascii.eqb Bool.eqb andb truthy truthy_str map py_len
         getitem_last length];
    unfold ret;
    try (destruct (String.eqb p "") eqn:Ep);
    try (destruct (String.eqb i "") eqn:Ei);
    repeat (progress (cbn [negb truthy truthy_str]; cbv beta iota zeta;
                      rewrite ?Ep, ?Ei, ?Hlen));
    try reflexivity;
    try (rewrite Hlast; destruct (last (m :: rest) m) as [[r|] [c|]]; reflexivity).
Qed.

(** So on such a body the route answers 400 or goes on with the prompt that
    [chat_completions] uses. *)
Lemma intake_body_json (b : RequestBody) (s : sys) :
  chat_completions_intake (Some (body_json b)) s =
    (Returned (if truthy_str (extract_prompt b)
               then Proceeds (JStr match extract_prompt b with
                                   | Some prompt => prompt
                                   | None => ""
                                   end)
               else Answered no_input 400), s).
Proof.
  unfold chat_completions_intake, try_except, bind at 1. unfold ret at 1.
  unfold bind. rewrite request_prompt_body_json.
  destruct (extract_prompt b) as [prompt|]; cbn [truthy truthy_str]; [|reflexivity].
  destruct (negb (String.eqb prompt "")); reflexivity.
Qed.

(** C10.  The route, on any request, has after line 175 either answered or
    found a non-empty prompt, and it has done nothing else: the state is as
    it was.  When the body yields no prompt the route never goes on, so no
    intent is matched, no handler runs and no entry is saved; it answers
    [{"error": "No input provided"}] with status 400 when the body is an
    object whose "messages" is absent, empty or a list ending with an object,
    and the error of the handler with status 500 for any other body, where
    the extraction raises.  A body that cannot be parsed gets 500 too.  On the
    bodies [RequestBody] describes the answer is the 400 reply, and it is what
    [chat_completions] returns. *)
Theorem no_prompt_is_never_dispatched (request : option json) (s : sys) :
  exists r,
    chat_completions_intake request s = (Returned r, s) /\
    (request = None -> r = Answered (server_error_body BadRequest) 500) /\
    (forall body,
       request = Some body ->
       no_prompt body = true ->
       (well_formed body = true -> r = Answered no_input 400) /\
       (well_formed body = false ->
        exists e,
          (e = AttributeError \/ e = TypeError \/ e = KeyError) /\
          r = Answered (server_error_body e) 500)) /\
    (forall prompt,
       r = Proceeds prompt ->
       truthy prompt = true /\
       exists body, request = Some body /\ no_prompt body = false) /\
    (forall b,
       request = Some (body_json b) ->
       yields_no_prompt b = true ->
       r = Answered no_input 400 /\
       chat_completions (Some b) s = (Returned (no_input, 400), s)).
Proof.
  assert (Hcases : forall body,
            no_prompt body = true ->
            (well_formed body = true ->
             chat_completions_intake (Some body) s
             = (Returned (Answered no_input 400), s)) /\
            (well_formed body = false ->
             exists e,
               (e = AttributeError \/ e = TypeError \/ e = KeyError) /\
               chat_completions_intake (Some body) s
               = (Returned (Answered (server_error_body e) 500), s))).
  { intros body Hn.
    destruct body as [| | | | | |fields]; try (now apply intake_no_prompt);
      (split; [discriminate|]; intros _; exists AttributeError;
       split; [auto | now apply intake_not_an_object]). }
  destruct (intake_total request s) as (r & Hrun & Hgo).
  exists r. split; [exact Hrun|].
  split.
  { intros ->. unfold chat_completions_intake, try_except, bind in Hrun.
    simpl in Hrun. now inversion Hrun. }
  split.
  { intros body -> Hn. destruct (Hcases body Hn) as [Hyes Hno]. split.
    - intros Hw. rewrite (Hyes Hw) in Hrun. now inversion Hrun.
    - intros Hw. destruct (Hno Hw) as (e & He & E). exists e. split; [exact He|].
      rewrite E in Hrun. now inversion Hrun. }
  split.
  { intros prompt ->. split; [now apply Hgo|].
    destruct request as [body|].
    - exists body. split; [reflexivity|].
      destruct (no_prompt body) eqn:Hn; [|reflexivity].
      destruct (Hcases body Hn) as [Hyes Hno].
      destruct (well_formed body) eqn:Hw.
      + rewrite (Hyes eq_refl) in Hrun. discriminate Hrun.
      + destruct (Hno eq_refl) as (e & _ & E). rewrite E in Hrun. discriminate Hrun.
    - unfold chat_completions_intake, try_except, bind in Hrun.
      simpl in Hrun. discriminate Hrun. }
  intros b -> Hy.
  destruct (no_prompt_body_json b) as [Hn Hw]. rewrite Hy in Hn.
  destruct (Hcases _ Hn) as [Hyes _].
  rewrite (Hyes Hw) in Hrun. split; [now inversion Hrun|].
  now apply no_input_is_rejected_route.
Qed.

End Program.

(** ** The properties on the sample states *)

Open Scope list_scope.
Import Scenario.

(** C1, counterexample.  With three attempts configured, a fresh healthy
    cache and a backend that refuses every connection, [vision_completion]
    sends one POST, not three, and never sleeps. *)
Lemma vision_completion_single_attempt :
  health_check at_110 refusing false up = (Returned true, up) /\
  max_retries (client up) = 3 /\
  vision_completion at_110 refusing "Describe" "AAAA" None (2 # 10) up =
    (Returned JNull,
     extend [EvHttp (POST "http://localhost:1234/v1/chat/completions"
                       (vision_payload "vision" "Describe" "AAAA" (2 # 10)) 120%Q)] up) /\
  length (posts (trace (snd (vision_completion at_110 refusing "Describe" "AAAA" None
                               (2 # 10) up))))
    <> Z.to_nat (max_retries (client up)).
Proof.
  repeat split. vm_compute. discriminate.
Qed.

(** C1, the amended statement at [up]: three attempts two seconds apart for
    [chat_completion], one attempt for [vision_completion]. *)
Lemma retry_bound_on_refused_connections_witness :
  health_check at_110 refusing false up = (Returned true, up) /\
  (0 <= retry_delay (client up))%Q /\
  trace (snd (chat_completion at_110 refusing "hello" None (7 # 10) 1000 None up)) =
    (let attempt := EvHttp (chat_request config "hello" None (7 # 10) 1000 None) in
     [attempt; EvSleep 2%Q; attempt; EvSleep 2%Q; attempt]) /\
  trace (snd (vision_completion at_110 refusing "Describe" "AAAA" None (2 # 10) up)) =
    [EvHttp (vision_request config "Describe" "AAAA" None (2 # 10))].
Proof.
  assert (H : health_check at_110 refusing false up = (Returned true, up))
    by reflexivity.
  assert (Hd : (0 <= retry_delay (client up))%Q) by (unfold Qle; simpl; lia).
  destruct (retry_bound_on_refused_connections at_110 refusing
              "hello" None (7 # 10) 1000 None "Describe" "AAAA" None (2 # 10)
              up up H (fun _ _ _ _ => eq_refl) Hd) as [Hc Hv].
  split; [exact H|]. split; [exact Hd|].
  rewrite Hc, Hv. split; reflexivity.
Defined.

(** C2, counterexample.  The payload that [vision_completion] posts has
    neither a max_tokens nor a stream field. *)
Lemma vision_payload_lacks_fields :
  exists payload,
    trace (snd (vision_completion at_110 refusing "Describe" "AAAA" None (2 # 10) up)) =
      [EvHttp (POST "http://localhost:1234/v1/chat/completions" payload 120%Q)] /\
    field payload "max_tokens" = None /\
    field payload "stream" = None.
Proof.
  eexists. split; [reflexivity|]. split; reflexivity.
Qed.

(** C2, the amended statement at [up]: the requests that are sent there do
    carry the fields listed. *)
Lemma completion_payloads_witness :
  exists chat vision,
    In (EvHttp (POST "http://localhost:1234/v1/chat/completions" chat 60%Q))
       (trace (snd (chat_completion at_110 refusing "hello" None (7 # 10) 1000 None up))) /\
    field chat "max_tokens" = Some (JInt 1000) /\
    field chat "stream" = Some (JBool false) /\
    In (EvHttp (POST "http://localhost:1234/v1/chat/completions" vision 120%Q))
       (trace (snd (vision_completion at_110 refusing "Describe" "AAAA" None (2 # 10)
                      up))) /\
    field vision "messages" = Some (JArr [multimodal_message "Describe" "AAAA"]) /\
    field vision "max_tokens" = None.
Proof.
  destruct (completion_payloads at_110 refusing "hello" None (7 # 10) 1000 None
              "Describe" "AAAA" None (2 # 10) up)
    as [(lc & Hlc & Hc) (lv & Hlv & Hv)].
  unfold adds in Hlc, Hlv. simpl (trace up) in Hlc, Hlv.
  rewrite Hlc, Hlv. simpl app.
  assert (Ic : In (EvHttp (chat_request config "hello" None (7 # 10) 1000 None)) lc).
  { rewrite <- (app_nil_l lc), <- Hlc. simpl. now left. }
  assert (Iv : In (EvHttp (vision_request config "Describe" "AAAA" None (2 # 10))) lv).
  { rewrite <- (app_nil_l lv), <- Hlv. simpl. now left. }
  destruct (Hc _ _ _ Ic) as (_ & _ & _ & _ & Hmax & Hstream).
  destruct (Hv _ _ _ Iv) as (_ & _ & Hmsg & _ & Hnomax & _).
  eexists _, _. repeat split; eassumption.
Defined.

(** C3, counterexample.  A backend that answers the first attempt with
    status 300, which is not a 2xx status, and a complete body: one POST is
    sent and [chat_completion] returns the content, not [None]. *)
Lemma redirect_status_is_not_an_error :
  health_check at_110 multiple_choices false up = (Returned true, up) /\
  ((200 <=? 300) && (300 <? 300) = false) /\
  chat_completion at_110 multiple_choices "hello" None (7 # 10) 1000 None up =
    (Returned (JStr "hi"),
     extend [EvHttp (chat_request config "hello" None (7 # 10) 1000 None)] up) /\
  JStr "hi" <> JNull.
Proof.
  repeat split. discriminate.
Qed.

(** C3, the amended statement at [up] against a backend that answers 404. *)
Lemma no_retry_on_http_error_witness :
  health_check at_110 not_found false up = (Returned true, up) /\
  1 <= max_retries (client up) /\
  is_http_error 404 = true /\
  chat_completion at_110 not_found "hello" None (7 # 10) 1000 None up =
    (Returned JNull,
     extend [EvHttp (chat_request config "hello" None (7 # 10) 1000 None)] up).
Proof.
  assert (H : health_check at_110 not_found false up = (Returned true, up))
    by reflexivity.
  assert (Hn : 1 <= max_retries (client up)) by (simpl; lia).
  split; [exact H|]. split; [exact Hn|]. split; [reflexivity|].
  exact (no_retry_on_http_error at_110 not_found "hello" None (7 # 10) 1000 None
           up up 404 None H Hn eq_refl (or_introl eq_refl)).
Defined.

(** The guard of [health_check] tests the cached time by truthiness, which is
    why the cache is read only at a non-zero time: were the clock to read 0
    at a first check, a second unforced check ten seconds later would send the
    probe again. *)
Remark cache_ignored_at_zero_timestamp :
  let first := health_check from_zero going_down false fresh in
  let second := health_check from_zero going_down false (snd first) in
  fst first = Returned true /\
  _last_health_check (client (snd first)) = Some 0%Q /\
  _is_healthy (client (snd first)) = true /\
  (from_zero (trace (snd first)) - 0 < 30)%Q /\
  fst second = Returned false /\
  trace (snd second) =
    [EvHttp (GET "http://localhost:1234/v1/models" 5%Q);
     EvHttp (GET "http://localhost:1234/v1/models" 5%Q)].
Proof.
  repeat split.
Qed.

(** C5 at [down]: the cached check says unhealthy, and both completion calls
    return [None] at once. *)
Lemma unhealthy_backend_fails_fast_witness :
  health_check at_110 refusing false down = (Returned false, down) /\
  chat_completion at_110 refusing "hello" None (7 # 10) 1000 None down
    = (Returned JNull, down) /\
  vision_completion at_110 refusing "Describe" "AAAA" None (2 # 10) down
    = (Returned JNull, down) /\
  posts (trace down) = [].
Proof.
  assert (H : health_check at_110 refusing false down = (Returned false, down))
    by reflexivity.
  destruct (unhealthy_backend_fails_fast at_110 refusing
              "hello" None (7 # 10) 1000 None "Describe" "AAAA" None (2 # 10)
              down down H) as (Hc & Hv & Hp).
  repeat split; assumption.
Defined.


(** C7 at [down]: a prompt that matches no intent gets the apology, and the
    trace holds the intent lookup only. *)
Lemma apology_when_unhealthy_witness :
  extract_prompt hello = Some "hello" /\
  "hello" <> "" /\
  truthy_str (no_intent "hello") = false /\
  health_check at_110 refusing false (log (EvMatchIntent "hello") down)
    = (Returned false, log (EvMatchIntent "hello") down) /\
  exists s2,
    chat_completions at_110 refusing blind no_intent no_command None class_name repr
      one_word (Some hello) down =
      (Returned (completion_body one_word "primary" "hello" (JStr apology) 1, 200), s2) /\
    trace s2 = [EvMatchIntent "hello"] /\
    history s2 = [entry_of no_intent None hello "hello" (JStr apology)].
Proof.
  assert (Hp : extract_prompt hello = Some "hello") by reflexivity.
  assert (Hne : "hello" <> "") by discriminate.
  assert (Hi : truthy_str (no_intent "hello") = false) by reflexivity.
  assert (Hh : health_check at_110 refusing false (log (EvMatchIntent "hello") down)
               = (Returned false, log (EvMatchIntent "hello") down)) by reflexivity.
  repeat (split; [assumption|]).
  destruct (apology_when_unhealthy at_110 refusing blind no_intent no_command None
              class_name repr one_word hello "hello" down _ Hp Hne Hi Hh)
    as (s2 & Hrun & Htr & _ & Hhist).
  exists s2. split; [exact Hrun|]. split; [exact Htr|]. exact Hhist.
Defined.

(** C8 on three appends to a missing memory file. *)
Lemma history_keeps_last_100_witness :
  history up = [] /\
  history (append_all [numbered 1; numbered 2; numbered 3] up)
    = [numbered 1; numbered 2; numbered 3].
Proof.
  assert (H : history up = []) by reflexivity.
  split; [exact H|].
  exact (proj1 (history_keeps_last_100 [numbered 1; numbered 2; numbered 3] up H)).
Defined.

(** Appending the entries numbered 1 to 150 leaves those numbered 51 to 150,
    in that order. *)
Example history_after_150_appends :
  history (append_all (map numbered (seq 1 150)) up) = map numbered (seq 51 100).
Proof. vm_compute. reflexivity. Qed.

(** C4 at [up]: the check of time 100 answers at time 110. *)
Lemma health_cache_policy_witness :
  health_check at_110 refusing false up = (Returned true, up) /\
  exists s',
    trace (snd (health_check at_110 refusing true up)) =
      [EvHttp (GET "http://localhost:1234/v1/models" 5%Q)] /\
    s' = snd (health_check at_110 refusing true up).
Proof.
  assert (Hinv : forall last,
            _last_health_check (client up) = Some last -> ~ (last == 0)%Q).
  { intros last E. injection E as <-. discriminate. }
  destruct (health_cache_policy at_110 refusing up Hinv) as (Hfresh & Hforced & _).
  split.
  - exact (Hfresh 100%Q eq_refl eq_refl).
  - destruct Hforced as (ok & s' & Hrun & Htr).
    exists s'. rewrite Hrun. split; [exact Htr | reflexivity].
Defined.

(** C9 as stated fails: two callers at [up], with a camera that gives a
    frame to each, can both have the camera open. *)
Lemma two_captures_hold_the_camera :
  let both := [EvCameraOpen; EvCameraOpen] in
  let rest := [EvSleep (2 # 10); EvCameraRead; EvCameraRelease;
               EvSleep (2 # 10); EvCameraRead; EvCameraRelease] in
  schedule seeing up up (both ++ rest) /\
  in_flight both = 2 /\
  ~ exclusive (both ++ rest).
Proof.
  split; [|split].
  - apply interleaving_left, interleaving_right.
    exact (interleaving_app
             [EvSleep (2 # 10); EvCameraRead; EvCameraRelease]
             [EvSleep (2 # 10); EvCameraRead; EvCameraRelease]).
  - reflexivity.
  - intros H. specialize (H _ _ eq_refl). vm_compute in H. now apply H.
Defined.

(** C9 at [up] with the camera [seeing]. *)
Lemma captures_are_not_exclusive_witness :
  exists l, schedule seeing up up l /\ ~ exclusive l.
Proof.
  assert (H : seeing (trace up) <> OpenRaises) by discriminate.
  exact (proj2 (proj2 (proj2 (captures_are_not_exclusive seeing up up))) H H).
Defined.

(** C10 as stated fails: the body [{"messages": [42]}] yields no prompt, and
    the route answers 500. *)
Lemma stray_message_gets_500 :
  no_prompt stray_message = true /\
  chat_completions_intake class_name (Some stray_message) up =
    (Returned (Answered (JObj [("error", JStr "error"); ("type", JStr "server_error")])
                500), up).
Proof. split; reflexivity. Defined.

(** C10 at a body whose [prompt] is absent, whose [input] is empty and whose
    last message has no content. *)
Lemma no_prompt_is_never_dispatched_witness :
  yields_no_prompt empty_body = true /\
  chat_completions_intake class_name (Some (body_json empty_body)) up =
    (Returned (Answered no_input 400), up) /\
  chat_completions at_110 refusing blind no_intent no_command None class_name repr
    one_word (Some empty_body) up = (Returned (no_input, 400), up).
Proof.
  assert (H : yields_no_prompt empty_body = true) by reflexivity.
  destruct (no_prompt_is_never_dispatched at_110 refusing blind no_intent no_command
              None class_name repr one_word (Some (body_json empty_body)) up)
    as (r & Hrun & _ & _ & _ & Htyped).
  destruct (Htyped empty_body eq_refl H) as [Hr Hroute].
  split; [exact H|]. split; [|exact Hroute].
  rewrite Hrun, Hr. reflexivity.
Defined.

(** A completion that holds a number makes the slice of the logging line
    raise: [handle_vision_intent] answers with the error "vision_failed". *)
Example vision_failed_on_number :
  fst (handle_vision_intent at_110 number_reply seeing class_name "see" "" false up)
  = Returned (error_dict "vision_failed" "error").
Proof. reflexivity. Qed.

(** ** The further properties on the sample states *)

(** X2 at [up]: the cached check of time 100 answers at time 110. *)
Lemma repeated_check_is_free_witness :
  health_check at_110 refusing false up = (Returned true, up) /\
  _last_health_check (client up) = Some 100%Q /\
  health_check at_110 refusing false up = (Returned true, up).
Proof.
  assert (H : health_check at_110 refusing false up = (Returned true, up))
    by reflexivity.
  assert (Hl : _last_health_check (client up) = Some 100%Q) by reflexivity.
  assert (Hz : ~ (100 == 0)%Q) by discriminate.
  assert (Hage : (at_110 (trace up) - 100 < 30)%Q) by reflexivity.
  split; [exact H|]. split; [exact Hl|].
  exact (repeated_check_is_free at_110 refusing false up up true 100%Q H Hl Hz Hage).
Defined.

(** X3 at [fresh]: the first check of a client probes the backend. *)
Lemma stale_cache_is_refreshed_witness :
  _last_health_check (client fresh) = None /\
  exists s',
    health_check at_110 refusing false fresh = (Returned false, s') /\
    trace s' = [EvHttp (GET "http://localhost:1234/v1/models" 5%Q)] /\
    _last_health_check (client s') = Some 110%Q.
Proof.
  assert (Hn : _last_health_check (client fresh) = None) by reflexivity.
  split; [exact Hn|].
  destruct (stale_cache_is_refreshed at_110 refusing fresh (or_introl Hn))
    as (ok & s' & Hrun & Htr & Hl & _ & Hok).
  exists s'. rewrite Hok in Hrun. split; [exact Hrun|]. split; assumption.
Defined.

(** X5 at [up]: refused once, answered at the second attempt. *)
Lemma retry_until_answer_witness :
  let a := EvHttp (chat_request config "hello" None (7 # 10) 1000 None) in
  chat_completion at_110 second_try "hello" None (7 # 10) 1000 None up =
    (Returned (JStr "hi"), extend [a; EvSleep 2%Q; a] up).
Proof.
  assert (H : health_check at_110 second_try false up = (Returned true, up))
    by reflexivity.
  assert (Hd : (0 <= retry_delay (client up))%Q) by (unfold Qle; simpl; lia).
  assert (Hk : Z.of_nat 1 < max_retries (client up)) by (simpl; lia).
  refine (retry_until_answer at_110 second_try "hello" None (7 # 10) 1000 None
            up up 1%nat 200 (Some (completion "hi")) H Hd Hk _ eq_refl).
  intros [|j] Hj; [left; reflexivity | lia].
Defined.

(** X6 at [up]: three attempts, all timing out. *)
Lemma timeouts_exhaust_the_retries_witness :
  let a := EvHttp (chat_request config "hello" None (7 # 10) 1000 None) in
  chat_completion at_110 timing_out "hello" None (7 # 10) 1000 None up =
    (Returned JNull, extend [a; EvSleep 2%Q; a; EvSleep 2%Q; a] up).
Proof.
  assert (H : health_check at_110 timing_out false up = (Returned true, up))
    by reflexivity.
  assert (Hd : (0 <= retry_delay (client up))%Q) by (unfold Qle; simpl; lia).
  exact (timeouts_exhaust_the_retries at_110 timing_out "hello" None (7 # 10) 1000
           None up up H (fun _ _ => or_intror eq_refl) Hd).
Defined.

(** X7 at [hasty]: the delay is -1 and the first attempt is refused. *)
Lemma negative_delay_raises_witness :
  (retry_delay (client hasty) < 0)%Q /\
  chat_completion at_110 refusing "hello" None (7 # 10) 1000 None hasty =
    (Raised ValueError,
     extend [EvHttp (chat_request (client hasty) "hello" None (7 # 10) 1000 None)]
       hasty).
Proof.
  assert (H : health_check at_110 refusing false hasty = (Returned true, hasty))
    by reflexivity.
  assert (Hd : (retry_delay (client hasty) < 0)%Q) by reflexivity.
  assert (Hn : 2 <= max_retries (client hasty)) by (simpl; lia).
  split; [exact Hd|].
  exact (negative_delay_raises at_110 refusing "hello" None (7 # 10) 1000 None
           hasty hasty H Hd Hn (or_introl eq_refl)).
Defined.

(** X8 at [up]: one POST, and the content of the response is returned. *)
Lemma vision_completion_answer_witness :
  vision_completion at_110 answering "Describe" "AAAA" None (2 # 10) up =
    (Returned (JStr "hi"),
     extend [EvHttp (vision_request config "Describe" "AAAA" None (2 # 10))] up).
Proof.
  assert (H : health_check at_110 answering false up = (Returned true, up))
    by reflexivity.
  destruct (vision_completion_answer at_110 answering "Describe" "AAAA" None
              (2 # 10) up up H) as (r & Hrun & Hv & _).
  rewrite Hrun. f_equal. f_equal.
  exact (Hv 200 (completion "hi") (JStr "hi") eq_refl eq_refl eq_refl).
Defined.

(** X14 at [up] with the camera [blind]: no frame, no request. *)
Lemma no_request_without_a_frame_witness :
  exists s' l,
    handle_vision_intent at_110 refusing blind class_name "see" "" false up =
      (Returned (error_dict "camera_failed" "Unable to access camera"), s') /\
    trace s' = trace up ++ l /\
    Forall (fun e => is_http e = false /\
                     forall image, e <> EvSaveImage image) l /\
    vs_result (vision_state s') = Some (JStr "Camera capture failed") /\
    vs_active (vision_state s') = false /\
    client s' = client up /\
    memory_file s' = memory_file up.
Proof.
  exact (no_request_without_a_frame at_110 refusing blind class_name
           "see" "" false up eq_refl).
Defined.

(** X15 at [up] with the camera [seeing] and the backend [answering]. *)
Lemma vision_intent_success_witness :
  exists s',
    handle_vision_intent at_110 answering seeing class_name "see" "" true up =
      (Returned (success_dict "see" (JStr "hi")), s') /\
    vs_intent (vision_state s') = Some "see"%string /\
    vs_active (vision_state s') = false /\
    vs_result (vision_state s') = Some (JStr "hi") /\
    client s' = client up.
Proof.
  assert (Hh : stays_healthy at_110 up).
  { split; [reflexivity|]. exists 100%Q.
    split; [reflexivity|]. split; [discriminate|]. intros tr. reflexivity. }
  assert (Hi : "AAAA"%string <> ""%string) by discriminate.
  destruct (vision_intent_success at_110 answering seeing class_name
              "see" "" true up "AAAA" 200 (Some (completion "hi"))
              Hh eq_refl Hi (fun _ => eq_refl) eq_refl)
    as (d & r & s' & Hrun & _ & Hint & Hact & Hres & Hcl & Hyes & _).
  destruct (Hyes eq_refl) as [Hd Hr].
  rewrite Hd in Hrun. rewrite Hr in Hres.
  exists s'. split; [exact Hrun|]. split; [exact Hint|]. split; [exact Hact|].
  split; [exact Hres | exact Hcl].
Defined.

(** X21 at [up]: the prompt "hello" matched to the intent "lights_on". *)
Lemma local_command_reply_witness :
  exists s',
    chat_completions at_110 refusing blind lights_intent done None class_name repr
      one_word (Some hello) up =
      (Returned (completion_body one_word "primary" "hello" (JStr "done") 1, 200),
       s') /\
    trace s' = [EvMatchIntent "hello"; EvExecuteCommand "lights_on" "hello"] /\
    client s' = client up.
Proof.
  assert (Hp : "hello"%string <> ""%string) by discriminate.
  assert (Hi : "lights_on"%string <> ""%string) by discriminate.
  assert (Hn : ~ In "lights_on"%string VISION_INTENTS).
  { intros H. repeat (destruct H as [H|H]; [discriminate H|]). exact H. }
  destruct (local_command_reply at_110 refusing blind lights_intent done None
              class_name repr one_word hello "hello" "lights_on" up
              eq_refl Hp eq_refl Hi Hn)
    as (s' & Hrun & Htr & Hcl & _).
  exists s'. split; [exact Hrun|]. split; [exact Htr | exact Hcl].
Defined.

(** X22 at [up]: the intent "see" with the camera [blind]. *)
Lemma vision_error_reply_witness :
  exists s',
    chat_completions at_110 refusing blind see_intent done None class_name repr
      one_word (Some hello) up =
      (Returned (completion_body one_word "primary" "hello"
                   (JStr "Vision error: camera_failed") 1, 200), s') /\
    client s' = client up /\
    history s' = [{| e_user := "unknown"; e_prompt := "hello";
                     e_response := JStr "Vision error: camera_failed";
                     e_intent := Some "see"%string |}].
Proof.
  assert (Hp : "hello"%string <> ""%string) by discriminate.
  assert (Hin : In "see"%string VISION_INTENTS) by (left; reflexivity).
  destruct (vision_error_reply at_110 refusing blind see_intent done None
              class_name repr one_word hello "hello" "see" up
              eq_refl Hp eq_refl Hin eq_refl)
    as (s' & Hrun & _ & Hcl & Hh).
  exists s'. split; [exact Hrun|]. split; [exact Hcl | exact Hh].
Defined.

(** X23 at [up] with the backend [answering]: the reply is the completion. *)
Lemma forwarded_prompt_reply_witness :
  fst (chat_completions at_110 answering blind no_intent done None class_name repr
         one_word (Some hello) up) =
    Returned (completion_body one_word "primary" "hello" (JStr "hi") 1, 200).
Proof.
  assert (Hp : "hello"%string <> ""%string) by discriminate.
  pose (s1 := log (EvMatchIntent "hello") up).
  pose (s2 := snd (chat_completion at_110 answering "hello" None (7 # 10) 1000
                     (Some (system_prompt_for (linked_user_of None hello))) s1)).
  destruct (forwarded_prompt_reply at_110 answering blind no_intent done None
              class_name repr one_word hello "hello" up s1 s2 (JStr "hi")
              eq_refl Hp eq_refl eq_refl eq_refl "hi" eq_refl)
    as (Hrun & _).
  rewrite Hrun. reflexivity.
Defined.

(** X24 at [up] with the backend [list_reply]: the completion is a list. *)
Lemma non_string_completion_fails_witness :
  fst (chat_completions at_110 list_reply blind no_intent done None class_name repr
         one_word (Some hello) up) =
    Returned (JObj [("error", JStr "error"); ("type", JStr "server_error")], 500).
Proof.
  assert (Hp : "hello"%string <> ""%string) by discriminate.
  pose (s1 := log (EvMatchIntent "hello") up).
  pose (s2 := snd (chat_completion at_110 list_reply "hello" None (7 # 10) 1000
                     (Some (system_prompt_for (linked_user_of None hello))) s1)).
  destruct (non_string_completion_fails at_110 list_reply blind no_intent done None
              class_name repr one_word hello "hello" up s1 s2 (JArr [JStr "a"])
              eq_refl Hp eq_refl eq_refl eq_refl eq_refl)
    as (Hrun & _).
  rewrite (Hrun _ eq_refl). reflexivity.
Defined.

(** X1 at [up] with the backend [answering]: the forced check is healthy. *)
Lemma forced_check_probes_witness :
  exists s',
    health_check at_110 answering true up = (Returned true, s') /\
    _last_health_check (client s') = Some 110%Q.
Proof.
  destruct (forced_check_probes at_110 answering up)
    as (ok & s' & Hrun & _ & _ & Hl & Hok).
  assert (E : ok = true).
  { apply Hok. exists (Some (completion "hi")). reflexivity. }
  exists s'. rewrite E in Hrun. split; [exact Hrun | exact Hl].
Defined.

(** X4 at [up] with the backend [refusing]: fewer sleeps than POSTs. *)
Lemma chat_completion_is_bounded_witness :
  exists l,
    snd (chat_completion at_110 refusing "hello" None (7 # 10) 1000 None up)
      = extend l up /\
    (length (filter is_sleep l) < length (filter is_post l) <= 3)%nat.
Proof.
  destruct (chat_completion_is_bounded at_110 refusing "hello" None (7 # 10) 1000
              None up) as (s1 & l & Hs1 & Hrun & Hposts & _ & Hlt).
  assert (E : s1 = up) by (rewrite <- Hs1; reflexivity).
  rewrite E in Hrun. exists l. split; [exact Hrun|]. split; [|exact Hposts].
  apply Hlt. intros Hl. rewrite Hl in Hrun. vm_compute in Hrun. discriminate Hrun.
Defined.

(** X9 on a complete body: the content is returned. *)
Lemma content_extraction_witness :
  first_choice_content (completion "hi") up = (Returned (JStr "hi"), up).
Proof.
  destruct (content_extraction (completion "hi") up) as [H _].
  apply H. reflexivity.
Defined.

(** X10 at [up] with the backend [two_models]: both ids are listed. *)
Lemma loaded_models_listing_witness :
  fst (get_loaded_models two_models up) =
    Returned (Some [JStr "primary"; JStr "vision"]).
Proof.
  destruct (loaded_models_listing two_models up)
    as (r & Hrun & _ & _ & Hitems & _).
  rewrite Hrun. cbn [fst].
  rewrite (Hitems 200 _ _ eq_refl eq_refl eq_refl). reflexivity.
Defined.

(** X11 at [up] with the backend [two_models]: "vision" is loaded. *)
Lemma verify_model_membership_witness :
  fst (verify_model two_models "vision" up) = Returned true.
Proof.
  destruct (verify_model_membership two_models "vision" up) as (ok & Hrun & Hok).
  rewrite Hrun. cbn [fst]. f_equal. apply Hok.
  exists [JStr "primary"; JStr "vision"]. split; [reflexivity|].
  right. left. reflexivity.
Defined.

(** X12: a text of 24 characters replaces the instruction of "see". *)
Lemma vision_prompt_selection_witness :
  _get_vision_prompt "see" "What colour is the wall?" = "What colour is the wall?"%string.
Proof.
  apply (proj1 (vision_prompt_selection "see" "What colour is the wall?")).
  simpl. lia.
Defined.

(** X13 at [up] with the camera [seeing]. *)
Lemma capture_releases_after_read_witness :
  _capture_frame seeing up =
    (Returned (Some "AAAA"%string),
     extend [EvCameraOpen; EvSleep (2 # 10); EvCameraRead; EvCameraRelease] up).
Proof.
  destruct (capture_releases_after_read seeing up)
    as (image & l & Hrun & Himg & Hl & _).
  rewrite Hrun.
  rewrite (Hl true (Some "AAAA"%string) eq_refl).
  rewrite (proj2 (Himg "AAAA"%string) eq_refl). reflexivity.
Defined.

(** X16 at [up]: the memory file is left alone. *)
Lemma vision_intent_effects_witness :
  exists d s',
    handle_vision_intent at_110 answering seeing class_name "see" "" true up =
      (Returned d, s') /\
    memory_file s' = Missing.
Proof.
  destruct (vision_intent_effects at_110 answering seeing class_name "see" "" true up)
    as (d & s' & l & Hrun & _ & Hmf & _).
  exists d, s'. split; [exact Hrun | exact Hmf].
Defined.


(** X18 at [up]: the first entry of an empty history. *)
Lemma save_context_keeps_newest_witness :
  history (snd (save_context (numbered 1) up)) = [numbered 1].
Proof.
  destruct (save_context_keeps_newest (numbered 1) up) as (_ & _ & Hshort & _).
  apply Hshort. simpl. lia.
Defined.

(** X19 at [up]: the memory file is missing. *)
Lemma save_context_preserves_keys_witness :
  save_context (numbered 1) up =
    (Returned tt,
     set_memory_file
       (Stored {| recent_memory := Some [numbered 1];
                  known_intents := Some (JObj []);
                  other_keys := [] |}) up).
Proof.
  destruct (save_context_preserves_keys (numbered 1) up) as (data & Hrun & _ & Hnew).
  rewrite Hrun. rewrite (Hnew (or_introl eq_refl)). reflexivity.
Defined.

(** X20 at [up]. *)
Lemma load_after_save_witness :
  exists data,
    load_memory (snd (save_context (numbered 1) up)) =
      (Returned data, snd (save_context (numbered 1) up)) /\
    recent_memory data = Some [numbered 1].
Proof.
  destruct (load_after_save (numbered 1) up) as (data & Hs & Hload & Hrm & _).
  exists data. rewrite Hs. split; [exact Hload | exact Hrm].
Defined.


(** X26: with an empty "input", the last message gives the prompt. *)
Lemma prompt_precedence_witness :
  extract_prompt
    {| rb_prompt := None; rb_input := Some "";
       rb_messages :=
         Some [{| m_role := Some "user"; m_content := Some "first" |};
               {| m_role := Some "assistant"; m_content := Some "second" |}];
       rb_linked_user := None |} = Some "second"%string.
Proof.
  match goal with
  | |- extract_prompt ?b = _ => destruct (prompt_precedence b) as (_ & _ & H)
  end.
  exact (H eq_refl eq_refl
           [{| m_role := Some "user"; m_content := Some "first" |}]
           {| m_role := Some "assistant"; m_content := Some "second" |} eq_refl).
Defined.

(** X27 at [down]: no listing is requested. *)
Lemma health_route_witness :
  health at_110 refusing down =
    (Returned
       (JObj [("lana", JStr "healthy");
              ("lm_studio",
               JObj [("connected", JBool false);
                     ("endpoint", JStr "http://localhost:1234");
                     ("loaded_models", JArr [])])]), down).
Proof.
  destruct (health_route at_110 refusing down)
    as (ok & s1 & s2 & models & Hhc & Hrun & Hfalse & _).
  assert (E : health_check at_110 refusing false down = (Returned false, down))
    by reflexivity.
  rewrite E in Hhc. inversion Hhc as [[Hok Hs1]].
  rewrite <- Hok in Hfalse. destruct (Hfalse eq_refl) as [Hm Hs2].
  rewrite Hrun, Hm, Hs2, <- Hok, <- Hs1. reflexivity.
Defined.

(** X28 without a JSON body: status 500 and nothing done. *)
Lemma test_route_witness :
  exists reply, test at_110 refusing class_name None up = (Returned (reply, 500), up).
Proof.
  destruct (test_route at_110 refusing class_name None up)
    as (reply & status & s' & l & Hrun & _ & _ & Hnone & _).
  destruct (Hnone eq_refl) as [E Hs].
  exists reply. rewrite Hrun, E, Hs. reflexivity.
Defined.
